(** * Fabricant: the interactive workflow controller and its remote facades

    A shallow embedding of the Go sources:
    - package [auth]   (token provider),
    - package [fabric] (workspace-platform REST client),
    - package [devops] (repository-hosting REST client),
    - package [cmd]    (the Bubble Tea model: [initialModel], [Update] and the
      commands [initClientsCmd], [fetchWorkspacesCmd], [fetchGitConnectionCmd],
      [executeFlowCmd]).

    Conventions.
    - A Go [string] is a [string]; one character stands for one rune.
    - A Go [error] is represented by its [Error()] text; [fmt.Errorf("p: %w", e)]
      is the text ["p: "] followed by the text of [e].
    - A Go pointer that may be nil is an [option]; the one pointer that is
      written through ([selectedDevWorkspace]) points into an explicit heap.
    - A nil dereference or an index out of range is a panic: [None].
    - The network is a [World]: it answers token requests and HTTP requests.
      Every request that leaves the process is appended to a log of [Event]s. *)

From Stdlib Require Import ZArith String Ascii List Bool Lia.
From stdpp Require Import base tactics option list strings pretty relations.
Import ListNotations.

Local Open Scope Z_scope.
Local Open Scope list_scope.

(** ** Go values *)

Definition error := string.

Inductive result (A : Type) : Type :=
| Ok (a : A)
| Err (e : error).
Arguments Ok {A} a.
Arguments Err {A} e.

(** [fmt.Errorf(prefix + ": %w", e)] *)
Definition Errorf_w (prefix : string) (e : error) : error :=
  prefix +:+ ": " +:+ e.

(** [strings.HasPrefix(s, p)] *)
Fixpoint HasPrefix (s p : string) {struct p} : bool :=
  match p with
  | EmptyString => true
  | String c p' =>
      match s with
      | EmptyString => false
      | String d s' => Ascii.eqb d c && HasPrefix s' p'
      end
  end.

(** [s[n:]], for [n <= len(s)] *)
Fixpoint string_drop (n : nat) (s : string) : string :=
  match n, s with
  | O, _ => s
  | S n', String _ s' => string_drop n' s'
  | S _, EmptyString => EmptyString
  end.

(** [s[:n]], for [n <= len(s)] *)
Fixpoint string_take (n : nat) (s : string) : string :=
  match n, s with
  | O, _ => EmptyString
  | S n', String c s' => String c (string_take n' s')
  | S _, EmptyString => EmptyString
  end.

(** [strings.TrimPrefix(s, p)] *)
Definition TrimPrefix (s p : string) : string :=
  if HasPrefix s p then string_drop (String.length p) s else s.

(** [strings.Contains(s, sub)]; used only to state properties. *)
Fixpoint Contains (s sub : string) : bool :=
  HasPrefix s sub ||
  match s with
  | EmptyString => false
  | String _ s' => Contains s' sub
  end.

(** ** package auth *)

Record Authenticator : Type := { cred : nat }.

Definition DevOpsScope : string := "499b84ac-1321-427f-aa17-267ca6975798/.default".
Definition FabricScope : string := "https://api.fabric.microsoft.com/.default".

(** ** package fabric: data *)

Record GitProviderDetails : Type := {
  OrganizationName : string;
  ProjectName : string;
  RepositoryName : string;
  BranchName : string;
  DirectoryName : string;
  GitProviderType : string
}.

Record Workspace : Type := {
  Id : string;
  DisplayName : string;
  Description : string;
  Type_ : string;
  CapacityId : string;
  wsGitProviderDetails : option GitProviderDetails
}.

Record CreateWorkspaceRequest : Type := {
  reqDisplayName : string;
  reqDescription : string;
  reqCapacityId : string
}.

Record ConnectToGitRequest : Type := {
  reqGitProviderDetails : option GitProviderDetails
}.

Record GetGitConnectionResponse : Type := {
  respGitProviderDetails : option GitProviderDetails
}.

Record WorkspaceListResponse : Type := {
  wlValue : list Workspace
}.

(** ** package devops: data *)

Record GitRef : Type := {
  refName : string;
  ObjectId : string
}.

Record GitRefsResponse : Type := {
  Count : Z;
  Value : list GitRef
}.

Record GitRefUpdate : Type := {
  updName : string;
  OldObjectId : string;
  NewObjectId : string
}.

(** ** The HTTP exchange *)

Inductive Method : Type := GET | POST.

(** The value handed to [json.Marshal] as the request body. *)
Inductive Body : Type :=
| NoBody
| RefUpdatesBody (updates : list GitRefUpdate)
| CreateWorkspaceBody (req : CreateWorkspaceRequest)
| ConnectToGitBody (req : ConnectToGitRequest)
| UpdateFromGitBody (conflictResolutionType : string) (allowOverrideItems : bool).

Record Request : Type := {
  rqMethod : Method;
  rqURL : string;
  rqAuthorization : string;
  rqBody : Body
}.

Record HttpResponse : Type := {
  StatusCode : Z;
  RawBody : string
}.

(** What leaves the process. *)
Inductive Event : Type :=
| EvCredential
| EvToken (scope : string)
| EvSend (rq : Request).

(** The outside world: the credential store, the token service, the two REST
    services and the JSON decoder of each response type.  The services are
    stateful: their answer may depend on everything sent so far. *)
Record World : Type := {
  NewAzureCLICredential : list Event -> result nat;
  credGetToken : list Event -> string -> result string;
  NewRequestWithContext : Method -> string -> option error;
  httpDo : list Event -> Request -> result HttpResponse;
  decodeWorkspace : string -> result Workspace;
  decodeWorkspaceList : string -> result WorkspaceListResponse;
  decodeGitConnection : string -> result GetGitConnectionResponse;
  decodeGitRefs : string -> result GitRefsResponse
}.

(** Computations that talk to the world: they read it, extend the log, and
    either return a value or panic. *)
Definition io (A : Type) : Type := World -> list Event -> list Event * option A.

#[global] Instance io_ret : MRet io := fun A a _ log => (log, Some a).

#[global] Instance io_bind : MBind io := fun A B k c w log =>
  match c w log with
  | (log', Some a) => k a w log'
  | (log', None) => (log', None)
  end.

Definition io_panic {A} : io A := fun _ log => (log, None).

(** Send [ev] out and read the world's answer. *)
Definition io_emit {A} (ev : Event) (answer : World -> list Event -> A) : io A :=
  fun w log => (log ++ [ev], Some (answer w log)).

(** Local computations of the Go libraries whose outcome the process does not
    control (URL parsing, JSON decoding). *)
Definition io_ask {A} (f : World -> A) : io A := fun w log => (log, Some (f w)).

(** Run a computation from an empty log. *)
Definition io_run {A} (c : io A) (w : World) : list Event * option A := c w [].

(** ** package auth: operations *)

(** [NewAuthenticator]: a credential from the az cli context. *)
Definition NewAuthenticator : io (result (option Authenticator)) :=
  r ← io_emit EvCredential NewAzureCLICredential;
  match r with
  | Err e => mret (Err (Errorf_w "failed to create Azure CLI credential" e))
  | Ok c => mret (Ok (Some {| cred := c |}))
  end.

(** [Authenticator.GetToken]: reads [a.cred] of a non-nil receiver. *)
Definition GetToken (a : option Authenticator) (scope : string) : io (result string) :=
  match a with
  | None => io_panic
  | Some _ => io_emit (EvToken scope) (fun w log => credGetToken w log scope)
  end.

(** ** package fabric: client *)

Definition BaseURL : string := "https://api.fabric.microsoft.com/v1".

Record FabricClient : Type := { fabricAuth : option Authenticator }.

Definition fabric_NewClient (authenticator : option Authenticator) : option FabricClient :=
  Some {| fabricAuth := authenticator |}.

(** [fabric.Client.doRequest].  [json.Marshal] does not fail on the bodies
    this client sends, so the request is built first.  [out] is the decoder of
    the response type the caller passes a pointer to; the result [Ok None]
    leaves that value at its zero. *)
Definition fabric_doRequest {Out : Type} (c : option FabricClient) (method : Method)
    (path : string) (body : Body) (out : option (World -> string -> result Out))
  : io (result (option Out)) :=
  bad ← io_ask (fun w => NewRequestWithContext w method (BaseURL +:+ path));
  match bad with
  | Some e => mret (Err e)
  | None =>
      match c with
      | None => io_panic
      | Some cl =>
          tok ← GetToken (fabricAuth cl) FabricScope;
          match tok with
          | Err e => mret (Err (Errorf_w "failed to get fabric auth token" e))
          | Ok token =>
              let rq := {| rqMethod := method; rqURL := BaseURL +:+ path;
                           rqAuthorization := "Bearer " +:+ token; rqBody := body |} in
              resp ← io_emit (EvSend rq) (fun w log => httpDo w log rq);
              match resp with
              | Err e => mret (Err e)
              | Ok r =>
                  if 400 <=? StatusCode r then
                    mret (Err ("fabric API error " +:+ pretty (StatusCode r) +:+ ": " +:+ RawBody r))
                  else
                    match out with
                    | Some dec =>
                        if StatusCode r =? 204 then mret (Ok None)
                        else
                          d ← io_ask (fun w => dec w (RawBody r));
                          match d with
                          | Err e => mret (Err e)
                          | Ok v => mret (Ok (Some v))
                          end
                    | None => mret (Ok None)
                    end
              end
          end
      end
  end.

Definition zeroWorkspace : Workspace :=
  {| Id := ""; DisplayName := ""; Description := ""; Type_ := ""; CapacityId := "";
     wsGitProviderDetails := None |}.

(** [GET /workspaces/{id}/git/connection] *)
Definition GetGitConnection (c : option FabricClient) (id : string)
  : io (result GetGitConnectionResponse) :=
  r ← fabric_doRequest c GET ("/workspaces/" +:+ id +:+ "/git/connection") NoBody
        (Some decodeGitConnection);
  match r with
  | Err e => mret (Err e)
  | Ok (Some resp) => mret (Ok resp)
  | Ok None => mret (Ok {| respGitProviderDetails := None |})
  end.

(** [POST /workspaces] *)
Definition CreateWorkspace (c : option FabricClient) (req : CreateWorkspaceRequest)
  : io (result Workspace) :=
  r ← fabric_doRequest c POST "/workspaces" (CreateWorkspaceBody req) (Some decodeWorkspace);
  match r with
  | Err e => mret (Err e)
  | Ok (Some ws) => mret (Ok ws)
  | Ok None => mret (Ok zeroWorkspace)
  end.

(** [POST /workspaces/{id}/git/connect] *)
Definition ConnectWorkspaceToGit (c : option FabricClient) (workspaceId : string)
    (req : ConnectToGitRequest) : io (option error) :=
  let path := "/workspaces/" +:+ workspaceId +:+ "/git/connect" in
  r ← fabric_doRequest (Out := unit) c POST path (ConnectToGitBody req) None;
  match r with
  | Err e => mret (Some e)
  | Ok _ => mret None
  end.

(** [POST /workspaces/{id}/git/updateFromGit] *)
Definition UpdateWorkspaceFromGit (c : option FabricClient) (workspaceId : string)
  : io (option error) :=
  let path := "/workspaces/" +:+ workspaceId +:+ "/git/updateFromGit" in
  let req := UpdateFromGitBody "PreferRemote" true in
  r ← fabric_doRequest (Out := unit) c POST path req None;
  match r with
  | Err e => mret (Some e)
  | Ok _ => mret None
  end.

(** [GET /workspaces] *)
Definition ListWorkspaces (c : option FabricClient) : io (result (list Workspace)) :=
  r ← fabric_doRequest c GET "/workspaces" NoBody (Some decodeWorkspaceList);
  match r with
  | Err e => mret (Err e)
  | Ok (Some resp) => mret (Ok (wlValue resp))
  | Ok None => mret (Ok [])
  end.

(** ** package devops: client *)

Record DevopsClient : Type := { devopsAuth : option Authenticator }.

Definition devops_NewClient (authenticator : option Authenticator) : option DevopsClient :=
  Some {| devopsAuth := authenticator |}.

(** [devops.Client.doRequest] *)
Definition devops_doRequest {Out : Type} (c : option DevopsClient) (organization : string)
    (method : Method) (path : string) (body : Body)
    (out : option (World -> string -> result Out)) : io (result (option Out)) :=
  let baseURL := "https://dev.azure.com/" +:+ organization in
  bad ← io_ask (fun w => NewRequestWithContext w method (baseURL +:+ path));
  match bad with
  | Some e => mret (Err e)
  | None =>
      match c with
      | None => io_panic
      | Some cl =>
          tok ← GetToken (devopsAuth cl) DevOpsScope;
          match tok with
          | Err e => mret (Err (Errorf_w "getting devops token" e))
          | Ok token =>
              let rq := {| rqMethod := method; rqURL := baseURL +:+ path;
                           rqAuthorization := "Bearer " +:+ token; rqBody := body |} in
              resp ← io_emit (EvSend rq) (fun w log => httpDo w log rq);
              match resp with
              | Err e => mret (Err e)
              | Ok r =>
                  if 400 <=? StatusCode r then
                    mret (Err ("devops API error " +:+ pretty (StatusCode r) +:+ ": " +:+ RawBody r))
                  else
                    match out with
                    | Some dec =>
                        if StatusCode r =? 204 then mret (Ok None)
                        else
                          d ← io_ask (fun w => dec w (RawBody r));
                          match d with
                          | Err e => mret (Err e)
                          | Ok v => mret (Ok (Some v))
                          end
                    | None => mret (Ok None)
                    end
              end
          end
      end
  end.

Definition refsPrefix : string := "refs/heads/".

(** [GetBranchObjectId]: the commit the branch points to. *)
Definition GetBranchObjectId (c : option DevopsClient) (org project repo branchName : string)
  : io (result string) :=
  let filterName := TrimPrefix branchName refsPrefix in
  let path := "/" +:+ project +:+ "/_apis/git/repositories/" +:+ repo
              +:+ "/refs?filter=heads/" +:+ filterName +:+ "&api-version=7.1" in
  r ← devops_doRequest c org GET path NoBody (Some decodeGitRefs);
  match r with
  | Err e => mret (Err e)
  | Ok o =>
      let res := default {| Count := 0; Value := [] |} o in
      if Count res =? 0 then
        mret (Err ("branch " +:+ branchName +:+ " not found in repo " +:+ repo))
      else
        match Value res with
        | [] => io_panic
        | ref :: _ => mret (Ok (ObjectId ref))
        end
  end.

(** The fully-qualified ref name computed by [CreateBranch]. *)
Definition fullBranchName (newBranchName : string) : string :=
  if negb (HasPrefix newBranchName refsPrefix) then refsPrefix +:+ newBranchName
  else newBranchName.

Definition zeroObjectId : string := "0000000000000000000000000000000000000000".

(** [CreateBranch]: a new ref pointed at [baseObjectId]. *)
Definition CreateBranch (c : option DevopsClient) (org project repo newBranchName baseObjectId : string)
  : io (option error) :=
  let updates := [ {| updName := fullBranchName newBranchName;
                      OldObjectId := zeroObjectId;
                      NewObjectId := baseObjectId |} ] in
  let path := "/" +:+ project +:+ "/_apis/git/repositories/" +:+ repo
              +:+ "/refs?api-version=7.1" in
  r ← devops_doRequest (Out := unit) c org POST path (RefUpdatesBody updates) None;
  match r with
  | Err e => mret (Some e)
  | Ok _ => mret None
  end.

(** ** package cmd: messages *)

Inductive sessionState : Type :=
| stateInit
| stateLoadingWorkspaces
| stateSelectWorkspace
| stateLoadingGit
| stateEnterBranch
| stateEnterWorkspace
| stateExecuting
| stateDone
| stateError.

#[global] Instance sessionState_eq_dec : EqDecision sessionState.
Proof. solve_decision. Defined.

(** The messages [Update] receives.  A [tea.KeyMsg] is given by its [String()];
    [otherMsg] stands for every message type [Update] has no case for (spinner
    ticks, cursor blinks, mouse events). *)
Inductive Msg : Type :=
| KeyMsg (key : string)
| WindowSizeMsg (Width Height : Z)
| errMsg (err : error)
| clientsReadyMsg (auth : option Authenticator) (fabric : option FabricClient)
    (devops : option DevopsClient)
| workspacesMsg (workspaces : list Workspace)
| gitConnectionMsg (details : option GitProviderDetails)
| executionStepMsg (info : string)
| executionDoneMsg (msg : string)
| otherMsg (tag : nat).

(** ** The presentation widgets

    The widgets come from the bubbles library.  The fields and operations the
    controller itself uses are written out; how a widget reacts to a message is
    left open ([spinnerUpdate], [listUpdate], [textinputUpdate]), and so is
    where the list puts its cursor when it lays its pages out again
    ([paginatedIndex]). *)

Record workspaceItem : Type := { workspace : Workspace }.

Record listModel : Type := {
  lstItems : list workspaceItem;
  lstIndex : nat;
  lstTitle : string;
  lstShowStatusBar : bool;
  lstWidth : Z;
  lstHeight : Z
}.

Definition list_New (items : list workspaceItem) (width height : Z) : listModel :=
  {| lstItems := items; lstIndex := 0%nat; lstTitle := "List"; lstShowStatusBar := true;
     lstWidth := width; lstHeight := height |}.

Definition list_setTitle (t : string) (l : listModel) : listModel :=
  {| lstItems := lstItems l; lstIndex := lstIndex l; lstTitle := t;
     lstShowStatusBar := lstShowStatusBar l; lstWidth := lstWidth l; lstHeight := lstHeight l |}.

(** [SelectedItem()]: the highlighted item, nil when there is none. *)
Definition list_SelectedItem (l : listModel) : option workspaceItem :=
  lstItems l !! lstIndex l.

Record textinputModel : Type := {
  tiValue : string;
  tiPlaceholder : string;
  tiCharLimit : Z;
  tiFocus : bool
}.

Definition textinput_New : textinputModel :=
  {| tiValue := ""; tiPlaceholder := ""; tiCharLimit := 0; tiFocus := false |}.

Definition textinput_setPlaceholder (p : string) (t : textinputModel) : textinputModel :=
  {| tiValue := tiValue t; tiPlaceholder := p; tiCharLimit := tiCharLimit t;
     tiFocus := tiFocus t |}.

Definition textinput_setCharLimit (n : Z) (t : textinputModel) : textinputModel :=
  {| tiValue := tiValue t; tiPlaceholder := tiPlaceholder t; tiCharLimit := n;
     tiFocus := tiFocus t |}.

Definition textinput_Focus (t : textinputModel) : textinputModel :=
  {| tiValue := tiValue t; tiPlaceholder := tiPlaceholder t; tiCharLimit := tiCharLimit t;
     tiFocus := true |}.

Definition textinput_Value (t : textinputModel) : string := tiValue t.

(** [SetValue(s)]: with a positive [CharLimit], the input keeps the first
    [CharLimit] characters of [s]. *)
Definition textinput_SetValue (s : string) (t : textinputModel) : textinputModel :=
  let kept :=
    if (0 <? tiCharLimit t) && (tiCharLimit t <? Z.of_nat (String.length s))
    then string_take (Z.to_nat (tiCharLimit t)) s
    else s in
  {| tiValue := kept; tiPlaceholder := tiPlaceholder t; tiCharLimit := tiCharLimit t;
     tiFocus := tiFocus t |}.

Class Widgets : Type := {
  widgetCmd : Type;
  spinnerModel : Type;
  spinner_New : spinnerModel;
  spinner_Tick : widgetCmd;
  textinput_Blink : widgetCmd;
  spinnerUpdate : spinnerModel -> Msg -> spinnerModel * widgetCmd;
  listUpdate : listModel -> Msg -> listModel * widgetCmd;
  paginatedIndex : listModel -> nat;
  textinputUpdate : textinputModel -> Msg -> textinputModel * widgetCmd
}.

(** [updatePagination()]: the list computes its page size from the rendered
    heights and its pages from the items, and moves the cursor with them. *)
Definition list_updatePagination {W : Widgets} (l : listModel) : listModel :=
  {| lstItems := lstItems l; lstIndex := paginatedIndex l; lstTitle := lstTitle l;
     lstShowStatusBar := lstShowStatusBar l; lstWidth := lstWidth l; lstHeight := lstHeight l |}.

Definition list_SetShowStatusBar {W : Widgets} (b : bool) (l : listModel) : listModel :=
  list_updatePagination
    {| lstItems := lstItems l; lstIndex := lstIndex l; lstTitle := lstTitle l;
       lstShowStatusBar := b; lstWidth := lstWidth l; lstHeight := lstHeight l |}.

Definition list_SetItems {W : Widgets} (items : list workspaceItem) (l : listModel) : listModel :=
  list_updatePagination
    {| lstItems := items; lstIndex := lstIndex l; lstTitle := lstTitle l;
       lstShowStatusBar := lstShowStatusBar l; lstWidth := lstWidth l;
       lstHeight := lstHeight l |}.

Definition list_SetSize {W : Widgets} (width height : Z) (l : listModel) : listModel :=
  list_updatePagination
    {| lstItems := lstItems l; lstIndex := lstIndex l; lstTitle := lstTitle l;
       lstShowStatusBar := lstShowStatusBar l; lstWidth := width; lstHeight := height |}.

(** ** package cmd: the model *)

(** The heap holds the workspaces [selectedDevWorkspace] can point to. *)
Abbreviation heap := (list Workspace).
Abbreviation loc := nat.

Section Controller.
Context {W : Widgets}.

Record model : Type := {
  state : sessionState;
  err : option error;
  successMsg : string;
  executionInfos : list string;
  authClient : option Authenticator;
  fabricClient : option FabricClient;
  devopsClient : option DevopsClient;
  spinner : spinnerModel;
  workspaceLst : listModel;
  branchInput : textinputModel;
  wsInput : textinputModel;
  workspaces : list Workspace;
  selectedDevWorkspace : option loc;
  newBranchName : string;
  newWorkspaceName : string
}.

(** Field assignments [m.f = v]. *)
Definition set_state (v : sessionState) (m : model) : model :=
  {| state := v; err := err m; successMsg := successMsg m;
     executionInfos := executionInfos m; authClient := authClient m;
     fabricClient := fabricClient m; devopsClient := devopsClient m;
     spinner := spinner m; workspaceLst := workspaceLst m;
     branchInput := branchInput m; wsInput := wsInput m;
     workspaces := workspaces m; selectedDevWorkspace := selectedDevWorkspace m;
     newBranchName := newBranchName m; newWorkspaceName := newWorkspaceName m |}.

Definition set_err (v : option error) (m : model) : model :=
  {| state := state m; err := v; successMsg := successMsg m;
     executionInfos := executionInfos m; authClient := authClient m;
     fabricClient := fabricClient m; devopsClient := devopsClient m;
     spinner := spinner m; workspaceLst := workspaceLst m;
     branchInput := branchInput m; wsInput := wsInput m;
     workspaces := workspaces m; selectedDevWorkspace := selectedDevWorkspace m;
     newBranchName := newBranchName m; newWorkspaceName := newWorkspaceName m |}.

Definition set_successMsg (v : string) (m : model) : model :=
  {| state := state m; err := err m; successMsg := v;
     executionInfos := executionInfos m; authClient := authClient m;
     fabricClient := fabricClient m; devopsClient := devopsClient m;
     spinner := spinner m; workspaceLst := workspaceLst m;
     branchInput := branchInput m; wsInput := wsInput m;
     workspaces := workspaces m; selectedDevWorkspace := selectedDevWorkspace m;
     newBranchName := newBranchName m; newWorkspaceName := newWorkspaceName m |}.

Definition set_executionInfos (v : list string) (m : model) : model :=
  {| state := state m; err := err m; successMsg := successMsg m;
     executionInfos := v; authClient := authClient m;
     fabricClient := fabricClient m; devopsClient := devopsClient m;
     spinner := spinner m; workspaceLst := workspaceLst m;
     branchInput := branchInput m; wsInput := wsInput m;
     workspaces := workspaces m; selectedDevWorkspace := selectedDevWorkspace m;
     newBranchName := newBranchName m; newWorkspaceName := newWorkspaceName m |}.

Definition set_clients (a : option Authenticator) (f : option FabricClient)
    (d : option DevopsClient) (m : model) : model :=
  {| state := state m; err := err m; successMsg := successMsg m;
     executionInfos := executionInfos m; authClient := a;
     fabricClient := f; devopsClient := d;
     spinner := spinner m; workspaceLst := workspaceLst m;
     branchInput := branchInput m; wsInput := wsInput m;
     workspaces := workspaces m; selectedDevWorkspace := selectedDevWorkspace m;
     newBranchName := newBranchName m; newWorkspaceName := newWorkspaceName m |}.

Definition set_spinner (v : spinnerModel) (m : model) : model :=
  {| state := state m; err := err m; successMsg := successMsg m;
     executionInfos := executionInfos m; authClient := authClient m;
     fabricClient := fabricClient m; devopsClient := devopsClient m;
     spinner := v; workspaceLst := workspaceLst m;
     branchInput := branchInput m; wsInput := wsInput m;
     workspaces := workspaces m; selectedDevWorkspace := selectedDevWorkspace m;
     newBranchName := newBranchName m; newWorkspaceName := newWorkspaceName m |}.

Definition set_workspaceLst (v : listModel) (m : model) : model :=
  {| state := state m; err := err m; successMsg := successMsg m;
     executionInfos := executionInfos m; authClient := authClient m;
     fabricClient := fabricClient m; devopsClient := devopsClient m;
     spinner := spinner m; workspaceLst := v;
     branchInput := branchInput m; wsInput := wsInput m;
     workspaces := workspaces m; selectedDevWorkspace := selectedDevWorkspace m;
     newBranchName := newBranchName m; newWorkspaceName := newWorkspaceName m |}.

Definition set_branchInput (v : textinputModel) (m : model) : model :=
  {| state := state m; err := err m; successMsg := successMsg m;
     executionInfos := executionInfos m; authClient := authClient m;
     fabricClient := fabricClient m; devopsClient := devopsClient m;
     spinner := spinner m; workspaceLst := workspaceLst m;
     branchInput := v; wsInput := wsInput m;
     workspaces := workspaces m; selectedDevWorkspace := selectedDevWorkspace m;
     newBranchName := newBranchName m; newWorkspaceName := newWorkspaceName m |}.

Definition set_wsInput (v : textinputModel) (m : model) : model :=
  {| state := state m; err := err m; successMsg := successMsg m;
     executionInfos := executionInfos m; authClient := authClient m;
     fabricClient := fabricClient m; devopsClient := devopsClient m;
     spinner := spinner m; workspaceLst := workspaceLst m;
     branchInput := branchInput m; wsInput := v;
     workspaces := workspaces m; selectedDevWorkspace := selectedDevWorkspace m;
     newBranchName := newBranchName m; newWorkspaceName := newWorkspaceName m |}.

Definition set_workspaces (v : list Workspace) (m : model) : model :=
  {| state := state m; err := err m; successMsg := successMsg m;
     executionInfos := executionInfos m; authClient := authClient m;
     fabricClient := fabricClient m; devopsClient := devopsClient m;
     spinner := spinner m; workspaceLst := workspaceLst m;
     branchInput := branchInput m; wsInput := wsInput m;
     workspaces := v; selectedDevWorkspace := selectedDevWorkspace m;
     newBranchName := newBranchName m; newWorkspaceName := newWorkspaceName m |}.

Definition set_selectedDevWorkspace (v : option loc) (m : model) : model :=
  {| state := state m; err := err m; successMsg := successMsg m;
     executionInfos := executionInfos m; authClient := authClient m;
     fabricClient := fabricClient m; devopsClient := devopsClient m;
     spinner := spinner m; workspaceLst := workspaceLst m;
     branchInput := branchInput m; wsInput := wsInput m;
     workspaces := workspaces m; selectedDevWorkspace := v;
     newBranchName := newBranchName m; newWorkspaceName := newWorkspaceName m |}.

Definition set_newBranchName (v : string) (m : model) : model :=
  {| state := state m; err := err m; successMsg := successMsg m;
     executionInfos := executionInfos m; authClient := authClient m;
     fabricClient := fabricClient m; devopsClient := devopsClient m;
     spinner := spinner m; workspaceLst := workspaceLst m;
     branchInput := branchInput m; wsInput := wsInput m;
     workspaces := workspaces m; selectedDevWorkspace := selectedDevWorkspace m;
     newBranchName := v; newWorkspaceName := newWorkspaceName m |}.

Definition set_newWorkspaceName (v : string) (m : model) : model :=
  {| state := state m; err := err m; successMsg := successMsg m;
     executionInfos := executionInfos m; authClient := authClient m;
     fabricClient := fabricClient m; devopsClient := devopsClient m;
     spinner := spinner m; workspaceLst := workspaceLst m;
     branchInput := branchInput m; wsInput := wsInput m;
     workspaces := workspaces m; selectedDevWorkspace := selectedDevWorkspace m;
     newBranchName := newBranchName m; newWorkspaceName := v |}.

(** [*p.GitProviderDetails = d] on a heap cell. *)
Definition set_wsGitProviderDetails (d : option GitProviderDetails) (ws : Workspace)
  : Workspace :=
  {| Id := Id ws; DisplayName := DisplayName ws; Description := Description ws;
     Type_ := Type_ ws; CapacityId := CapacityId ws; wsGitProviderDetails := d |}.

(** A [tea.Cmd].  The four commands of the controller are method values: they
    carry the copy of the model they were taken from. *)
#[warnings="-register-all"] Inductive Cmd : Type :=
| CmdNil
| Quit
| WidgetCmd (c : widgetCmd)
| RunInitClients
| RunFetchWorkspaces (m : model)
| RunFetchGitConnection (m : model) (id : string)
| RunExecuteFlow (m : model)
| Batch (cmds : list Cmd).

Definition initialModel : model :=
  let s := spinner_New in
  let bi := textinput_New in
  let bi := textinput_setPlaceholder "feature/my-new-branch" bi in
  let bi := textinput_Focus bi in
  let bi := textinput_setCharLimit 100 bi in
  let wsi := textinput_New in
  let wsi := textinput_setPlaceholder "My Feature Workspace" wsi in
  let wsi := textinput_setCharLimit 100 wsi in
  let lst := list_New [] 0 0 in
  let lst := list_setTitle "Select Parent Dev Workspace" lst in
  let lst := list_SetShowStatusBar false lst in
  {| state := stateInit; err := None; successMsg := ""; executionInfos := [];
     authClient := None; fabricClient := None; devopsClient := None;
     spinner := s; workspaceLst := lst; branchInput := bi; wsInput := wsi;
     workspaces := []; selectedDevWorkspace := None;
     newBranchName := ""; newWorkspaceName := "" |}.

Definition Init (m : model) : Cmd := Batch [WidgetCmd spinner_Tick; RunInitClients].

(** How the first switch of [Update] ends: with a [return], by falling through
    to the state switch, or with a panic. *)
Inductive flow : Type :=
| Return (m : model) (h : heap) (c : Cmd)
| Continue (m : model)
| Panic.

(** The frame of [lipgloss.NewStyle().Margin(1, 2)]. *)
Definition frameSize : Z * Z := (4, 2).

Definition noGitIntegration : error :=
  "selected workspace does not have git integration (or unsupported provider)".

(** [switch msg := msg.(type)] *)
Definition onMessage (m : model) (h : heap) (msg : Msg) : flow :=
  match msg with
  | KeyMsg key =>
      if String.eqb key "ctrl+c" then Return m h Quit else Continue m
  | WindowSizeMsg Width Height =>
      let '(fh, fv) := frameSize in
      Continue (set_workspaceLst (list_SetSize (Width - fh) (Height - fv) (workspaceLst m)) m)
  | errMsg e =>
      let m := set_err (Some e) m in
      let m := set_state stateError m in
      Return m h CmdNil
  | clientsReadyMsg a f d =>
      let m := set_clients a f d m in
      let m := set_state stateLoadingWorkspaces m in
      Return m h (RunFetchWorkspaces m)
  | workspacesMsg ws =>
      let m := set_workspaces ws m in
      let items := map (fun w => {| workspace := w |}) (workspaces m) in
      let m := set_workspaceLst (list_SetItems items (workspaceLst m)) m in
      let m := set_state stateSelectWorkspace m in
      Return m h CmdNil
  | gitConnectionMsg details =>
      if match details with
         | None => true
         | Some d => String.eqb (GitProviderType d) ""
         end
      then
        let m := set_err (Some noGitIntegration) m in
        let m := set_state stateError m in
        Return m h CmdNil
      else
        match selectedDevWorkspace m with
        | None => Panic
        | Some p =>
            match h !! p with
            | None => Panic
            | Some ws =>
                let h := <[p := set_wsGitProviderDetails details ws]> h in
                let m := set_state stateEnterBranch m in
                Return m h (WidgetCmd textinput_Blink)
            end
        end
  | executionStepMsg info =>
      let m := set_executionInfos (executionInfos m ++ [info]) m in
      Return m h CmdNil
  | executionDoneMsg s =>
      let m := set_successMsg s m in
      let m := set_state stateDone m in
      Return m h Quit
  | otherMsg _ => Continue m
  end.

Definition isEnter (msg : Msg) : bool :=
  match msg with
  | KeyMsg key => String.eqb key "enter"
  | _ => false
  end.

(** [switch m.state] *)
Definition onState (m : model) (h : heap) (msg : Msg) : model * heap * Cmd :=
  match state m with
  | stateInit | stateLoadingWorkspaces | stateLoadingGit | stateExecuting =>
      let '(s, cmd) := spinnerUpdate (spinner m) msg in
      (set_spinner s m, h, Batch [WidgetCmd cmd])
  | stateSelectWorkspace =>
      match (if isEnter msg then list_SelectedItem (workspaceLst m) else None) with
      | Some i =>
          let p := length h in
          let h := h ++ [workspace i] in
          let m := set_selectedDevWorkspace (Some p) m in
          let m := set_state stateLoadingGit m in
          (m, h, RunFetchGitConnection m (Id (workspace i)))
      | None =>
          let '(l, cmd) := listUpdate (workspaceLst m) msg in
          (set_workspaceLst l m, h, Batch [WidgetCmd cmd])
      end
  | stateEnterBranch =>
      let m := if isEnter msg
               then set_newBranchName (textinput_Value (branchInput m)) m else m in
      if isEnter msg && negb (String.eqb (newBranchName m) "") then
        let m := set_state stateEnterWorkspace m in
        let m := set_wsInput (textinput_SetValue ("Feature - " +:+ newBranchName m) (wsInput m)) m in
        let m := set_wsInput (textinput_Focus (wsInput m)) m in
        (m, h, WidgetCmd textinput_Blink)
      else
        let '(t, cmd) := textinputUpdate (branchInput m) msg in
        (set_branchInput t m, h, Batch [WidgetCmd cmd])
  | stateEnterWorkspace =>
      let m := if isEnter msg
               then set_newWorkspaceName (textinput_Value (wsInput m)) m else m in
      if isEnter msg && negb (String.eqb (newWorkspaceName m) "") then
        let m := set_state stateExecuting m in
        (m, h, RunExecuteFlow m)
      else
        let '(t, cmd) := textinputUpdate (wsInput m) msg in
        (set_wsInput t m, h, Batch [WidgetCmd cmd])
  | stateDone | stateError => (m, h, Batch [])
  end.

(** [model.Update]; [None] is a panic. *)
Definition Update (m : model) (h : heap) (msg : Msg) : option (model * heap * Cmd) :=
  match onMessage m h msg with
  | Return m' h' c => Some (m', h', c)
  | Continue m' => Some (onState m' h msg)
  | Panic => None
  end.

(** ** package cmd: commands (side effects) *)

Definition initClientsCmd : io Msg :=
  r ← NewAuthenticator;
  match r with
  | Err e => mret (errMsg e)
  | Ok a => mret (clientsReadyMsg a (fabric_NewClient a) (devops_NewClient a))
  end.

Definition fetchWorkspacesCmd (m : model) : io Msg :=
  r ← ListWorkspaces (fabricClient m);
  match r with
  | Err e => mret (errMsg e)
  | Ok ws => mret (workspacesMsg ws)
  end.

Definition fetchGitConnectionCmd (m : model) (id : string) : io Msg :=
  r ← GetGitConnection (fabricClient m) id;
  match r with
  | Err e => mret (errMsg (Errorf_w "failed to get git connection" e))
  | Ok resp => mret (gitConnectionMsg (respGitProviderDetails resp))
  end.

(** [newGitInfo := *gitInfo; newGitInfo.BranchName = b] *)
Definition withBranchName (b : string) (g : GitProviderDetails) : GitProviderDetails :=
  {| OrganizationName := OrganizationName g; ProjectName := ProjectName g;
     RepositoryName := RepositoryName g; BranchName := b;
     DirectoryName := DirectoryName g; GitProviderType := GitProviderType g |}.

Definition successSummary : string :=
  "Workspace and Branch created and synced successfully!".

(** The create-workspace request built by [executeFlowCmd]. *)
Definition createRequest (m : model) (parent : Workspace) : CreateWorkspaceRequest :=
  {| reqDisplayName := newWorkspaceName m;
     reqDescription := "Feature workspace for " +:+ newBranchName m
                       +:+ " (Parent: " +:+ DisplayName parent +:+ ")";
     reqCapacityId := CapacityId parent |}.

(** [executeFlowCmd]: the five remote calls, stopping at the first error.  It
    reads the selected workspace through the pointer when it runs. *)
Definition executeFlowCmd (m : model) (h : heap) : io Msg :=
  match selectedDevWorkspace m ≫= (h !!.) with
  | None => io_panic
  | Some parent =>
      match wsGitProviderDetails parent with
      | None => io_panic
      | Some gitInfo =>
          r1 ← GetBranchObjectId (devopsClient m) (OrganizationName gitInfo)
                 (ProjectName gitInfo) (RepositoryName gitInfo) (BranchName gitInfo);
          match r1 with
          | Err e => mret (errMsg (Errorf_w "getting dev branch commit" e))
          | Ok baseCommitId =>
              r2 ← CreateBranch (devopsClient m) (OrganizationName gitInfo)
                     (ProjectName gitInfo) (RepositoryName gitInfo)
                     (newBranchName m) baseCommitId;
              match r2 with
              | Some e => mret (errMsg (Errorf_w "creating feature branch" e))
              | None =>
                  r3 ← CreateWorkspace (fabricClient m) (createRequest m parent);
                  match r3 with
                  | Err e => mret (errMsg (Errorf_w "creating workspace" e))
                  | Ok newWs =>
                      let newGitInfo := withBranchName (newBranchName m) gitInfo in
                      r4 ← ConnectWorkspaceToGit (fabricClient m) (Id newWs)
                             {| reqGitProviderDetails := Some newGitInfo |};
                      match r4 with
                      | Some e => mret (errMsg (Errorf_w "connecting git" e))
                      | None =>
                          r5 ← UpdateWorkspaceFromGit (fabricClient m) (Id newWs);
                          match r5 with
                          | Some e => mret (errMsg (Errorf_w "updating from git" e))
                          | None => mret (executionDoneMsg successSummary)
                          end
                      end
                  end
              end
          end
      end
  end.

(** The bodies of the five requests of the execution sequence, in call order;
    [base] is the commit the first call returned. *)
Definition plan (m : model) (parent : Workspace) (gitInfo : GitProviderDetails)
    (base : string) : list Body :=
  [ NoBody;
    RefUpdatesBody [ {| updName := fullBranchName (newBranchName m);
                        OldObjectId := zeroObjectId; NewObjectId := base |} ];
    CreateWorkspaceBody (createRequest m parent);
    ConnectToGitBody
      {| reqGitProviderDetails := Some (withBranchName (newBranchName m) gitInfo) |};
    UpdateFromGitBody "PreferRemote" true ].

(** The labels [executeFlowCmd] puts before the error of each step. *)
Definition stepLabels : list string :=
  [ "getting dev branch commit"; "creating feature branch"; "creating workspace";
    "connecting git"; "updating from git" ].

(** What [executeFlowCmd] can return after sending the first [k] requests. *)
Definition flowOutcome (k : nat) (res : option Msg) : Prop :=
  match res with
  | None => True
  | Some (executionDoneMsg s) => s = successSummary /\ k = 5%nat
  | Some (errMsg e) =>
      exists i label e0,
        stepLabels !! i = Some label /\ e = Errorf_w label e0 /\ (k <= S i)%nat
  | Some _ => False
  end.

(** ** The Bubble Tea runtime

    [tea.NewProgram(m).Run()] runs the commands [Init] and [Update] return and
    feeds their results, and the terminal's events, back to [Update]. *)

(** The remote commands inside a command. *)
Fixpoint remoteCmds (c : Cmd) : list Cmd :=
  match c with
  | CmdNil | Quit | WidgetCmd _ => []
  | Batch cs => (fix each (l : list Cmd) : list Cmd :=
                   match l with
                   | [] => []
                   | c' :: l' => remoteCmds c' ++ each l'
                   end) cs
  | _ => [c]
  end.

(** Running a remote command. *)
Definition perform (c : Cmd) (h : heap) : option (io Msg) :=
  match c with
  | RunInitClients => Some initClientsCmd
  | RunFetchWorkspaces m => Some (fetchWorkspacesCmd m)
  | RunFetchGitConnection m id => Some (fetchGitConnectionCmd m id)
  | RunExecuteFlow m => Some (executeFlowCmd m h)
  | _ => None
  end.

(** Messages that come from the terminal and the widgets. *)
Definition external (msg : Msg) : bool :=
  match msg with
  | KeyMsg _ | WindowSizeMsg _ _ | otherMsg _ => true
  | _ => false
  end.

Record program : Type := {
  current : model;
  store : heap;
  pending : list Cmd
}.

Definition start : program :=
  {| current := initialModel; store := []; pending := remoteCmds (Init initialModel) |}.

(** Deliver [msg]; the remote commands of the answer become pending. *)
Definition deliver (p : program) (others : list Cmd) (msg : Msg) : option program :=
  match Update (current p) (store p) msg with
  | None => None
  | Some (m, h, c) => Some {| current := m; store := h; pending := others ++ remoteCmds c |}
  end.

Inductive step : program -> program -> Prop :=
| step_external p msg p' :
    external msg = true ->
    deliver p (pending p) msg = Some p' ->
    step p p'
| step_result p before c after run w log msg p' :
    pending p = before ++ c :: after ->
    perform c (store p) = Some run ->
    io_run run w = (log, Some msg) ->
    deliver p (before ++ after) msg = Some p' ->
    step p p'.

Definition reachable (p : program) : Prop := rtc step start p.

(** One move of the runtime: the terminal delivers an event, or the oldest
    pending remote command completes against a world. *)
Inductive action : Type :=
| Deliver (msg : Msg)
| Complete (w : World).

Definition act (p : program) (a : action) : option program :=
  match a with
  | Deliver msg => if external msg then deliver p (pending p) msg else None
  | Complete w =>
      match pending p with
      | [] => None
      | c :: rest =>
          match perform c (store p) with
          | None => None
          | Some run =>
              match io_run run w with
              | (_, Some msg) => deliver p rest msg
              | (_, None) => None
              end
          end
      end
  end.

Fixpoint drive (p : program) (acts : list action) : option program :=
  match acts with
  | [] => Some p
  | a :: rest =>
      match act p a with
      | None => None
      | Some p' => drive p' rest
      end
  end.

(** ** Phases and runs *)

(** The phase that follows in the workflow order. *)
Definition nextPhase (p : sessionState) : option sessionState :=
  match p with
  | stateInit => Some stateLoadingWorkspaces
  | stateLoadingWorkspaces => Some stateSelectWorkspace
  | stateSelectWorkspace => Some stateLoadingGit
  | stateLoadingGit => Some stateEnterBranch
  | stateEnterBranch => Some stateEnterWorkspace
  | stateEnterWorkspace => Some stateExecuting
  | stateExecuting => Some stateDone
  | stateDone | stateError => None
  end.

(** The phases in which a remote operation is outstanding. *)
Definition awaiting (p : sessionState) : bool :=
  match p with
  | stateInit | stateLoadingWorkspaces | stateLoadingGit | stateExecuting => true
  | _ => false
  end.

(** An ordered move: stay, go to the next phase, or fail out of a phase that
    awaits a remote operation. *)
Definition phaseStep (a b : sessionState) : Prop :=
  b = a \/ nextPhase a = Some b \/ (b = stateError /\ awaiting a = true).

(** A confirmed user input or the result of a successful remote operation. *)
Definition confirming (msg : Msg) : bool :=
  match msg with
  | KeyMsg key => String.eqb key "enter"
  | clientsReadyMsg _ _ _ | workspacesMsg _ | executionStepMsg _ | executionDoneMsg _ => true
  | gitConnectionMsg (Some d) => negb (String.eqb (GitProviderType d) "")
  | _ => false
  end.

(** The states [Update] reaches from [initialModel], whatever the messages. *)
Inductive runs : model -> heap -> Prop :=
| runs_initial : runs initialModel []
| runs_update m h msg m' h' c :
    runs m h -> Update m h msg = Some (m', h', c) -> runs m' h'.

(** The phases in which the selected workspace is read or written through. *)
Definition usesSelection (p : sessionState) : bool :=
  match p with
  | stateLoadingGit | stateEnterBranch | stateEnterWorkspace | stateExecuting => true
  | _ => false
  end.

(** What every state of a run satisfies about the selected workspace: the
    pointer, when set, is into the heap; it is set in [stateLoadingGit]; and
    from [stateEnterBranch] to [stateExecuting] the workspace it points to has
    its git link. *)
Definition selectionOk (m : model) (h : heap) : Prop :=
  (forall p, selectedDevWorkspace m = Some p -> (p < length h)%nat) /\
  (state m = stateLoadingGit -> is_Some (selectedDevWorkspace m)) /\
  (state m = stateEnterBranch \/ state m = stateEnterWorkspace \/ state m = stateExecuting ->
   exists p ws g,
     selectedDevWorkspace m = Some p /\ h !! p = Some ws /\ wsGitProviderDetails ws = Some g).

(** What every state of the running program satisfies: the pending remote
    command is the one the phase awaits, no progress entry was recorded, and
    in [stateDone] the summary is the one [executeFlowCmd] returns. *)
Definition pendingOk (p : program) : Prop :=
  match state (current p) with
  | stateInit => pending p = [RunInitClients]
  | stateLoadingWorkspaces => exists m, pending p = [RunFetchWorkspaces m]
  | stateLoadingGit => exists m id, pending p = [RunFetchGitConnection m id]
  | stateExecuting => exists m, pending p = [RunExecuteFlow m]
  | _ => pending p = []
  end.

Definition programOk (p : program) : Prop :=
  pendingOk p /\
  executionInfos (current p) = [] /\
  (state (current p) = stateDone -> successMsg (current p) = successSummary).

(** The text a name-entry phase reads on "enter". *)
Definition enteredText (m : model) : string :=
  match state m with
  | stateEnterBranch => textinput_Value (branchInput m)
  | _ => textinput_Value (wsInput m)
  end.


End Controller.

(** ** Reading the log *)

(** The bodies of the HTTP requests sent, in order. *)
Fixpoint bodies (log : list Event) : list Body :=
  match log with
  | [] => []
  | EvSend rq :: rest => rqBody rq :: bodies rest
  | _ :: rest => bodies rest
  end.

(** Step 4 (link to git) or step 5 (update from git) of the execution sequence. *)
Definition isLinkOrSync (b : Body) : bool :=
  match b with
  | ConnectToGitBody _ | UpdateFromGitBody _ _ => true
  | _ => false
  end.

(** A computation that sends at most one request, with body [b], and has sent
    it whenever its result satisfies [ok]. *)
Definition sends_one {R} (b : Body) (ok : R -> Prop) (c : io R) : Prop :=
  forall w log, exists ext r,
    c w log = (log ++ ext, r) /\
    (bodies ext = [] \/ bodies ext = [b]) /\
    (forall a, r = Some a -> ok a -> bodies ext = [b]).

Definition isOk {A} (r : result A) : Prop := exists a, r = Ok a.
Definition isNil (e : option error) : Prop := e = None.

(** ** A concrete set of widgets

    A spinner that counts its updates, a list whose cursor follows the "up" and
    "down" keys and is pulled back onto the last item when the pages are laid
    out again, and a text input that appends the typed character while its
    character limit allows and drops the last one on "backspace". *)

Definition plain_listUpdate (l : listModel) (msg : Msg) : listModel * unit :=
  match msg with
  | KeyMsg "down" =>
      if bool_decide (S (lstIndex l) < length (lstItems l))%nat
      then ({| lstItems := lstItems l; lstIndex := S (lstIndex l); lstTitle := lstTitle l;
               lstShowStatusBar := lstShowStatusBar l; lstWidth := lstWidth l;
               lstHeight := lstHeight l |}, tt)
      else (l, tt)
  | KeyMsg "up" =>
      ({| lstItems := lstItems l; lstIndex := Nat.pred (lstIndex l); lstTitle := lstTitle l;
          lstShowStatusBar := lstShowStatusBar l; lstWidth := lstWidth l;
          lstHeight := lstHeight l |}, tt)
  | _ => (l, tt)
  end.

Definition plain_textinputUpdate (t : textinputModel) (msg : Msg) : textinputModel * unit :=
  match msg with
  | KeyMsg "backspace" =>
      ({| tiValue := string_take (Nat.pred (String.length (tiValue t))) (tiValue t);
          tiPlaceholder := tiPlaceholder t; tiCharLimit := tiCharLimit t;
          tiFocus := tiFocus t |}, tt)
  | KeyMsg (String c EmptyString) =>
      if tiFocus t &&
         ((tiCharLimit t <=? 0) || (Z.of_nat (String.length (tiValue t)) <? tiCharLimit t))
      then ({| tiValue := tiValue t +:+ String c EmptyString;
               tiPlaceholder := tiPlaceholder t; tiCharLimit := tiCharLimit t;
               tiFocus := tiFocus t |}, tt)
      else (t, tt)
  | _ => (t, tt)
  end.

Definition plainWidgets : Widgets :=
  {| widgetCmd := unit;
     spinnerModel := nat;
     spinner_New := 0%nat;
     spinner_Tick := tt;
     textinput_Blink := tt;
     spinnerUpdate := fun s _ => (S s, tt);
     listUpdate := plain_listUpdate;
     paginatedIndex := fun l => Nat.min (lstIndex l) (Nat.pred (length (lstItems l)));
     textinputUpdate := plain_textinputUpdate |}.

(** Typing [s], one key per character. *)
Fixpoint typing (s : string) : list Msg :=
  match s with
  | EmptyString => []
  | String c s' => KeyMsg (String c EmptyString) :: typing s'
  end.

(** ** Concrete worlds *)

Definition devLink : GitProviderDetails :=
  {| OrganizationName := "A"; ProjectName := "P"; RepositoryName := "R";
     BranchName := "main"; DirectoryName := "/"; GitProviderType := "AzureDevOps" |}.

Definition devWorkspace : Workspace :=
  {| Id := "ws-dev"; DisplayName := "Dev"; Description := ""; Type_ := "Workspace";
     CapacityId := "cap-1"; wsGitProviderDetails := None |}.

Definition newWorkspace : Workspace :=
  {| Id := "ws-new"; DisplayName := "Feature - feature/login"; Description := "";
     Type_ := "Workspace"; CapacityId := "cap-1"; wsGitProviderDetails := None |}.

(** A world in which every request is answered with [200], except those whose
    body [failing] selects, which are answered with [500]. *)
Definition worldFailing (failing : Body -> bool) : World :=
  {| NewAzureCLICredential := fun _ => Ok 1%nat;
     credGetToken := fun _ _ => Ok "token";
     NewRequestWithContext := fun _ _ => None;
     httpDo := fun _ rq =>
       if failing (rqBody rq)
       then Ok {| StatusCode := 500; RawBody := "internal error" |}
       else Ok {| StatusCode := 200; RawBody := "{}" |};
     decodeWorkspace := fun _ => Ok newWorkspace;
     decodeWorkspaceList := fun _ => Ok {| wlValue := [devWorkspace] |};
     decodeGitConnection := fun _ => Ok {| respGitProviderDetails := Some devLink |};
     decodeGitRefs := fun _ =>
       Ok {| Count := 1; Value := [ {| refName := "refs/heads/main"; ObjectId := "c0ffee" |} ] |} |}.

(** Every remote call succeeds. *)
Definition happyWorld : World := worldFailing (fun _ => false).

(** Workspace creation (step 3) is refused. *)
Definition noWorkspaceWorld : World :=
  worldFailing (fun b => match b with CreateWorkspaceBody _ => true | _ => false end).

(** The user's part of one session against [w]: wait for the clients and the
    workspace list, press "enter" on the highlighted workspace, wait for its
    git link, type [branch], press "enter", and press "enter" again to accept
    the proposed workspace name.  The execution sequence is then pending. *)
Definition untilExecuting (w : World) (branch : string) : list action :=
  [Complete w; Complete w; Deliver (KeyMsg "enter"); Complete w]
  ++ map Deliver (typing branch)
  ++ [Deliver (KeyMsg "enter"); Deliver (KeyMsg "enter")].

(** ** Concrete sessions, with the plain widgets *)

(** The program after [acts]; [start] if the program panicked on the way. *)
Definition after (acts : list action) : program (W := plainWidgets) :=
  default start (drive start acts).

(** The user's part up to the branch-name prompt. *)
Definition untilBranchPrompt (w : World) : list action :=
  [Complete w; Complete w; Deliver (KeyMsg "enter"); Complete w].

(** The model captured by the pending [executeFlowCmd], and the heap. *)
Definition pendingFlow (p : program (W := plainWidgets)) : model (W := plainWidgets) * heap :=
  match pending p with
  | [RunExecuteFlow mc] => (mc, store p)
  | _ => (current p, store p)
  end.

(** The message [initClientsCmd] returns for credential [1]. *)
Definition readyClients : Msg :=
  let a := Some {| cred := 1%nat |} in
  clientsReadyMsg a (fabric_NewClient a) (devops_NewClient a).

(** A branch name of 91 characters. *)
Definition longBranch : string :=
  "feature/customer-onboarding-wizard-rework-with-address-validation-and-duplicate-detection-2".

(** ** Further definitions *)

(** [GET /workspaces/{id}] *)
Definition GetWorkspace (c : option FabricClient) (id : string) : io (result Workspace) :=
  r ← fabric_doRequest c GET ("/workspaces/" +:+ id) NoBody (Some decodeWorkspace);
  match r with
  | Err e => mret (Err e)
  | Ok (Some ws) => mret (Ok ws)
  | Ok None => mret (Ok zeroWorkspace)
  end.

(** The request [fabric.Client.doRequest] sends once it holds [token]. *)
Definition fabricRequest (method : Method) (path token : string) (body : Body) : Request :=
  {| rqMethod := method; rqURL := BaseURL +:+ path;
     rqAuthorization := "Bearer " +:+ token; rqBody := body |}.

(** The request [devops.Client.doRequest] sends once it holds [token]. *)
Definition devopsRequest (organization : string) (method : Method) (path token : string)
    (body : Body) : Request :=
  {| rqMethod := method; rqURL := ("https://dev.azure.com/" +:+ organization) +:+ path;
     rqAuthorization := "Bearer " +:+ token; rqBody := body |}.

(** The path of the refs query of [GetBranchObjectId]. *)
Definition refsQueryPath (project repo branchName : string) : string :=
  "/" +:+ project +:+ "/_apis/git/repositories/" +:+ repo
  +:+ "/refs?filter=heads/" +:+ TrimPrefix branchName refsPrefix +:+ "&api-version=7.1".

(** The path of the ref update of [CreateBranch]. *)
Definition refsUpdatePath (project repo : string) : string :=
  "/" +:+ project +:+ "/_apis/git/repositories/" +:+ repo +:+ "/refs?api-version=7.1".

(** The requests sent, in order. *)
Fixpoint sends (log : list Event) : list Request :=
  match log with
  | [] => []
  | EvSend rq :: rest => rq :: sends rest
  | _ :: rest => sends rest
  end.

(** Between [log] and [log'] at most one request was sent, and it was
    [method] on [BaseURL] followed by [path], with [body]. *)
Definition fabricCall (method : Method) (path : string) (body : Body)
    (log log' : list Event) : Prop :=
  exists ext,
    log' = log ++ ext /\
    (length (sends ext) <= 1)%nat /\
    forall rq, In rq (sends ext) ->
      rqMethod rq = method /\ rqURL rq = BaseURL +:+ path /\ rqBody rq = body.

(** Clients as [initClientsCmd] builds them for credential [1]. *)
Definition readyFabric : option FabricClient := fabric_NewClient (Some {| cred := 1%nat |}).
Definition readyDevops : option DevopsClient := devops_NewClient (Some {| cred := 1%nat |}).

Definition sampleCreate : CreateWorkspaceRequest :=
  {| reqDisplayName := "Feature - feature/login";
     reqDescription := "Feature workspace for feature/login (Parent: Dev)";
     reqCapacityId := "cap-1" |}.

(** A world as [happyWorld], except that the refs query is answered with a
    count of one and an empty list of refs. *)
Definition malformedRefsWorld : World :=
  {| NewAzureCLICredential := NewAzureCLICredential happyWorld;
     credGetToken := credGetToken happyWorld;
     NewRequestWithContext := NewRequestWithContext happyWorld;
     httpDo := httpDo happyWorld;
     decodeWorkspace := decodeWorkspace happyWorld;
     decodeWorkspaceList := decodeWorkspaceList happyWorld;
     decodeGitConnection := decodeGitConnection happyWorld;
     decodeGitRefs := fun _ => Ok {| Count := 1; Value := [] |} |}.

(** A world as [happyWorld], except that every request is answered with 204
    and no body. *)
Definition noContentWorld : World :=
  {| NewAzureCLICredential := NewAzureCLICredential happyWorld;
     credGetToken := credGetToken happyWorld;
     NewRequestWithContext := NewRequestWithContext happyWorld;
     httpDo := fun _ _ => Ok {| StatusCode := 204; RawBody := "" |};
     decodeWorkspace := decodeWorkspace happyWorld;
     decodeWorkspaceList := decodeWorkspaceList happyWorld;
     decodeGitConnection := decodeGitConnection happyWorld;
     decodeGitRefs := decodeGitRefs happyWorld |}.

Section FurtherController.
Context {W : Widgets}.

(** The clients as [initClientsCmd] builds them: non-nil, sharing one
    authenticator. *)
Definition clientsReady (m : model) : Prop :=
  exists a,
    authClient m = Some a /\
    fabricClient m = Some {| fabricAuth := Some a |} /\
    devopsClient m = Some {| devopsAuth := Some a |}.

(** The events of a complete execution sequence: a token before each of the
    five requests.  [t1] to [t5] are the tokens, [base] the commit of the source
    branch and [newId] the id of the created workspace. *)
Definition successLog (m : model) (parent : Workspace) (gitInfo : GitProviderDetails)
    (t1 t2 t3 t4 t5 base newId : string) : list Event :=
  [ EvToken DevOpsScope;
    EvSend (devopsRequest (OrganizationName gitInfo) GET
              (refsQueryPath (ProjectName gitInfo) (RepositoryName gitInfo) (BranchName gitInfo))
              t1 NoBody);
    EvToken DevOpsScope;
    EvSend (devopsRequest (OrganizationName gitInfo) POST
              (refsUpdatePath (ProjectName gitInfo) (RepositoryName gitInfo)) t2
              (RefUpdatesBody [ {| updName := fullBranchName (newBranchName m);
                                   OldObjectId := zeroObjectId; NewObjectId := base |} ]));
    EvToken FabricScope;
    EvSend (fabricRequest POST "/workspaces" t3 (CreateWorkspaceBody (createRequest m parent)));
    EvToken FabricScope;
    EvSend (fabricRequest POST ("/workspaces/" +:+ newId +:+ "/git/connect") t4
              (ConnectToGitBody
                 {| reqGitProviderDetails := Some (withBranchName (newBranchName m) gitInfo) |}));
    EvToken FabricScope;
    EvSend (fabricRequest POST ("/workspaces/" +:+ newId +:+ "/git/updateFromGit") t5
              (UpdateFromGitBody "PreferRemote" true)) ].

(** What [executeFlowCmd] returns after sending the first [k] requests of the
    plan: the summary after all five, or the error of step [i + 1] after the
    [i] requests before it and, possibly, its own. *)
Definition flowResult (k : nat) (res : option Msg) : Prop :=
  match res with
  | None => True
  | Some (executionDoneMsg s) => s = successSummary /\ k = 5%nat
  | Some (errMsg e) =>
      exists i label e0,
        stepLabels !! i = Some label /\ e = Errorf_w label e0 /\
        (i <= k)%nat /\ (k <= S i)%nat
  | Some _ => False
  end.

(** A pending command that can run without a nil dereference of its own: its
    captured model has the clients, and the execution sequence finds the
    selected workspace and its git link in the heap. *)
Definition commandReady (h : heap) (c : Cmd) : Prop :=
  match c with
  | RunFetchWorkspaces mc | RunFetchGitConnection mc _ => clientsReady mc
  | RunExecuteFlow mc =>
      clientsReady mc /\
      exists parent g,
        selectedDevWorkspace mc ≫= (h !!.) = Some parent /\
        wsGitProviderDetails parent = Some g
  | _ => True
  end.

Definition commandsReady (p : program) : Prop :=
  (state (current p) <> stateInit -> state (current p) <> stateError ->
   clientsReady (current p)) /\
  (forall c, In c (pending p) -> commandReady (store p) c).

End FurtherController.


(** * Properties *)

(** ** Strings *)

Lemma HasPrefix_app (p s : string) : HasPrefix (p +:+ s) p = true.
Proof.
  induction p as [|c p IH]; simpl; [reflexivity|].
  rewrite Ascii.eqb_refl. exact IH.
Qed.

Lemma fullBranchName_qualified (name : string) :
  fullBranchName (refsPrefix +:+ name) = refsPrefix +:+ name.
Proof. unfold fullBranchName. rewrite HasPrefix_app. reflexivity. Qed.

Lemma fullBranchName_HasPrefix (name : string) :
  HasPrefix (fullBranchName name) refsPrefix = true.
Proof.
  unfold fullBranchName.
  destruct (HasPrefix name refsPrefix) eqn:E; cbn [negb]; [exact E | apply HasPrefix_app].
Qed.

Lemma eqb_empty_false (s : string) : s <> "" -> String.eqb s "" = false.
Proof. intros Hs. apply String.eqb_neq. exact Hs. Qed.

(** ** The log of a computation *)

Lemma bodies_app (l1 l2 : list Event) : bodies (l1 ++ l2) = bodies l1 ++ bodies l2.
Proof.
  induction l1 as [|ev l1 IH]; simpl; [reflexivity|].
  destruct ev; simpl; rewrite IH; reflexivity.
Qed.

Lemma io_bind_run {A B} (c : io A) (k : A -> io B) (w : World) (log : list Event) :
  (c ≫= k) w log =
  match c w log with
  | (log', Some a) => k a w log'
  | (log', None) => (log', None)
  end.
Proof. reflexivity. Qed.

Lemma io_ret_run {A} (a : A) (w : World) (log : list Event) :
  (mret a : io A) w log = (log, Some a).
Proof. reflexivity. Qed.

Ltac io_simpl :=
  repeat (rewrite ?io_bind_run, ?io_ret_run; unfold io_ask, io_emit, io_panic; simpl).

Ltac sends_none ext :=
  exists ext; eexists; split;
  [ rewrite ?app_nil_r, <- ?app_assoc; reflexivity
  | split;
    [ simpl; auto
    | let x := fresh "x" in
      let H := fresh "H" in
      let Hok := fresh "Hok" in
      intros x H Hok;
      first [ discriminate H
            | injection H as <-; try (destruct Hok as [? Hok]; discriminate Hok); auto ] ] ].

Lemma fabric_doRequest_sends {Out} c method path body
    (out : option (World -> string -> result Out)) :
  sends_one body isOk (fabric_doRequest c method path body out).
Proof.
  intros w log. unfold fabric_doRequest. io_simpl.
  destruct (NewRequestWithContext w method (BaseURL +:+ path)); [sends_none (@nil Event)|].
  destruct c as [cl|]; [|sends_none (@nil Event)].
  io_simpl. destruct (fabricAuth cl); simpl; [|sends_none (@nil Event)].
  destruct (credGetToken w log FabricScope) as [token|e]; io_simpl;
    [|sends_none [EvToken FabricScope]].
  set (rq := {| rqMethod := method; rqURL := _; rqAuthorization := _; rqBody := body |}).
  assert (Hsent : forall r : option (result (option Out)),
            exists ext r', (log ++ [EvToken FabricScope] ++ [EvSend rq], r) = (log ++ ext, r') /\
              (bodies ext = [] \/ bodies ext = [body]) /\
              (forall a, r' = Some a -> isOk a -> bodies ext = [body])).
  { intros r. exists [EvToken FabricScope; EvSend rq], r. simpl. auto. }
  rewrite <- app_assoc.
  destruct (httpDo w (log ++ [EvToken FabricScope]) rq) as [resp|e]; io_simpl; [|apply Hsent].
  destruct (400 <=? StatusCode resp); io_simpl; [apply Hsent|].
  destruct out as [dec|]; io_simpl; [|apply Hsent].
  destruct (StatusCode resp =? 204); io_simpl; [apply Hsent|].
  destruct (dec w (RawBody resp)); io_simpl; apply Hsent.
Qed.

Lemma devops_doRequest_sends {Out} c organization method path body
    (out : option (World -> string -> result Out)) :
  sends_one body isOk (devops_doRequest c organization method path body out).
Proof.
  intros w log. unfold devops_doRequest. io_simpl.
  set (url := ("https://dev.azure.com/" +:+ organization) +:+ path).
  destruct (NewRequestWithContext w method url); [sends_none (@nil Event)|].
  destruct c as [cl|]; [|sends_none (@nil Event)].
  io_simpl. destruct (devopsAuth cl); simpl; [|sends_none (@nil Event)].
  destruct (credGetToken w log DevOpsScope) as [token|e]; io_simpl;
    [|sends_none [EvToken DevOpsScope]].
  set (rq := {| rqMethod := method; rqURL := _; rqAuthorization := _; rqBody := body |}).
  assert (Hsent : forall r : option (result (option Out)),
            exists ext r', (log ++ [EvToken DevOpsScope] ++ [EvSend rq], r) = (log ++ ext, r') /\
              (bodies ext = [] \/ bodies ext = [body]) /\
              (forall a, r' = Some a -> isOk a -> bodies ext = [body])).
  { intros r. exists [EvToken DevOpsScope; EvSend rq], r. simpl. auto. }
  rewrite <- app_assoc.
  destruct (httpDo w (log ++ [EvToken DevOpsScope]) rq) as [resp|e]; io_simpl; [|apply Hsent].
  destruct (400 <=? StatusCode resp); io_simpl; [apply Hsent|].
  destruct out as [dec|]; io_simpl; [|apply Hsent].
  destruct (StatusCode resp =? 204); io_simpl; [apply Hsent|].
  destruct (dec w (RawBody resp)); io_simpl; apply Hsent.
Qed.

(** Post-processing a result without further requests keeps [sends_one]. *)
Lemma sends_one_then {R S} (b : Body) (ok : R -> Prop) (ok' : S -> Prop)
    (c : io R) (f : R -> io S) :
  sends_one b ok c ->
  (forall r, f r = io_panic \/ exists s, f r = mret s /\ (ok' s -> ok r)) ->
  sends_one b ok' (c ≫= f).
Proof.
  intros Hc Hf w log.
  destruct (Hc w log) as (ext & r & E & Hb & Hok).
  rewrite io_bind_run, E.
  destruct r as [a|].
  - destruct (Hf a) as [-> | (s & -> & Himp)].
    + exists ext, None. repeat split; [exact Hb | discriminate].
    + exists ext, (Some s). repeat split; [exact Hb|].
      intros s' [= <-] Hs. apply (Hok a); [reflexivity | auto].
  - exists ext, None. repeat split; [exact Hb | discriminate].
Qed.

Ltac pure_result :=
  right; eexists; split; [reflexivity|];
  let H := fresh "H" in
  let x := fresh "x" in
  intros H;
  first [ solve [eexists; reflexivity]
        | discriminate H
        | destruct H as [x H]; discriminate H ].

Lemma GetGitConnection_sends c id :
  sends_one NoBody isOk (GetGitConnection c id).
Proof.
  unfold GetGitConnection. eapply sends_one_then; [apply fabric_doRequest_sends|].
  intros [[resp|]|e]; pure_result.
Qed.

Lemma ListWorkspaces_sends c : sends_one NoBody isOk (ListWorkspaces c).
Proof.
  unfold ListWorkspaces. eapply sends_one_then; [apply fabric_doRequest_sends|].
  intros [[resp|]|e]; pure_result.
Qed.

Lemma CreateWorkspace_sends c req :
  sends_one (CreateWorkspaceBody req) isOk (CreateWorkspace c req).
Proof.
  unfold CreateWorkspace. eapply sends_one_then; [apply fabric_doRequest_sends|].
  intros [[ws|]|e]; pure_result.
Qed.

Lemma ConnectWorkspaceToGit_sends c workspaceId req :
  sends_one (ConnectToGitBody req) isNil (ConnectWorkspaceToGit c workspaceId req).
Proof.
  unfold ConnectWorkspaceToGit. eapply sends_one_then; [apply fabric_doRequest_sends|].
  intros [o|e]; pure_result.
Qed.

Lemma UpdateWorkspaceFromGit_sends c workspaceId :
  sends_one (UpdateFromGitBody "PreferRemote" true) isNil (UpdateWorkspaceFromGit c workspaceId).
Proof.
  unfold UpdateWorkspaceFromGit. eapply sends_one_then; [apply fabric_doRequest_sends|].
  intros [o|e]; pure_result.
Qed.

Lemma GetBranchObjectId_sends c org project repo branchName :
  sends_one NoBody isOk (GetBranchObjectId c org project repo branchName).
Proof.
  unfold GetBranchObjectId. eapply sends_one_then; [apply devops_doRequest_sends|].
  intros [o|e]; [|pure_result].
  destruct (Count (default {| Count := 0; Value := [] |} o) =? 0); [pure_result|].
  destruct (Value (default {| Count := 0; Value := [] |} o)); [left; reflexivity | pure_result].
Qed.

Lemma CreateBranch_sends c org project repo newBranchName baseObjectId :
  sends_one (RefUpdatesBody [ {| updName := fullBranchName newBranchName;
                                 OldObjectId := zeroObjectId;
                                 NewObjectId := baseObjectId |} ]) isNil
    (CreateBranch c org project repo newBranchName baseObjectId).
Proof.
  unfold CreateBranch. eapply sends_one_then; [apply devops_doRequest_sends|].
  intros [o|e]; pure_result.
Qed.

(** ** The execution sequence *)

Section Proofs.
Context {W : Widgets}.

Ltac flow_label_at i :=
  exists i; do 2 eexists; split; [reflexivity | split; [reflexivity | lia] ].

Ltac flow_label :=
  first [ flow_label_at 0%nat | flow_label_at 1%nat | flow_label_at 2%nat
        | flow_label_at 3%nat | flow_label_at 4%nat ].

Ltac flow_done base :=
  let H := fresh "H" in
  intros H; injection H as <- <-;
  rewrite ?bodies_app; simpl bodies;
  repeat match goal with
         | E : bodies ?ext = _ |- context [bodies ?ext] => rewrite E
         end;
  exists base;
  first [ exists 0%nat; split; [reflexivity|]
        | exists 1%nat; split; [reflexivity|]
        | exists 2%nat; split; [reflexivity|]
        | exists 3%nat; split; [reflexivity|]
        | exists 4%nat; split; [reflexivity|]
        | exists 5%nat; split; [reflexivity|] ];
  simpl; first [ exact I | split; reflexivity | flow_label ].

Ltac flow_sent Hok :=
  let E := fresh "E" in
  pose proof (Hok _ eq_refl) as E;
  first [ specialize (E (ex_intro _ _ eq_refl)) | specialize (E eq_refl) ];
  clear Hok.

Lemma executeFlowCmd_outcome m h w parent gitInfo log res :
  selectedDevWorkspace m ≫= (h !!.) = Some parent ->
  wsGitProviderDetails parent = Some gitInfo ->
  io_run (executeFlowCmd m h) w = (log, res) ->
  exists base k, bodies log = take k (plan m parent gitInfo base) /\ flowOutcome k res.
Proof.
  intros Hsel Hgit. unfold io_run, executeFlowCmd. rewrite Hsel, Hgit.
  rewrite io_bind_run.
  destruct (GetBranchObjectId_sends (devopsClient m) (OrganizationName gitInfo)
              (ProjectName gitInfo) (RepositoryName gitInfo) (BranchName gitInfo) w [])
    as (ext1 & r1 & -> & Hb1 & Hok1).
  destruct r1 as [[base|e]|]; [| destruct Hb1; flow_done EmptyString ..].
  flow_sent Hok1. clear Hb1.
  rewrite io_bind_run.
  destruct (CreateBranch_sends (devopsClient m) (OrganizationName gitInfo)
              (ProjectName gitInfo) (RepositoryName gitInfo) (newBranchName m) base
              w ([] ++ ext1))
    as (ext2 & r2 & -> & Hb2 & Hok2).
  destruct r2 as [[e|]|]; [destruct Hb2; flow_done base | | destruct Hb2; flow_done base].
  flow_sent Hok2. clear Hb2.
  rewrite io_bind_run.
  destruct (CreateWorkspace_sends (fabricClient m) (createRequest m parent)
              w (([] ++ ext1) ++ ext2))
    as (ext3 & r3 & -> & Hb3 & Hok3).
  destruct r3 as [[newWs|e]|]; [| destruct Hb3; flow_done base ..].
  flow_sent Hok3. clear Hb3.
  rewrite io_bind_run.
  destruct (ConnectWorkspaceToGit_sends (fabricClient m) (Id newWs)
              {| reqGitProviderDetails := Some (withBranchName (newBranchName m) gitInfo) |}
              w ((([] ++ ext1) ++ ext2) ++ ext3))
    as (ext4 & r4 & -> & Hb4 & Hok4).
  destruct r4 as [[e|]|]; [destruct Hb4; flow_done base | | destruct Hb4; flow_done base].
  flow_sent Hok4. clear Hb4.
  rewrite io_bind_run.
  destruct (UpdateWorkspaceFromGit_sends (fabricClient m) (Id newWs)
              w (((([] ++ ext1) ++ ext2) ++ ext3) ++ ext4))
    as (ext5 & r5 & -> & Hb5 & Hok5).
  destruct r5 as [[e|]|]; [destruct Hb5; flow_done base | | destruct Hb5; flow_done base].
  flow_sent Hok5. clear Hb5.
  flow_done base.
Qed.

(** ** Single steps of [Update] *)

Lemma textinput_SetValue_fits (s : string) (t : textinputModel) :
  tiCharLimit t <= 0 \/ Z.of_nat (String.length s) <= tiCharLimit t ->
  textinput_Value (textinput_SetValue s t) = s.
Proof.
  intros Hfit. unfold textinput_Value, textinput_SetValue. simpl.
  destruct (0 <? tiCharLimit t) eqn:E1; simpl; [|reflexivity].
  destruct (tiCharLimit t <? Z.of_nat (String.length s)) eqn:E2; [|reflexivity].
  apply Z.ltb_lt in E1, E2. lia.
Qed.

(** C4. A git-link result whose details are missing, or whose provider type is
    empty, always leads to [stateError] with the message about missing or
    unsupported git integration, in every phase and so in [stateLoadingGit];
    [Update] returns (no panic), leaves the heap alone, dispatches nothing, and
    the phase is not [stateEnterBranch]. *)
Theorem unusable_git_link_is_an_error (m : model) (h : heap)
    (details : option GitProviderDetails) :
  details = None \/ (exists d, details = Some d /\ GitProviderType d = "") ->
  exists m',
    Update m h (gitConnectionMsg details) = Some (m', h, CmdNil) /\
    state m' = stateError /\
    err m' = Some noGitIntegration /\
    state m' <> stateEnterBranch.
Proof.
  intros Hbad.
  exists (set_state stateError (set_err (Some noGitIntegration) m)).
  split; [|repeat split; discriminate].
  unfold Update, onMessage.
  destruct Hbad as [-> | (d & -> & Hd)]; [reflexivity|].
  rewrite Hd. reflexivity.
Qed.

(** C7. The ref name [CreateBranch] passes on is [fullBranchName name]: every
    request the call sends carries one ref update under that name, and with a
    client that holds an authenticator, a request that can be built and a
    token, the call does send that request.  The name starts with
    ["refs/heads/"]: a name that lacks the prefix gets it, a name that carries
    it is passed unchanged, normalising twice changes nothing, and the call
    made for a bare name is the call made for the same name with the prefix. *)
Theorem branch_ref_is_normalised (c : option DevopsClient)
    (org project repo name base : string) :
  (forall (w : World) (log : list Event),
     exists ext,
       fst (CreateBranch c org project repo name base w log) = log ++ ext /\
       (forall rq, In rq (sends ext) ->
          rqBody rq = RefUpdatesBody [ {| updName := fullBranchName name;
                                          OldObjectId := zeroObjectId;
                                          NewObjectId := base |} ]) /\
       (forall cl a token,
          c = Some cl -> devopsAuth cl = Some a ->
          NewRequestWithContext w POST
            (("https://dev.azure.com/" +:+ org) +:+ refsUpdatePath project repo) = None ->
          credGetToken w log DevOpsScope = Ok token ->
          sends ext =
          [devopsRequest org POST (refsUpdatePath project repo) token
             (RefUpdatesBody [ {| updName := fullBranchName name;
                                  OldObjectId := zeroObjectId;
                                  NewObjectId := base |} ])])) /\
  HasPrefix (fullBranchName name) refsPrefix = true /\
  fullBranchName (fullBranchName name) = fullBranchName name /\
  CreateBranch c org project repo (fullBranchName name) base =
  CreateBranch c org project repo name base /\
  (HasPrefix name refsPrefix = true -> fullBranchName name = name) /\
  (HasPrefix name refsPrefix = false ->
     fullBranchName name = refsPrefix +:+ name /\
     fullBranchName (refsPrefix +:+ name) = fullBranchName name /\
     CreateBranch c org project repo (refsPrefix +:+ name) base =
     CreateBranch c org project repo name base).
Proof.
  assert (Hidem : fullBranchName (fullBranchName name) = fullBranchName name).
  { unfold fullBranchName at 1. rewrite fullBranchName_HasPrefix. reflexivity. }
  split; [|split; [apply fullBranchName_HasPrefix|split; [exact Hidem|split; [|split]]]].
  - intros w log. unfold CreateBranch, devops_doRequest, refsUpdatePath, devopsRequest.
    io_simpl.
    destruct (NewRequestWithContext w POST _) as [e|] eqn:Hnew.
    { io_simpl. exists []. rewrite app_nil_r. split; [reflexivity|].
      split; [intros rq []|]. intros cl a token _ _ [=]. }
    destruct c as [cl|].
    2:{ io_simpl. exists []. rewrite app_nil_r. split; [reflexivity|].
        split; [intros rq []|]. intros cl a token [=]. }
    unfold GetToken. destruct (devopsAuth cl) as [a|] eqn:Ha.
    2:{ io_simpl. exists []. rewrite app_nil_r. split; [reflexivity|].
        split; [intros rq []|]. intros cl' a token [= <-]. rewrite Ha. intros [=]. }
    io_simpl. destruct (credGetToken w log DevOpsScope) as [token|e] eqn:Htok.
    2:{ io_simpl. exists [EvToken DevOpsScope]. split; [reflexivity|].
        split; [intros rq []|]. intros cl' a' token _ _ _ [=]. }
    io_simpl.
    match goal with
    | |- context [EvSend ?rq] =>
        exists [EvToken DevOpsScope; EvSend rq];
        split;
        [ destruct (httpDo w (log ++ [EvToken DevOpsScope]) rq) as [r|e]; io_simpl;
          [ destruct (400 <=? StatusCode r); io_simpl |];
          rewrite <- app_assoc; reflexivity
        | split;
          [ intros rq' [<-|[]]; reflexivity
          | intros cl' a' token' _ _ _ [= <-]; reflexivity ] ]
    end.
  - unfold CreateBranch. rewrite Hidem. reflexivity.
  - intros Hp. unfold fullBranchName. rewrite Hp. reflexivity.
  - intros Hp.
    assert (E : fullBranchName name = refsPrefix +:+ name).
    { unfold fullBranchName. rewrite Hp. reflexivity. }
    split; [exact E|]. split.
    + rewrite fullBranchName_qualified. symmetry. exact E.
    + unfold CreateBranch. rewrite fullBranchName_qualified, E. reflexivity.
Qed.

(** C8 (as amended). Confirming a non-empty branch name in [stateEnterBranch]
    moves to [stateEnterWorkspace], records the name, and sets the
    workspace-name input to ["Feature - "] followed by the name; the input
    keeps that text whole when it fits its character limit. *)
Theorem branch_confirm_prefills_workspace_name (m : model) (h : heap) (name : string) :
  state m = stateEnterBranch ->
  textinput_Value (branchInput m) = name ->
  name <> "" ->
  exists m',
    Update m h (KeyMsg "enter") = Some (m', h, WidgetCmd textinput_Blink) /\
    state m' = stateEnterWorkspace /\
    newBranchName m' = name /\
    wsInput m' = textinput_Focus (textinput_SetValue ("Feature - " +:+ name) (wsInput m)) /\
    (tiCharLimit (wsInput m) <= 0 \/
     Z.of_nat (String.length ("Feature - " +:+ name)) <= tiCharLimit (wsInput m) ->
     textinput_Value (wsInput m') = "Feature - " +:+ name).
Proof.
  intros Hst Hval Hne.
  eexists. split.
  - unfold Update, onMessage, onState. simpl. rewrite Hst. simpl.
    rewrite Hval, (eqb_empty_false _ Hne). simpl. reflexivity.
  - do 3 (split; [reflexivity|]).
    intros Hfit. exact (textinput_SetValue_fits _ (wsInput m) Hfit).
Qed.

(** C9. In a name-entry phase, "enter" on an empty text changes neither the
    phase nor the heap and dispatches no remote command; and a user event
    changes the phase only if it is "enter" on a non-empty text, and then to
    the next phase. *)
Theorem empty_name_is_not_accepted (m : model) (h : heap) :
  state m = stateEnterBranch \/ state m = stateEnterWorkspace ->
  (enteredText m = "" ->
   exists m' c,
     Update m h (KeyMsg "enter") = Some (m', h, c) /\
     state m' = state m /\ state m' <> stateError /\ remoteCmds c = []) /\
  (forall msg m' h' c,
     external msg = true ->
     Update m h msg = Some (m', h', c) ->
     state m' <> state m ->
     msg = KeyMsg "enter" /\ enteredText m <> "" /\ nextPhase (state m) = Some (state m')).
Proof.
  intros Hst. split.
  - intros Hempty. unfold enteredText in Hempty.
    unfold Update, onMessage, onState. simpl.
    destruct Hst as [Hst|Hst]; rewrite Hst in *; simpl; rewrite Hempty; simpl.
    + destruct (textinputUpdate (branchInput m) (KeyMsg "enter")) as [t cmd].
      do 2 eexists. split; [reflexivity|]. simpl. rewrite Hst.
      repeat split; discriminate.
    + destruct (textinputUpdate (wsInput m) (KeyMsg "enter")) as [t cmd].
      do 2 eexists. split; [reflexivity|]. simpl. rewrite Hst.
      repeat split; discriminate.
  - intros msg m' h' c Hext Hup Hchg.
    unfold enteredText.
    unfold Update in Hup.
    destruct msg; try discriminate Hext; simpl in Hup.
    + destruct (String.eqb key "ctrl+c").
      { injection Hup as <- <- <-. contradiction. }
      unfold onState in Hup. simpl in Hup.
      destruct Hst as [Hst|Hst]; rewrite Hst in *; simpl in Hup.
      * destruct (String.eqb key "enter") eqn:Ek; simpl in Hup.
        -- apply String.eqb_eq in Ek. subst key.
           destruct (String.eqb (textinput_Value (branchInput m)) "") eqn:Ev; simpl in Hup.
           ++ destruct (textinputUpdate (branchInput m) (KeyMsg "enter")).
              injection Hup as <- <- <-. simpl in Hchg. congruence.
           ++ injection Hup as <- <- <-. simpl.
              apply String.eqb_neq in Ev. auto.
        -- destruct (textinputUpdate (branchInput m) (KeyMsg key)).
           injection Hup as <- <- <-. simpl in Hchg. congruence.
      * destruct (String.eqb key "enter") eqn:Ek; simpl in Hup.
        -- apply String.eqb_eq in Ek. subst key.
           destruct (String.eqb (textinput_Value (wsInput m)) "") eqn:Ev; simpl in Hup.
           ++ destruct (textinputUpdate (wsInput m) (KeyMsg "enter")).
              injection Hup as <- <- <-. simpl in Hchg. congruence.
           ++ injection Hup as <- <- <-. simpl.
              apply String.eqb_neq in Ev. auto.
        -- destruct (textinputUpdate (wsInput m) (KeyMsg key)).
           injection Hup as <- <- <-. simpl in Hchg. congruence.
    + unfold onState in Hup. simpl in Hup.
      destruct Hst as [Hst|Hst]; rewrite Hst in *; simpl in Hup.
      * destruct (textinputUpdate (branchInput m) (WindowSizeMsg Width Height)).
        injection Hup as <- <- <-. simpl in Hchg. congruence.
      * destruct (textinputUpdate (wsInput m) (WindowSizeMsg Width Height)).
        injection Hup as <- <- <-. simpl in Hchg. congruence.
    + unfold onState in Hup. simpl in Hup.
      destruct Hst as [Hst|Hst]; rewrite Hst in *; simpl in Hup.
      * destruct (textinputUpdate (branchInput m) (otherMsg tag)).
        injection Hup as <- <- <-. simpl in Hchg. congruence.
      * destruct (textinputUpdate (wsInput m) (otherMsg tag)).
        injection Hup as <- <- <-. simpl in Hchg. congruence.
Qed.

(** ** The requests of the execution sequence *)

Lemma Contains_prefix (s sub : string) : HasPrefix s sub = true -> Contains s sub = true.
Proof. intros H. destruct s; simpl; rewrite H; reflexivity. Qed.

Lemma Contains_app (a s b : string) : Contains (a +:+ s +:+ b) s = true.
Proof.
  induction a as [|c a IH].
  - apply Contains_prefix. exact (HasPrefix_app s b).
  - change (String c a +:+ s +:+ b) with (String c (a +:+ s +:+ b)).
    cbn [Contains]. rewrite IH. apply orb_true_r.
Qed.

Lemma Contains_skip (a t s : string) : Contains t s = true -> Contains (a +:+ t) s = true.
Proof.
  intros H. induction a as [|c a IH]; [exact H|].
  change (String c a +:+ t) with (String c (a +:+ t)).
  cbn [Contains]. rewrite IH. apply orb_true_r.
Qed.

(** Only the third request of the plan creates a workspace. *)
Lemma plan_create m parent gitInfo base k req :
  In (CreateWorkspaceBody req) (take k (plan m parent gitInfo base)) ->
  req = createRequest m parent.
Proof.
  intros Hin. apply list_elem_of_In in Hin.
  apply (subseteq_take k) in Hin. apply list_elem_of_In in Hin.
  simpl in Hin.
  destruct Hin as [H|[H|[H|[H|[H|[]]]]]]; try discriminate H.
  injection H as ->. reflexivity.
Qed.

(** C3. When the first two steps succeed and [CreateWorkspace] returns an
    error, [executeFlowCmd] stops there: nothing of step 4 or 5 was sent, and
    the message it returns puts [Update] in [stateError] with the error text
    ["creating workspace: "] followed by the facade's error; of the five step
    labels only the third one starts that text. *)
Theorem workspace_creation_failure_stops_the_sequence (m : model) (h : heap) (w : World)
    (parent : Workspace) (gitInfo : GitProviderDetails) (base : string)
    (log1 log2 log3 : list Event) (e : error) :
  selectedDevWorkspace m ≫= (h !!.) = Some parent ->
  wsGitProviderDetails parent = Some gitInfo ->
  GetBranchObjectId (devopsClient m) (OrganizationName gitInfo) (ProjectName gitInfo)
    (RepositoryName gitInfo) (BranchName gitInfo) w [] = (log1, Some (Ok base)) ->
  CreateBranch (devopsClient m) (OrganizationName gitInfo) (ProjectName gitInfo)
    (RepositoryName gitInfo) (newBranchName m) base w log1 = (log2, Some None) ->
  CreateWorkspace (fabricClient m) (createRequest m parent) w log2 = (log3, Some (Err e)) ->
  io_run (executeFlowCmd m h) w = (log3, Some (errMsg (Errorf_w "creating workspace" e))) /\
  Forall (fun b => isLinkOrSync b = false) (bodies log3) /\
  (forall (m0 : model) (h0 : heap),
     exists m1,
       Update m0 h0 (errMsg (Errorf_w "creating workspace" e)) = Some (m1, h0, CmdNil) /\
       state m1 = stateError /\
       err m1 = Some ("creating workspace: " +:+ e)) /\
  (forall (i : nat) (label : string),
     stepLabels !! i = Some label ->
     HasPrefix ("creating workspace: " +:+ e) label = true -> i = 2%nat).
Proof.
  intros Hsel Hgit H1 H2 H3.
  assert (Hrun : io_run (executeFlowCmd m h) w
                 = (log3, Some (errMsg (Errorf_w "creating workspace" e)))).
  { unfold io_run, executeFlowCmd. rewrite Hsel, Hgit.
    rewrite io_bind_run, H1, io_bind_run, H2, io_bind_run, H3. reflexivity. }
  split; [exact Hrun|]. split; [|split].
  - destruct (GetBranchObjectId_sends (devopsClient m) (OrganizationName gitInfo)
                (ProjectName gitInfo) (RepositoryName gitInfo) (BranchName gitInfo) w [])
      as (ext1 & r1 & E1 & Hb1 & _).
    rewrite H1 in E1. injection E1 as E1 _.
    destruct (CreateBranch_sends (devopsClient m) (OrganizationName gitInfo)
                (ProjectName gitInfo) (RepositoryName gitInfo) (newBranchName m) base
                w log1)
      as (ext2 & r2 & E2 & Hb2 & _).
    rewrite H2 in E2. injection E2 as E2 _.
    destruct (CreateWorkspace_sends (fabricClient m) (createRequest m parent) w log2)
      as (ext3 & r3 & E3 & Hb3 & _).
    rewrite H3 in E3. injection E3 as E3 _.
    rewrite E3, E2, E1, !bodies_app. simpl.
    destruct Hb1 as [-> | ->], Hb2 as [-> | ->], Hb3 as [-> | ->];
      simpl; repeat constructor.
  - intros m0 h0. eexists. split; [reflexivity|]. split; reflexivity.
  - intros i label Hi Hp.
    do 5 (destruct i as [|i]; [injection Hi as <-; first [reflexivity | discriminate Hp]|]).
    discriminate Hi.
Qed.

(** C5 (as amended). After a successful run the log holds the five requests of
    the plan, in order; the fourth links the new workspace with the source's
    organization, project, repository, directory and provider and with the
    branch name the user chose. *)
Theorem new_workspace_is_linked_to_the_chosen_branch (m : model) (h : heap) (w : World)
    (parent : Workspace) (gitInfo : GitProviderDetails) (log : list Event) (s : string) :
  selectedDevWorkspace m ≫= (h !!.) = Some parent ->
  wsGitProviderDetails parent = Some gitInfo ->
  io_run (executeFlowCmd m h) w = (log, Some (executionDoneMsg s)) ->
  exists base link,
    bodies log = plan m parent gitInfo base /\
    bodies log !! 3%nat = Some (ConnectToGitBody {| reqGitProviderDetails := Some link |}) /\
    OrganizationName link = OrganizationName gitInfo /\
    ProjectName link = ProjectName gitInfo /\
    RepositoryName link = RepositoryName gitInfo /\
    DirectoryName link = DirectoryName gitInfo /\
    GitProviderType link = GitProviderType gitInfo /\
    BranchName link = newBranchName m.
Proof.
  intros Hsel Hgit Hrun.
  destruct (executeFlowCmd_outcome _ _ _ _ _ _ _ Hsel Hgit Hrun) as (base & k & Hb & _ & ->).
  exists base, (withBranchName (newBranchName m) gitInfo).
  rewrite Hb. repeat split.
Qed.

(** C6 (as amended). Whatever the outcome of a run, a create-workspace request
    in its log carries the display name the user chose, the capacity of the
    parent workspace, and the description ["Feature workspace for <new branch
    name> (Parent: <parent display name>)"], which mentions the new branch and
    the parent workspace. *)
Theorem create_workspace_request_contents (m : model) (h : heap) (w : World)
    (parent : Workspace) (gitInfo : GitProviderDetails) (log : list Event)
    (res : option Msg) (req : CreateWorkspaceRequest) :
  selectedDevWorkspace m ≫= (h !!.) = Some parent ->
  wsGitProviderDetails parent = Some gitInfo ->
  io_run (executeFlowCmd m h) w = (log, res) ->
  In (CreateWorkspaceBody req) (bodies log) ->
  reqDisplayName req = newWorkspaceName m /\
  reqCapacityId req = CapacityId parent /\
  reqDescription req =
    "Feature workspace for " +:+ newBranchName m +:+ " (Parent: " +:+ DisplayName parent +:+ ")" /\
  Contains (reqDescription req) (newBranchName m) = true /\
  Contains (reqDescription req) (DisplayName parent) = true.
Proof.
  intros Hsel Hgit Hrun Hin.
  destruct (executeFlowCmd_outcome _ _ _ _ _ _ _ Hsel Hgit Hrun) as (base & k & Hb & _).
  rewrite Hb in Hin. apply plan_create in Hin. subst req.
  do 3 (split; [reflexivity|]). split.
  - apply Contains_app.
  - unfold createRequest, reqDescription.
    do 2 apply Contains_skip. apply Contains_app.
Qed.

(** ** The selected workspace *)

Lemma selectionOk_initial : selectionOk initialModel [].
Proof.
  repeat split; simpl; try discriminate.
  intros [H|[H|H]]; discriminate H.
Qed.

Lemma selectionOk_same (m m' : model) (h : heap) :
  selectedDevWorkspace m' = selectedDevWorkspace m ->
  (state m' = state m \/ usesSelection (state m') = false \/
   (state m <> stateLoadingGit /\ usesSelection (state m) = true /\
    state m' <> stateLoadingGit)) ->
  selectionOk m h -> selectionOk m' h.
Proof.
  intros Hsel Hst (Hp & Hl & Hg). unfold selectionOk. rewrite Hsel.
  split; [exact Hp|].
  destruct Hst as [Hst | [Hst | (Hn & Hu & Hn')]].
  - rewrite Hst. auto.
  - split; intros H; [rewrite H in Hst | destruct H as [H|[H|H]]; rewrite H in Hst];
      discriminate Hst.
  - split; [intros H; contradiction|].
    intros _. apply Hg.
    destruct (state m); try discriminate Hu; try contradiction; auto.
Qed.

Ltac same_selection Hok Hst :=
  apply (selectionOk_same _ _ _ eq_refl); [simpl; rewrite ?Hst; simpl; auto | exact Hok].

Lemma selectionOk_onState (m : model) (h : heap) (msg : Msg)
    (m' : model) (h' : heap) (c : Cmd) :
  selectionOk m h -> onState m h msg = (m', h', c) -> selectionOk m' h'.
Proof.
  intros Hok. unfold onState.
  destruct (state m) eqn:Hst.
  - destruct (spinnerUpdate (spinner m) msg). intros [= <- <- <-]. same_selection Hok Hst.
  - destruct (spinnerUpdate (spinner m) msg). intros [= <- <- <-]. same_selection Hok Hst.
  - destruct (if isEnter msg then list_SelectedItem (workspaceLst m) else None) as [i|].
    + intros [= <- <- <-]. unfold selectionOk. simpl. split; [|split].
      * intros p [= <-]. rewrite length_app. simpl. lia.
      * intros _. eexists. reflexivity.
      * intros [H|[H|H]]; discriminate H.
    + destruct (listUpdate (workspaceLst m) msg). intros [= <- <- <-]. same_selection Hok Hst.
  - destruct (spinnerUpdate (spinner m) msg). intros [= <- <- <-]. same_selection Hok Hst.
  - destruct (isEnter msg); simpl.
    + destruct (negb (String.eqb (textinput_Value (branchInput m)) "")).
      * intros [= <- <- <-]. apply (selectionOk_same m); [reflexivity | | exact Hok].
        right. right. rewrite Hst. simpl. repeat split; discriminate.
      * destruct (textinputUpdate (branchInput m) msg). intros [= <- <- <-].
        same_selection Hok Hst.
    + destruct (textinputUpdate (branchInput m) msg). intros [= <- <- <-].
      same_selection Hok Hst.
  - destruct (isEnter msg); simpl.
    + destruct (negb (String.eqb (textinput_Value (wsInput m)) "")).
      * intros [= <- <- <-]. apply (selectionOk_same m); [reflexivity | | exact Hok].
        right. right. rewrite Hst. simpl. repeat split; discriminate.
      * destruct (textinputUpdate (wsInput m) msg). intros [= <- <- <-].
        same_selection Hok Hst.
    + destruct (textinputUpdate (wsInput m) msg). intros [= <- <- <-].
      same_selection Hok Hst.
  - destruct (spinnerUpdate (spinner m) msg). intros [= <- <- <-]. same_selection Hok Hst.
  - intros [= <- <- <-]. exact Hok.
  - intros [= <- <- <-]. exact Hok.
Qed.

Lemma selectionOk_leave (m m' : model) (h : heap) :
  selectedDevWorkspace m' = selectedDevWorkspace m ->
  usesSelection (state m') = false ->
  selectionOk m h -> selectionOk m' h.
Proof. intros Hsel Hst. apply selectionOk_same; auto. Qed.

Lemma selectionOk_Update (m : model) (h : heap) (msg : Msg)
    (m' : model) (h' : heap) (c : Cmd) :
  selectionOk m h -> Update m h msg = Some (m', h', c) -> selectionOk m' h'.
Proof.
  intros Hok Hup. unfold Update in Hup.
  destruct msg; simpl in Hup.
  - destruct (String.eqb key "ctrl+c"); [injection Hup as <- <- <-; exact Hok|].
    injection Hup as Hup. exact (selectionOk_onState _ _ _ _ _ _ Hok Hup).
  - injection Hup as Hup. refine (selectionOk_onState _ _ _ _ _ _ _ Hup).
    apply (selectionOk_same m); [reflexivity | left; reflexivity | exact Hok].
  - injection Hup as <- <- <-. apply (selectionOk_leave m); [reflexivity..|exact Hok].
  - injection Hup as <- <- <-. apply (selectionOk_leave m); [reflexivity..|exact Hok].
  - injection Hup as <- <- <-. apply (selectionOk_leave m); [reflexivity..|exact Hok].
  - destruct (match details with
              | Some d => String.eqb (GitProviderType d) ""
              | None => true
              end) eqn:Hd.
    + injection Hup as <- <- <-. apply (selectionOk_leave m); [reflexivity..|exact Hok].
    + destruct details as [d|]; [|discriminate Hd].
      destruct (selectedDevWorkspace m) as [p|] eqn:Hsel; [|discriminate Hup].
      destruct (h !! p) as [ws|] eqn:Hp; [|discriminate Hup].
      injection Hup as <- <- <-.
      destruct Hok as (Hb & _ & _). unfold selectionOk. simpl. rewrite Hsel.
      split; [|split].
      * intros q Hq. rewrite length_insert. apply Hb. rewrite Hsel. exact Hq.
      * intros H; discriminate H.
      * intros _. exists p, (set_wsGitProviderDetails (Some d) ws), d.
        split; [reflexivity|]. split; [|reflexivity].
        apply list_lookup_insert_eq. apply Hb. exact Hsel.
  - injection Hup as <- <- <-. apply (selectionOk_same m); [reflexivity | left; reflexivity | exact Hok].
  - injection Hup as <- <- <-. apply (selectionOk_leave m); [reflexivity..|exact Hok].
  - injection Hup as Hup. exact (selectionOk_onState _ _ _ _ _ _ Hok Hup).
Qed.

Lemma runs_selectionOk (m : model) (h : heap) : runs m h -> selectionOk m h.
Proof.
  induction 1 as [|m h msg m' h' c _ IH Hup].
  - exact selectionOk_initial.
  - exact (selectionOk_Update _ _ _ _ _ _ IH Hup).
Qed.

(** C10. In every state [Update] reaches from [initialModel], in the phases
    from [stateLoadingGit] to [stateExecuting] the selected-workspace pointer
    is non-nil and points to a workspace of the heap.  So storing a usable git
    link through it does not panic, and from [stateEnterBranch] on the
    workspace read by [executeFlowCmd] is there with its git link. *)
Theorem selected_workspace_is_not_nil (m : model) (h : heap) :
  runs m h ->
  usesSelection (state m) = true ->
  exists p ws,
    selectedDevWorkspace m = Some p /\
    h !! p = Some ws /\
    selectedDevWorkspace m ≫= (h !!.) = Some ws /\
    (forall d, GitProviderType d <> "" ->
       exists m' h', Update m h (gitConnectionMsg (Some d)) =
                     Some (m', h', WidgetCmd textinput_Blink)) /\
    (state m <> stateLoadingGit -> exists g, wsGitProviderDetails ws = Some g).
Proof.
  intros Hruns Huses.
  destruct (runs_selectionOk _ _ Hruns) as (Hb & Hl & Hg).
  assert (Hp : exists p, selectedDevWorkspace m = Some p).
  { destruct (state m) eqn:Hst; try discriminate Huses.
    - destruct (Hl eq_refl) as [p Hp]. eauto.
    - destruct Hg as (p & _ & _ & Hp & _); eauto.
    - destruct Hg as (p & _ & _ & Hp & _); eauto.
    - destruct Hg as (p & _ & _ & Hp & _); eauto. }
  destruct Hp as [p Hp].
  destruct (lookup_lt_is_Some_2 h p (Hb p Hp)) as [ws Hws].
  exists p, ws. split; [exact Hp|]. split; [exact Hws|]. split; [|split].
  - rewrite Hp. exact Hws.
  - intros d Hd. unfold Update, onMessage.
    rewrite (eqb_empty_false _ Hd), Hp, Hws. eauto.
  - intros Hn. destruct Hg as (q & ws' & g & Hq & Hws' & Hg').
    + destruct (state m); try discriminate Huses; try contradiction; auto.
    + rewrite Hp in Hq. injection Hq as <-. rewrite Hws in Hws'. injection Hws' as <-.
      eauto.
Qed.

(** ** The running program *)

Lemma initClientsCmd_msg (w : World) (log : list Event) (msg : Msg) :
  io_run initClientsCmd w = (log, Some msg) ->
  (exists e, msg = errMsg e) \/ (exists a f d, msg = clientsReadyMsg a f d).
Proof.
  unfold io_run, initClientsCmd, NewAuthenticator. io_simpl.
  destruct (NewAzureCLICredential w []); io_simpl; intros [= <- <-]; eauto.
Qed.

Lemma fetchWorkspacesCmd_msg (m : model) (w : World) (log : list Event) (msg : Msg) :
  io_run (fetchWorkspacesCmd m) w = (log, Some msg) ->
  (exists e, msg = errMsg e) \/ (exists ws, msg = workspacesMsg ws).
Proof.
  unfold io_run, fetchWorkspacesCmd. rewrite io_bind_run.
  destruct (ListWorkspaces_sends (fabricClient m) w []) as (ext & r & -> & _).
  destruct r as [[ws|e]|]; io_simpl; intros [= <- <-]; eauto.
Qed.

Lemma fetchGitConnectionCmd_msg (m : model) (id : string) (w : World)
    (log : list Event) (msg : Msg) :
  io_run (fetchGitConnectionCmd m id) w = (log, Some msg) ->
  (exists e, msg = errMsg e) \/ (exists details, msg = gitConnectionMsg details).
Proof.
  unfold io_run, fetchGitConnectionCmd. rewrite io_bind_run.
  destruct (GetGitConnection_sends (fabricClient m) id w []) as (ext & r & -> & _).
  destruct r as [[resp|e]|]; io_simpl; intros [= <- <-]; eauto.
Qed.

Lemma executeFlowCmd_msg (m : model) (h : heap) (w : World) (log : list Event) (msg : Msg) :
  io_run (executeFlowCmd m h) w = (log, Some msg) ->
  (exists e, msg = errMsg e) \/ msg = executionDoneMsg successSummary.
Proof.
  intros Hrun.
  destruct (selectedDevWorkspace m ≫= (h !!.)) as [parent|] eqn:Hsel.
  - destruct (wsGitProviderDetails parent) as [gitInfo|] eqn:Hgit.
    + destruct (executeFlowCmd_outcome _ _ _ _ _ _ _ Hsel Hgit Hrun) as (base & k & _ & Hout).
      destruct msg; simpl in Hout; try contradiction; [eauto|].
      destruct Hout as [-> _]. auto.
    + unfold io_run, executeFlowCmd in Hrun. rewrite Hsel, Hgit in Hrun. discriminate Hrun.
  - unfold io_run, executeFlowCmd in Hrun. rewrite Hsel in Hrun. discriminate Hrun.
Qed.

(** What a user or widget event can do. *)
Lemma Update_external (m : model) (h : heap) (msg : Msg) (m' : model) (h' : heap) (c : Cmd) :
  external msg = true ->
  Update m h msg = Some (m', h', c) ->
  executionInfos m' = executionInfos m /\
  successMsg m' = successMsg m /\
  ((state m' = state m /\ remoteCmds c = []) \/
   (state m = stateSelectWorkspace /\ state m' = stateLoadingGit /\
    exists mc id, remoteCmds c = [RunFetchGitConnection mc id]) \/
   (state m = stateEnterBranch /\ state m' = stateEnterWorkspace /\ remoteCmds c = []) \/
   (state m = stateEnterWorkspace /\ state m' = stateExecuting /\
    exists mc, remoteCmds c = [RunExecuteFlow mc])).
Proof.
  intros Hext Hup.
  assert (Hstate : forall m0, executionInfos m0 = executionInfos m ->
            successMsg m0 = successMsg m -> state m0 = state m ->
            onState m0 h msg = (m', h', c) ->
            executionInfos m' = executionInfos m /\
            successMsg m' = successMsg m /\
            ((state m' = state m /\ remoteCmds c = []) \/
             (state m = stateSelectWorkspace /\ state m' = stateLoadingGit /\
              exists mc id, remoteCmds c = [RunFetchGitConnection mc id]) \/
             (state m = stateEnterBranch /\ state m' = stateEnterWorkspace /\ remoteCmds c = []) \/
             (state m = stateEnterWorkspace /\ state m' = stateExecuting /\
              exists mc, remoteCmds c = [RunExecuteFlow mc]))).
  { intros m0 Hi Hs Hst. unfold onState. rewrite Hst.
    destruct (state m) eqn:E.
    - destruct (spinnerUpdate (spinner m0) msg). intros [= <- <- <-]. simpl. rewrite Hst. auto.
    - destruct (spinnerUpdate (spinner m0) msg). intros [= <- <- <-]. simpl. rewrite Hst. auto.
    - destruct (if isEnter msg then list_SelectedItem (workspaceLst m0) else None).
      + intros [= <- <- <-]. simpl. split; [exact Hi|]. split; [exact Hs|].
        right. left. eauto.
      + destruct (listUpdate (workspaceLst m0) msg). intros [= <- <- <-]. simpl. rewrite Hst. auto.
    - destruct (spinnerUpdate (spinner m0) msg). intros [= <- <- <-]. simpl. rewrite Hst. auto.
    - destruct (isEnter msg); simpl.
      + destruct (negb (String.eqb (textinput_Value (branchInput m0)) "")).
        * intros [= <- <- <-]. simpl. split; [exact Hi|]. split; [exact Hs|].
          right. right. left. auto.
        * destruct (textinputUpdate (branchInput m0) msg). intros [= <- <- <-]. simpl.
          rewrite Hst. auto.
      + destruct (textinputUpdate (branchInput m0) msg). intros [= <- <- <-]. simpl.
        rewrite Hst. auto.
    - destruct (isEnter msg); simpl.
      + destruct (negb (String.eqb (textinput_Value (wsInput m0)) "")).
        * intros [= <- <- <-]. simpl. split; [exact Hi|]. split; [exact Hs|].
          right. right. right. eauto.
        * destruct (textinputUpdate (wsInput m0) msg). intros [= <- <- <-]. simpl.
          rewrite Hst. auto.
      + destruct (textinputUpdate (wsInput m0) msg). intros [= <- <- <-]. simpl.
        rewrite Hst. auto.
    - destruct (spinnerUpdate (spinner m0) msg). intros [= <- <- <-]. simpl. rewrite Hst. auto.
    - intros [= <- <- <-]. simpl. auto.
    - intros [= <- <- <-]. simpl. auto. }
  unfold Update in Hup.
  destruct msg; try discriminate Hext; simpl in Hup.
  - destruct (String.eqb key "ctrl+c").
    + injection Hup as <- <- <-. simpl. auto.
    + injection Hup as Hup. exact (Hstate m eq_refl eq_refl eq_refl Hup).
  - injection Hup as Hup.
    exact (Hstate (set_workspaceLst _ m) eq_refl eq_refl eq_refl Hup).
  - injection Hup as Hup. exact (Hstate m eq_refl eq_refl eq_refl Hup).
Qed.

Lemma singleton_split {A} (before after : list A) (c x : A) :
  [x] = before ++ c :: after -> before = [] /\ c = x /\ after = [].
Proof.
  destruct before as [|b before]; simpl.
  - intros [= -> <-]. auto.
  - intros [= _ H]. destruct before; discriminate H.
Qed.

(** Under [programOk] a completing command is the only pending one. *)
Lemma step_cases (p p' : program) :
  programOk p -> step p p' ->
  (exists msg, external msg = true /\ deliver p (pending p) msg = Some p') \/
  (exists c run w log msg,
     pending p = [c] /\ perform c (store p) = Some run /\
     io_run run w = (log, Some msg) /\ deliver p [] msg = Some p').
Proof.
  intros (Hpend & _ & _) Hstep.
  destruct Hstep as [p msg p' Hext Hdel | p before c after run w log msg p' Hp Hperf Hrun Hdel].
  - left. eauto.
  - right. exists c, run, w, log, msg.
    assert (Hone : before = [] /\ after = []).
    { unfold pendingOk in Hpend. rewrite Hp in Hpend.
      destruct (state (current p));
        repeat match goal with
               | H : exists _, _ |- _ => destruct H as [? H]
               end;
        first [ symmetry in Hpend; apply singleton_split in Hpend; tauto
              | destruct before; discriminate Hpend ]. }
    destruct Hone as [-> ->]. auto.
Qed.

(** A pending command answers with the message its phase expects. *)
Lemma pending_result (p : program) (c : Cmd) (run : io Msg) (w : World)
    (log : list Event) (msg : Msg) :
  programOk p -> pending p = [c] -> perform c (store p) = Some run ->
  io_run run w = (log, Some msg) ->
  awaiting (state (current p)) = true /\
  ((exists e, msg = errMsg e) \/
   match state (current p) with
   | stateInit => exists a f d, msg = clientsReadyMsg a f d
   | stateLoadingWorkspaces => exists ws, msg = workspacesMsg ws
   | stateLoadingGit => exists details, msg = gitConnectionMsg details
   | stateExecuting =>
       msg = executionDoneMsg successSummary /\
       exists mc, c = RunExecuteFlow mc /\ run = executeFlowCmd mc (store p)
   | _ => False
   end).
Proof.
  intros (Hpend & _ & _) Hp Hperf Hrun.
  unfold pendingOk in Hpend. rewrite Hp in Hpend.
  destruct (state (current p)); try discriminate Hpend; (split; [reflexivity|]).
  - injection Hpend as ->. injection Hperf as <-.
    destruct (initClientsCmd_msg _ _ _ Hrun); auto.
  - destruct Hpend as [mc [= ->]]. injection Hperf as <-.
    destruct (fetchWorkspacesCmd_msg _ _ _ _ Hrun); auto.
  - destruct Hpend as (mc & id & [= ->]). injection Hperf as <-.
    destruct (fetchGitConnectionCmd_msg _ _ _ _ _ Hrun); auto.
  - destruct Hpend as [mc [= ->]]. injection Hperf as <-.
    destruct (executeFlowCmd_msg _ _ _ _ _ Hrun); eauto.
Qed.

Lemma step_ordered (p p' : program) :
  programOk p -> step p p' ->
  programOk p' /\ phaseStep (state (current p)) (state (current p')).
Proof.
  intros Hok Hstep.
  destruct (step_cases _ _ Hok Hstep)
    as [(msg & Hext & Hdel) | (c & run & w & log & msg & Hp & Hperf & Hrun & Hdel)].
  - unfold deliver in Hdel.
    destruct (Update (current p) (store p) msg) as [[[m' h'] c]|] eqn:Hup; [|discriminate Hdel].
    injection Hdel as <-.
    destruct (Update_external _ _ _ _ _ _ Hext Hup) as (Hi & Hs & Hcase).
    destruct Hok as (Hpend & Hinfos & Hdone). unfold programOk, pendingOk in *. simpl.
    rewrite Hi, Hs.
    destruct Hcase as [(Hst & Hc) | [(Hst & Hst' & mc & id & Hc)
                     | [(Hst & Hst' & Hc) | (Hst & Hst' & mc & Hc)]]];
      rewrite Hc, ?app_nil_r.
    + rewrite Hst. repeat split; auto. left. reflexivity.
    + rewrite Hst' in *. rewrite Hst in *. rewrite Hpend. simpl.
      repeat split; eauto; try discriminate. right. left. reflexivity.
    + rewrite Hst' in *. rewrite Hst in *. rewrite Hpend. simpl.
      repeat split; eauto; try discriminate. right. left. reflexivity.
    + rewrite Hst' in *. rewrite Hst in *. rewrite Hpend. simpl.
      repeat split; eauto; try discriminate. right. left. reflexivity.
  - destruct (pending_result _ _ _ _ _ _ Hok Hp Hperf Hrun) as (Haw & Hmsg).
    destruct Hok as (Hpend & Hinfos & Hdone).
    unfold deliver, Update in Hdel.
    destruct Hmsg as [(e & ->) | Hmsg].
    + simpl in Hdel. injection Hdel as <-. unfold programOk, pendingOk. simpl.
      repeat split; auto; try discriminate. right. right. auto.
    + destruct (state (current p)) eqn:Hst; try contradiction; try discriminate Haw.
      * destruct Hmsg as (a & f & d & ->). simpl in Hdel. injection Hdel as <-.
        unfold programOk, pendingOk. simpl.
        repeat split; eauto; try discriminate. right. left. reflexivity.
      * destruct Hmsg as (ws & ->). simpl in Hdel. injection Hdel as <-.
        unfold programOk, pendingOk. simpl.
        repeat split; eauto; try discriminate. right. left. reflexivity.
      * destruct Hmsg as (details & ->). simpl in Hdel.
        destruct (match details with
                  | Some d => String.eqb (GitProviderType d) ""
                  | None => true
                  end).
        -- injection Hdel as <-. unfold programOk, pendingOk. simpl.
           repeat split; auto; try discriminate. right. right. auto.
        -- destruct (selectedDevWorkspace (current p)) as [q|]; [|discriminate Hdel].
           destruct (store p !! q) as [ws|]; [|discriminate Hdel].
           injection Hdel as <-. unfold programOk, pendingOk. simpl.
           repeat split; auto; try discriminate. right. left. reflexivity.
      * destruct Hmsg as (-> & _). simpl in Hdel. injection Hdel as <-.
        unfold programOk, pendingOk. simpl.
        repeat split; auto; try discriminate. right. left. reflexivity.
Qed.

Lemma programOk_start : programOk start.
Proof. repeat split; simpl; try discriminate. Qed.

Lemma reachable_programOk (p : program) : reachable p -> programOk p.
Proof.
  intros Hreach.
  apply (rtc_ind_r (R := step) (fun q => programOk q) start); [exact programOk_start | | exact Hreach].
  intros q q' _ Hstep IH. exact (proj1 (step_ordered _ _ IH Hstep)).
Qed.

Lemma reachable_runs (p : program) : reachable p -> runs (current p) (store p).
Proof.
  intros Hreach.
  apply (rtc_ind_r (R := step) (fun q => runs (current q) (store q)) start);
    [exact runs_initial | | exact Hreach].
  intros q q' _ Hstep IH.
  assert (Hdel : exists others msg, deliver q others msg = Some q').
  { destruct Hstep; eauto. }
  destruct Hdel as (others & msg & Hdel). unfold deliver in Hdel.
  destruct (Update (current q) (store q) msg) as [[[m' h'] c]|] eqn:Hup; [|discriminate Hdel].
  injection Hdel as <-. simpl. exact (runs_update _ _ _ _ _ _ IH Hup).
Qed.

Lemma act_step (p p' : program) (a : action) : act p a = Some p' -> step p p'.
Proof.
  destruct a as [msg|w]; simpl.
  - destruct (external msg) eqn:Hext; [|discriminate].
    intros Hdel. exact (step_external _ _ _ Hext Hdel).
  - destruct (pending p) as [|c rest] eqn:Hp; [discriminate|].
    destruct (perform c (store p)) as [run|] eqn:Hperf; [|discriminate].
    destruct (io_run run w) as [log [msg|]] eqn:Hrun; [|discriminate].
    intros Hdel. exact (step_result p [] c rest run w log msg p' Hp Hperf Hrun Hdel).
Qed.

Lemma drive_reachable (acts : list action) (p p' : program) :
  reachable p -> drive p acts = Some p' -> reachable p'.
Proof.
  revert p. induction acts as [|a acts IH]; intros p Hreach; simpl.
  - intros [= <-]. exact Hreach.
  - destruct (act p a) as [q|] eqn:Ha; [|discriminate].
    apply IH. eapply rtc_r; [exact Hreach | exact (act_step _ _ _ Ha)].
Qed.

(** C1 (as amended). Along every run of the program, where [Update] receives
    the terminal's events and the results of the remote commands it dispatched,
    each step leaves the phase as it is, moves it to the next phase of the
    order Init, LoadingWorkspaces, SelectWorkspace, LoadingGit, EnterBranch,
    EnterWorkspace, Executing, Done, or moves it to Error out of a phase that
    awaits a remote operation. *)
Theorem phases_advance_in_order (p p' : program) :
  reachable p -> step p p' ->
  phaseStep (state (current p)) (state (current p')).
Proof.
  intros Hreach Hstep.
  exact (proj2 (step_ordered _ _ (reachable_programOk _ Hreach) Hstep)).
Qed.


End Proofs.

(** * Instances on concrete sessions *)

(** The session of the end-to-end scenario, up to the pending execution. *)
Lemma scenario_reachable (acts : list action) (p : program (W := plainWidgets)) :
  drive start acts = Some p -> reachable p.
Proof. intros H. exact (drive_reachable acts start p (rtc_refl _ _) H). Qed.

(** C1, as stated, fails: a successful execution result delivered in
    [stateInit] moves the phase straight to [stateDone], and a clients-ready
    result delivered there moves it back to [stateLoadingWorkspaces]. *)
Lemma phase_order_counterexample :
  exists m1 h1 c1 m2 h2 c2,
    confirming (executionDoneMsg successSummary) = true /\
    confirming (readyClients) = true /\
    Update (W := plainWidgets) initialModel [] (executionDoneMsg successSummary)
      = Some (m1, h1, c1) /\
    Update m1 h1 (readyClients) = Some (m2, h2, c2) /\
    state (W := plainWidgets) initialModel = stateInit /\
    state m1 = stateDone /\
    state m2 = stateLoadingWorkspaces /\
    ~ phaseStep stateInit (state m1) /\
    ~ phaseStep (state m1) (state m2).
Proof.
  do 6 eexists.
  split; [reflexivity|]. split; [reflexivity|].
  split; [reflexivity|]. split; [reflexivity|].
  split; [reflexivity|]. split; [reflexivity|]. split; [reflexivity|].
  split; intros [H|[H|[H _]]]; discriminate H.
Qed.

Lemma phases_advance_in_order_witness :
  let p := after (untilExecuting happyWorld "feature/login") in
  let p' := after (untilExecuting happyWorld "feature/login" ++ [Complete happyWorld]) in
  state (current p) = stateExecuting /\
  state (current p') = stateDone /\
  phaseStep (state (current p)) (state (current p')).
Proof.
  intros p p'.
  split; [vm_compute; reflexivity|]. split; [vm_compute; reflexivity|].
  apply phases_advance_in_order.
  - apply (scenario_reachable (untilExecuting happyWorld "feature/login")).
    vm_compute. reflexivity.
  - apply (act_step p p' (Complete happyWorld)). vm_compute. reflexivity.
Defined.



Lemma workspace_creation_failure_witness :
  let '(m, h) := pendingFlow (after (untilExecuting happyWorld "feature/login")) in
  exists log,
    io_run (executeFlowCmd m h) noWorkspaceWorld
      = (log, Some (errMsg "creating workspace: fabric API error 500: internal error")) /\
    bodies log = take 3 (plan m devWorkspace devLink "c0ffee") /\
    Forall (fun b => isLinkOrSync b = false) (bodies log).
Proof.
  vm_compute pendingFlow. cbv beta iota.
  match goal with
  | |- exists log, io_run (executeFlowCmd ?m ?h) _ = _ /\ _ =>
      destruct (workspace_creation_failure_stops_the_sequence m h noWorkspaceWorld
                  (set_wsGitProviderDetails (Some devLink) devWorkspace) devLink "c0ffee"
                  (fst (GetBranchObjectId (devopsClient m) "A" "P" "R" "main"
                          noWorkspaceWorld []))
                  (fst (CreateBranch (devopsClient m) "A" "P" "R" "feature/login" "c0ffee"
                          noWorkspaceWorld
                          (fst (GetBranchObjectId (devopsClient m) "A" "P" "R" "main"
                                  noWorkspaceWorld []))))
                  (fst (io_run (executeFlowCmd m h) noWorkspaceWorld))
                  "fabric API error 500: internal error")
        as (Hrun & Hnone & _ & _)
  end; try (vm_compute; reflexivity).
  eexists. split; [exact Hrun|]. split; [vm_compute; reflexivity | exact Hnone].
Defined.

Lemma unusable_git_link_witness :
  let p := after [Complete happyWorld; Complete happyWorld; Deliver (KeyMsg "enter")] in
  state (current p) = stateLoadingGit /\
  exists m',
    Update (current p) (store p) (gitConnectionMsg None) = Some (m', store p, CmdNil) /\
    state m' = stateError /\
    err m' = Some noGitIntegration /\
    state m' <> stateEnterBranch.
Proof.
  intros p. split; [vm_compute; reflexivity|].
  exact (unusable_git_link_is_an_error (current p) (store p) None (or_introl eq_refl)).
Defined.

Lemma branch_ref_witness :
  HasPrefix "feature/x" refsPrefix = false /\
  fullBranchName "feature/x" = "refs/heads/feature/x" /\
  fullBranchName "refs/heads/feature/x" = fullBranchName "feature/x" /\
  CreateBranch readyDevops "A" "P" "R" "refs/heads/feature/x" "c0ffee" =
  CreateBranch readyDevops "A" "P" "R" "feature/x" "c0ffee" /\
  sends (fst (io_run (CreateBranch readyDevops "A" "P" "R" "feature/x" "c0ffee") happyWorld))
  = [ {| rqMethod := POST;
         rqURL := "https://dev.azure.com/A/P/_apis/git/repositories/R/refs?api-version=7.1";
         rqAuthorization := "Bearer token";
         rqBody := RefUpdatesBody [ {| updName := "refs/heads/feature/x";
                                       OldObjectId := zeroObjectId;
                                       NewObjectId := "c0ffee" |} ] |} ].
Proof.
  destruct (branch_ref_is_normalised readyDevops "A" "P" "R" "feature/x" "c0ffee")
    as (Hsent & _ & _ & _ & _ & Hbare).
  split; [reflexivity|].
  destruct (Hbare eq_refl) as (Hfull & Hsame & Hcall).
  split; [exact Hfull|]. split; [exact Hsame|]. split; [exact Hcall|].
  destruct (Hsent happyWorld []) as (ext & Hlog & _ & Hsends).
  unfold io_run. rewrite Hlog.
  exact (Hsends {| devopsAuth := Some {| cred := 1%nat |} |} {| cred := 1%nat |} "token"
           eq_refl eq_refl eq_refl eq_refl).
Defined.

(** C8, as stated, fails: a branch name of 91 characters fits the branch input,
    and on "enter" the workspace-name input, limited to 100 characters, holds
    ["Feature - "] and only the first 90 characters of the name. *)
Lemma prefill_counterexample :
  let p := after (untilBranchPrompt happyWorld ++ map Deliver (typing longBranch)) in
  exists m' h' c,
    drive (W := plainWidgets) start
      (untilBranchPrompt happyWorld ++ map Deliver (typing longBranch)) = Some p /\
    state (current p) = stateEnterBranch /\
    textinput_Value (branchInput (current p)) = longBranch /\
    longBranch <> "" /\
    Update (current p) (store p) (KeyMsg "enter") = Some (m', h', c) /\
    state m' = stateEnterWorkspace /\
    String.length (textinput_Value (wsInput m')) = 100%nat /\
    textinput_Value (wsInput m') <> "Feature - " +:+ longBranch.
Proof.
  intros p. do 3 eexists.
  split; [vm_compute; reflexivity|].
  split; [vm_compute; reflexivity|].
  split; [vm_compute; reflexivity|].
  split; [discriminate|].
  split; [vm_compute; reflexivity|].
  split; [vm_compute; reflexivity|].
  split; [vm_compute; reflexivity|].
  vm_compute. discriminate.
Qed.

Lemma branch_confirm_witness :
  let p := after (untilBranchPrompt happyWorld ++ map Deliver (typing "feature/x")) in
  exists m',
    Update (current p) (store p) (KeyMsg "enter")
      = Some (m', store p, WidgetCmd textinput_Blink) /\
    state m' = stateEnterWorkspace /\
    newBranchName m' = "feature/x" /\
    textinput_Value (wsInput m') = "Feature - feature/x".
Proof.
  intros p.
  destruct (branch_confirm_prefills_workspace_name (current p) (store p) "feature/x")
    as (m' & Hup & Hst & Hname & _ & Hfit);
    [vm_compute; reflexivity | vm_compute; reflexivity | discriminate |].
  exists m'. split; [exact Hup|]. split; [exact Hst|]. split; [exact Hname|].
  apply Hfit. right. vm_compute. discriminate.
Defined.

Lemma empty_name_witness :
  let p := after (untilBranchPrompt happyWorld) in
  state (current p) = stateEnterBranch /\
  enteredText (current p) = "" /\
  exists m' c,
    Update (current p) (store p) (KeyMsg "enter") = Some (m', store p, c) /\
    state m' = stateEnterBranch /\ remoteCmds c = [].
Proof.
  intros p. split; [vm_compute; reflexivity|]. split; [vm_compute; reflexivity|].
  destruct (empty_name_is_not_accepted (current p) (store p)) as (Hempty & _);
    [left; vm_compute; reflexivity|].
  destruct Hempty as (m' & c & Hup & Hst & _ & Hc); [vm_compute; reflexivity|].
  exists m', c. split; [exact Hup|]. split; [|exact Hc].
  rewrite Hst. vm_compute. reflexivity.
Defined.

(** C5, as stated, fails: when the user enters the source branch's own name
    and the five calls succeed, the new workspace is linked to the source
    branch. *)
Lemma linked_branch_counterexample :
  let '(m, h) := pendingFlow (after (untilExecuting happyWorld "main")) in
  exists parent log link,
    selectedDevWorkspace m ≫= (h !!.) = Some parent /\
    wsGitProviderDetails parent = Some devLink /\
    newBranchName m = "main" /\
    io_run (executeFlowCmd m h) happyWorld = (log, Some (executionDoneMsg successSummary)) /\
    bodies log !! 3%nat = Some (ConnectToGitBody {| reqGitProviderDetails := Some link |}) /\
    BranchName link = BranchName devLink.
Proof.
  vm_compute pendingFlow. cbv beta iota.
  do 3 eexists.
  split; [vm_compute; reflexivity|].
  split; [reflexivity|].
  split; [vm_compute; reflexivity|].
  split; [vm_compute; reflexivity|].
  split; [vm_compute; reflexivity|].
  reflexivity.
Qed.

Lemma linked_branch_witness :
  let '(m, h) := pendingFlow (after (untilExecuting happyWorld "feature/login")) in
  exists log link,
    io_run (executeFlowCmd m h) happyWorld = (log, Some (executionDoneMsg successSummary)) /\
    bodies log !! 3%nat = Some (ConnectToGitBody {| reqGitProviderDetails := Some link |}) /\
    OrganizationName link = "A" /\ ProjectName link = "P" /\ RepositoryName link = "R" /\
    BranchName link = "feature/login".
Proof.
  vm_compute pendingFlow. cbv beta iota.
  match goal with
  | |- exists log link, io_run (executeFlowCmd ?m ?h) _ = _ /\ _ =>
      destruct (new_workspace_is_linked_to_the_chosen_branch m h happyWorld
                  (set_wsGitProviderDetails (Some devLink) devWorkspace) devLink
                  (fst (io_run (executeFlowCmd m h) happyWorld)) successSummary)
        as (base & link & _ & Hlink & Ho & Hp & Hr & _ & _ & Hb)
  end; try (vm_compute; reflexivity).
  eexists. exists link.
  split; [vm_compute; reflexivity|].
  split; [exact Hlink|].
  split; [exact Ho|]. split; [exact Hp|]. split; [exact Hr|]. exact Hb.
Defined.

(** C6, as stated, fails: the description names the new branch, and the source
    branch ["main"] does not occur in it. *)
Lemma description_counterexample :
  let '(m, h) := pendingFlow (after (untilExecuting happyWorld "feature/login")) in
  exists parent log res req,
    selectedDevWorkspace m ≫= (h !!.) = Some parent /\
    wsGitProviderDetails parent = Some devLink /\
    BranchName devLink = "main" /\
    io_run (executeFlowCmd m h) happyWorld = (log, res) /\
    bodies log !! 2%nat = Some (CreateWorkspaceBody req) /\
    reqDescription req = "Feature workspace for feature/login (Parent: Dev)" /\
    Contains (reqDescription req) (BranchName devLink) = false.
Proof.
  vm_compute pendingFlow. cbv beta iota.
  do 4 eexists.
  split; [vm_compute; reflexivity|].
  split; [reflexivity|].
  split; [reflexivity|].
  split; [vm_compute; reflexivity|].
  split; [vm_compute; reflexivity|].
  split; vm_compute; reflexivity.
Qed.

Lemma create_workspace_request_witness :
  let '(m, h) := pendingFlow (after (untilExecuting happyWorld "feature/login")) in
  let req := {| reqDisplayName := "Feature - feature/login";
                reqDescription := "Feature workspace for feature/login (Parent: Dev)";
                reqCapacityId := "cap-1" |} in
  In (CreateWorkspaceBody req) (bodies (fst (io_run (executeFlowCmd m h) happyWorld))) /\
  reqDisplayName req = newWorkspaceName m /\
  reqCapacityId req = CapacityId devWorkspace /\
  Contains (reqDescription req) (newBranchName m) = true /\
  Contains (reqDescription req) (DisplayName devWorkspace) = true.
Proof.
  vm_compute pendingFlow. cbv beta iota zeta.
  match goal with
  | |- In (CreateWorkspaceBody ?req) (bodies (fst (io_run (executeFlowCmd ?m ?h) _))) /\ _ =>
      assert (Hin : In (CreateWorkspaceBody req)
                      (bodies (fst (io_run (executeFlowCmd m h) happyWorld))))
        by (vm_compute; auto);
      destruct (create_workspace_request_contents m h happyWorld
                  (set_wsGitProviderDetails (Some devLink) devWorkspace) devLink
                  (fst (io_run (executeFlowCmd m h) happyWorld))
                  (snd (io_run (executeFlowCmd m h) happyWorld)) req)
        as (Hn & Hc & _ & Hb & Hd)
  end; try (vm_compute; reflexivity); try exact Hin.
  split; [exact Hin|]. split; [exact Hn|]. split; [exact Hc|]. split; [exact Hb | exact Hd].
Defined.

Lemma selected_workspace_witness :
  let p := after (untilExecuting happyWorld "feature/login") in
  state (current p) = stateExecuting /\
  exists q ws g,
    selectedDevWorkspace (current p) = Some q /\
    store p !! q = Some ws /\
    wsGitProviderDetails ws = Some g.
Proof.
  intros p. split; [vm_compute; reflexivity|].
  assert (Hruns : runs (current p) (store p)).
  { apply reachable_runs.
    apply (scenario_reachable (untilExecuting happyWorld "feature/login")).
    vm_compute. reflexivity. }
  destruct (selected_workspace_is_not_nil (current p) (store p) Hruns)
    as (q & ws & Hq & Hws & _ & _ & Hg); [vm_compute; reflexivity|].
  destruct Hg as [g Hg]; [vm_compute; discriminate|].
  exists q, ws, g. auto.
Defined.

(** * Further properties *)

(** ** The two [doRequest]s *)

Lemma sends_app (l1 l2 : list Event) : sends (l1 ++ l2) = sends l1 ++ sends l2.
Proof.
  induction l1 as [|ev l1 IH]; simpl; [reflexivity|].
  destruct ev; simpl; rewrite IH; reflexivity.
Qed.

(** The outcomes of [fabric.Client.doRequest]. *)
Lemma fabric_doRequest_cases {Out} c method path body
    (out : option (World -> string -> result Out)) w log log' r :
  fabric_doRequest c method path body out w log = (log', r) ->
  (log' = log /\
   ((exists e, NewRequestWithContext w method (BaseURL +:+ path) = Some e /\ r = Some (Err e)) \/
    (r = None /\ (c = None \/ exists cl, c = Some cl /\ fabricAuth cl = None)))) \/
  (exists cl a, c = Some cl /\ fabricAuth cl = Some a /\
     NewRequestWithContext w method (BaseURL +:+ path) = None /\
     ((exists e, credGetToken w log FabricScope = Err e /\
                 log' = log ++ [EvToken FabricScope] /\
                 r = Some (Err (Errorf_w "failed to get fabric auth token" e))) \/
      (exists token, credGetToken w log FabricScope = Ok token /\
         log' = log ++ [EvToken FabricScope; EvSend (fabricRequest method path token body)] /\
         ((exists e, httpDo w (log ++ [EvToken FabricScope])
                       (fabricRequest method path token body) = Err e /\ r = Some (Err e)) \/
          (exists resp, httpDo w (log ++ [EvToken FabricScope])
                          (fabricRequest method path token body) = Ok resp /\
             ((400 <= StatusCode resp /\
               r = Some (Err ("fabric API error " +:+ pretty (StatusCode resp) +:+ ": "
                              +:+ RawBody resp))) \/
              (StatusCode resp < 400 /\
               match out with
               | None => r = Some (Ok None)
               | Some dec =>
                   (StatusCode resp = 204 /\ r = Some (Ok None)) \/
                   (StatusCode resp <> 204 /\
                    ((exists e, dec w (RawBody resp) = Err e /\ r = Some (Err e)) \/
                     (exists v, dec w (RawBody resp) = Ok v /\ r = Some (Ok (Some v)))))
               end))))))).
Proof.
  unfold fabric_doRequest. io_simpl.
  destruct (NewRequestWithContext w method (BaseURL +:+ path)) as [bad|] eqn:Hnew.
  { intros [= <- <-]. left. split; [reflexivity|]. left. eauto. }
  destruct c as [cl|]; [|intros [= <- <-]; left; split; [reflexivity|]; right; auto].
  io_simpl. destruct (fabricAuth cl) as [a|] eqn:Ha; simpl;
    [|intros [= <- <-]; left; split; [reflexivity|]; right; split; [reflexivity|]; right; eauto].
  intros Hrun. right. exists cl, a. do 3 (split; [first [reflexivity | assumption]|]). revert Hrun.
  destruct (credGetToken w log FabricScope) as [token|e] eqn:Htok; io_simpl.
  2:{ intros [= <- <-]. left. eauto. }
  fold (fabricRequest method path token body). rewrite <- app_assoc. simpl.
  intros Hrun. right. exists token. split; [reflexivity|]. revert Hrun.
  destruct (httpDo w (log ++ [EvToken FabricScope]) (fabricRequest method path token body))
    as [resp|e]; io_simpl.
  2:{ intros [= <- <-]. split; [reflexivity|]. left. eauto. }
  destruct (400 <=? StatusCode resp) eqn:H400; io_simpl.
  { intros [= <- <-]. split; [reflexivity|]. right. exists resp. split; [reflexivity|].
    left. split; [apply Z.leb_le; exact H400 | reflexivity]. }
  apply Z.leb_gt in H400.
  destruct out as [dec|]; io_simpl.
  2:{ intros [= <- <-]. split; [reflexivity|]. right. exists resp. split; [reflexivity|].
      right. split; [exact H400 | reflexivity]. }
  destruct (StatusCode resp =? 204) eqn:H204; io_simpl.
  { intros [= <- <-]. split; [reflexivity|]. right. exists resp. split; [reflexivity|].
    right. split; [exact H400|]. left. split; [apply Z.eqb_eq; exact H204 | reflexivity]. }
  apply Z.eqb_neq in H204.
  destruct (dec w (RawBody resp)) as [v|e] eqn:Hdec; io_simpl;
    intros [= <- <-]; (split; [reflexivity|]); right; exists resp; (split; [reflexivity|]);
    right; (split; [exact H400|]); right; (split; [exact H204|]); eauto.
Qed.

(** The outcomes of [devops.Client.doRequest]. *)
Lemma devops_doRequest_cases {Out} c organization method path body
    (out : option (World -> string -> result Out)) w log log' r :
  devops_doRequest c organization method path body out w log = (log', r) ->
  (log' = log /\
   ((exists e, NewRequestWithContext w method
             (("https://dev.azure.com/" +:+ organization) +:+ path) = Some e /\ r = Some (Err e)) \/
    (r = None /\ (c = None \/ exists cl, c = Some cl /\ devopsAuth cl = None)))) \/
  (exists cl a, c = Some cl /\ devopsAuth cl = Some a /\
     NewRequestWithContext w method
             (("https://dev.azure.com/" +:+ organization) +:+ path) = None /\
     ((exists e, credGetToken w log DevOpsScope = Err e /\
                 log' = log ++ [EvToken DevOpsScope] /\
                 r = Some (Err (Errorf_w "getting devops token" e))) \/
      (exists token, credGetToken w log DevOpsScope = Ok token /\
         log' = log ++ [EvToken DevOpsScope; EvSend (devopsRequest organization method path token body)] /\
         ((exists e, httpDo w (log ++ [EvToken DevOpsScope])
                       (devopsRequest organization method path token body) = Err e /\ r = Some (Err e)) \/
          (exists resp, httpDo w (log ++ [EvToken DevOpsScope])
                          (devopsRequest organization method path token body) = Ok resp /\
             ((400 <= StatusCode resp /\
               r = Some (Err ("devops API error " +:+ pretty (StatusCode resp) +:+ ": "
                              +:+ RawBody resp))) \/
              (StatusCode resp < 400 /\
               match out with
               | None => r = Some (Ok None)
               | Some dec =>
                   (StatusCode resp = 204 /\ r = Some (Ok None)) \/
                   (StatusCode resp <> 204 /\
                    ((exists e, dec w (RawBody resp) = Err e /\ r = Some (Err e)) \/
                     (exists v, dec w (RawBody resp) = Ok v /\ r = Some (Ok (Some v)))))
               end))))))).
Proof.
  unfold devops_doRequest. io_simpl.
  destruct (NewRequestWithContext w method
             (("https://dev.azure.com/" +:+ organization) +:+ path)) as [bad|] eqn:Hnew.
  { intros [= <- <-]. left. split; [reflexivity|]. left. eauto. }
  destruct c as [cl|]; [|intros [= <- <-]; left; split; [reflexivity|]; right; auto].
  io_simpl. destruct (devopsAuth cl) as [a|] eqn:Ha; simpl;
    [|intros [= <- <-]; left; split; [reflexivity|]; right; split; [reflexivity|]; right; eauto].
  intros Hrun. right. exists cl, a. do 3 (split; [first [reflexivity | assumption]|]). revert Hrun.
  destruct (credGetToken w log DevOpsScope) as [token|e] eqn:Htok; io_simpl.
  2:{ intros [= <- <-]. left. eauto. }
  fold (devopsRequest organization method path token body). rewrite <- app_assoc. simpl.
  intros Hrun. right. exists token. split; [reflexivity|]. revert Hrun.
  destruct (httpDo w (log ++ [EvToken DevOpsScope]) (devopsRequest organization method path token body))
    as [resp|e]; io_simpl.
  2:{ intros [= <- <-]. split; [reflexivity|]. left. eauto. }
  destruct (400 <=? StatusCode resp) eqn:H400; io_simpl.
  { intros [= <- <-]. split; [reflexivity|]. right. exists resp. split; [reflexivity|].
    left. split; [apply Z.leb_le; exact H400 | reflexivity]. }
  apply Z.leb_gt in H400.
  destruct out as [dec|]; io_simpl.
  2:{ intros [= <- <-]. split; [reflexivity|]. right. exists resp. split; [reflexivity|].
      right. split; [exact H400 | reflexivity]. }
  destruct (StatusCode resp =? 204) eqn:H204; io_simpl.
  { intros [= <- <-]. split; [reflexivity|]. right. exists resp. split; [reflexivity|].
    right. split; [exact H400|]. left. split; [apply Z.eqb_eq; exact H204 | reflexivity]. }
  apply Z.eqb_neq in H204.
  destruct (dec w (RawBody resp)) as [v|e] eqn:Hdec; io_simpl;
    intros [= <- <-]; (split; [reflexivity|]); right; exists resp; (split; [reflexivity|]);
    right; (split; [exact H400|]); right; (split; [exact H204|]); eauto.
Qed.

(** X1. Whatever the world answers, [fabric.Client.doRequest] sends at most
    one request, and only after the token service returned a token for
    [FabricScope]: the request goes to [BaseURL] followed by the path and
    carries that token as bearer.  A successful result means the request was
    sent and answered with a status below 400. *)
Theorem fabric_request_is_authorised {Out} (c : option FabricClient) (method : Method)
    (path : string) (body : Body) (out : option (World -> string -> result Out))
    (w : World) (log log' : list Event) (r : option (result (option Out))) :
  fabric_doRequest c method path body out w log = (log', r) ->
  exists ext,
    log' = log ++ ext /\
    (length (sends ext) <= 1)%nat /\
    (forall rq, In rq (sends ext) ->
       exists token,
         credGetToken w log FabricScope = Ok token /\
         ext = [EvToken FabricScope; EvSend rq] /\
         rq = fabricRequest method path token body) /\
    (forall o, r = Some (Ok o) ->
       exists rq resp,
         sends ext = [rq] /\
         httpDo w (log ++ [EvToken FabricScope]) rq = Ok resp /\
         StatusCode resp < 400).
Proof.
  intros Hrun.
  destruct (fabric_doRequest_cases _ _ _ _ _ _ _ _ _ Hrun)
    as [(-> & Hr) | (cl & a & -> & Ha & Hnew & Hr)].
  - exists []. rewrite app_nil_r. split; [reflexivity|]. split; [simpl; lia|].
    split; [intros rq []|].
    intros o ->. destruct Hr as [(e & _ & [=]) | ([=] & _)].
  - destruct Hr as [(e & Htok & -> & ->) | (token & Htok & -> & Hr)].
    + exists [EvToken FabricScope]. split; [reflexivity|]. split; [simpl; lia|].
      split; [intros rq []|]. intros o [=].
    + exists [EvToken FabricScope; EvSend (fabricRequest method path token body)].
      split; [reflexivity|]. split; [simpl; lia|]. split.
      * intros rq [<-|[]]. exists token. auto.
      * intros o ->.
        destruct Hr as [(e & _ & [=]) | (resp & Hdo & Hr)].
        exists (fabricRequest method path token body), resp.
        split; [reflexivity|]. split; [exact Hdo|].
        destruct Hr as [(_ & [=]) | (Hlt & _)]. exact Hlt.
Qed.

Lemma devops_request_is_authorised_aux {Out} (c : option DevopsClient)
    (organization : string) (method : Method) (path : string) (body : Body)
    (out : option (World -> string -> result Out))
    (w : World) (log log' : list Event) (r : option (result (option Out))) :
  devops_doRequest c organization method path body out w log = (log', r) ->
  exists ext,
    log' = log ++ ext /\
    (forall rq, In rq (sends ext) ->
       exists token,
         credGetToken w log DevOpsScope = Ok token /\
         ext = [EvToken DevOpsScope; EvSend rq] /\
         rq = devopsRequest organization method path token body) /\
    (forall o, r = Some (Ok o) -> exists rq, sends ext = [rq]).
Proof.
  intros Hrun.
  destruct (devops_doRequest_cases _ _ _ _ _ _ _ _ _ _ Hrun)
    as [(-> & Hr) | (cl & a & -> & Ha & Hnew & Hr)].
  - exists []. rewrite app_nil_r. split; [reflexivity|].
    split; [intros rq []|].
    intros o ->. destruct Hr as [(e & _ & [=]) | ([=] & _)].
  - destruct Hr as [(e & Htok & -> & ->) | (token & Htok & -> & Hr)].
    + exists [EvToken DevOpsScope]. split; [reflexivity|].
      split; [intros rq []|]. intros o [=].
    + exists [EvToken DevOpsScope; EvSend (devopsRequest organization method path token body)].
      split; [reflexivity|]. split.
      * intros rq [<-|[]]. exists token. auto.
      * intros o _. eauto.
Qed.

(** X2. The same for [devops.Client.doRequest], with [DevOpsScope] and the
    organization's base URL. *)
Theorem devops_request_is_authorised {Out} (c : option DevopsClient)
    (organization : string) (method : Method) (path : string) (body : Body)
    (out : option (World -> string -> result Out))
    (w : World) (log log' : list Event) (r : option (result (option Out))) :
  devops_doRequest c organization method path body out w log = (log', r) ->
  exists ext,
    log' = log ++ ext /\
    (length (sends ext) <= 1)%nat /\
    (forall rq, In rq (sends ext) ->
       exists token,
         credGetToken w log DevOpsScope = Ok token /\
         ext = [EvToken DevOpsScope; EvSend rq] /\
         rq = devopsRequest organization method path token body) /\
    (forall o, r = Some (Ok o) ->
       exists rq resp,
         sends ext = [rq] /\
         httpDo w (log ++ [EvToken DevOpsScope]) rq = Ok resp /\
         StatusCode resp < 400).
Proof.
  intros Hrun.
  destruct (devops_doRequest_cases _ _ _ _ _ _ _ _ _ _ Hrun)
    as [(-> & Hr) | (cl & a & -> & Ha & Hnew & Hr)].
  - exists []. rewrite app_nil_r. split; [reflexivity|]. split; [simpl; lia|].
    split; [intros rq []|].
    intros o ->. destruct Hr as [(e & _ & [=]) | ([=] & _)].
  - destruct Hr as [(e & Htok & -> & ->) | (token & Htok & -> & Hr)].
    + exists [EvToken DevOpsScope]. split; [reflexivity|]. split; [simpl; lia|].
      split; [intros rq []|]. intros o [=].
    + exists [EvToken DevOpsScope; EvSend (devopsRequest organization method path token body)].
      split; [reflexivity|]. split; [simpl; lia|]. split.
      * intros rq [<-|[]]. exists token. auto.
      * intros o ->.
        destruct Hr as [(e & _ & [=]) | (resp & Hdo & Hr)].
        exists (devopsRequest organization method path token body), resp.
        split; [reflexivity|]. split; [exact Hdo|].
        destruct Hr as [(_ & [=]) | (Hlt & _)]. exact Hlt.
Qed.

Lemma error_status_is_reported_aux {Out} (cl : FabricClient) (a : Authenticator)
    (method : Method) (path : string) (body : Body)
    (dec : World -> string -> result Out) (w : World) (log : list Event)
    (token : string) (resp : HttpResponse) :
  fabricAuth cl = Some a ->
  NewRequestWithContext w method (BaseURL +:+ path) = None ->
  credGetToken w log FabricScope = Ok token ->
  httpDo w (log ++ [EvToken FabricScope]) (fabricRequest method path token body) = Ok resp ->
  let run := fabric_doRequest (Some cl) method path body (Some dec) w log in
  fst run = log ++ [EvToken FabricScope; EvSend (fabricRequest method path token body)] /\
  (400 <= StatusCode resp ->
   snd run = Some (Err ("fabric API error " +:+ pretty (StatusCode resp) +:+ ": "
                        +:+ RawBody resp))) /\
  (StatusCode resp = 204 -> snd run = Some (Ok None)) /\
  (StatusCode resp < 400 -> StatusCode resp <> 204 ->
   snd run = Some match dec w (RawBody resp) with
                  | Ok v => Ok (Some v)
                  | Err e => Err e
                  end).
Proof.
  intros Ha Hnew Htok Hdo run.
  destruct (fabric_doRequest (Some cl) method path body (Some dec) w log) as [log' r] eqn:Hrun.
  subst run. simpl.
  destruct (fabric_doRequest_cases _ _ _ _ _ _ _ _ _ Hrun)
    as [(-> & Hr) | (cl' & a' & [= <-] & _ & _ & Hr)].
  { destruct Hr as [(e & He & _) | (_ & [[=] | (cl' & [= <-] & Hn)])]; congruence. }
  destruct Hr as [(e & He & _) | (token' & Htok' & -> & Hr)]; [congruence|].
  assert (token' = token) as -> by congruence.
  split; [reflexivity|].
  destruct Hr as [(e & He & _) | (resp' & Hdo' & Hr)]; [congruence|].
  assert (resp' = resp) as -> by congruence.
  destruct Hr as [(H400 & ->) | (Hlt & [(H204 & ->) | (Hn204 & Hdec)])].
  - split; [reflexivity|]. split; intros; lia.
  - split; [intros; lia|]. split; [reflexivity|]. intros _ Hn. contradiction.
  - split; [intros; lia|]. split; [intros; contradiction|]. intros _ _.
    destruct Hdec as [(e & -> & ->) | (v & -> & ->)]; reflexivity.
Qed.

(** X3. Once a response arrives, a status of 400 or more is always an error
    whose text gives the status and the raw body, and the response decoder is
    not consulted; a status of 204 is a success that leaves the caller's
    result value untouched. *)
Theorem error_status_is_reported {Out} (cl : FabricClient) (a : Authenticator)
    (method : Method) (path : string) (body : Body)
    (dec : World -> string -> result Out) (w : World) (log : list Event)
    (token : string) (resp : HttpResponse) :
  fabricAuth cl = Some a ->
  NewRequestWithContext w method (BaseURL +:+ path) = None ->
  credGetToken w log FabricScope = Ok token ->
  httpDo w (log ++ [EvToken FabricScope]) (fabricRequest method path token body) = Ok resp ->
  let run := fabric_doRequest (Some cl) method path body (Some dec) w log in
  fst run = log ++ [EvToken FabricScope; EvSend (fabricRequest method path token body)] /\
  (400 <= StatusCode resp ->
   snd run = Some (Err ("fabric API error " +:+ pretty (StatusCode resp) +:+ ": "
                        +:+ RawBody resp))) /\
  (StatusCode resp = 204 -> snd run = Some (Ok None)) /\
  (StatusCode resp < 400 -> StatusCode resp <> 204 ->
   snd run = Some match dec w (RawBody resp) with
                  | Ok v => Ok (Some v)
                  | Err e => Err e
                  end).
Proof.
  intros Ha Hnew Htok Hdo.
  exact (error_status_is_reported_aux cl a method path body dec w log token resp
           Ha Hnew Htok Hdo).
Qed.

Lemma fabric_doRequest_ok {Out} c method path body
    (out : option (World -> string -> result Out)) w log log' o :
  fabric_doRequest c method path body out w log = (log', Some (Ok o)) ->
  exists token resp,
    credGetToken w log FabricScope = Ok token /\
    log' = log ++ [EvToken FabricScope; EvSend (fabricRequest method path token body)] /\
    httpDo w (log ++ [EvToken FabricScope]) (fabricRequest method path token body) = Ok resp /\
    StatusCode resp < 400 /\
    match out with
    | None => o = None
    | Some dec =>
        (StatusCode resp = 204 /\ o = None) \/
        (StatusCode resp <> 204 /\ exists v, dec w (RawBody resp) = Ok v /\ o = Some v)
    end.
Proof.
  intros Hrun.
  destruct (fabric_doRequest_cases _ _ _ _ _ _ _ _ _ Hrun)
    as [(_ & [(e & _ & [=]) | ([=] & _)]) | (cl & a & _ & _ & _ & Hr)].
  destruct Hr as [(e & _ & _ & [=]) | (token & Htok & -> & Hr)].
  destruct Hr as [(e & _ & [=]) | (resp & Hdo & Hr)].
  destruct Hr as [(_ & [=]) | (Hlt & Hr)].
  exists token, resp. do 4 (split; [assumption || reflexivity|]).
  destruct out as [dec|].
  - destruct Hr as [(H204 & [= ->]) | (Hn & [(e & _ & [=]) | (v & Hv & [= ->])])]; eauto.
  - injection Hr as ->. reflexivity.
Qed.

Lemma fabric_doRequest_panic {Out} c method path body
    (out : option (World -> string -> result Out)) w log log' :
  fabric_doRequest c method path body out w log = (log', None) ->
  log' = log /\ (c = None \/ exists cl, c = Some cl /\ fabricAuth cl = None).
Proof.
  intros Hrun.
  destruct (fabric_doRequest_cases _ _ _ _ _ _ _ _ _ Hrun)
    as [(-> & [(e & _ & [=]) | (_ & Hc)]) | (cl & a & _ & _ & _ & Hr)]; [auto|].
  exfalso.
  destruct Hr as [(e & _ & _ & [=]) | (token & _ & _ & Hr)].
  destruct Hr as [(e & _ & [=]) | (resp & _ & Hr)].
  destruct Hr as [(_ & [=]) | (_ & Hr)].
  destruct out as [dec|]; [|discriminate Hr].
  destruct Hr as [(_ & [=]) | (_ & [(e & _ & [=]) | (v & _ & [=])])].
Qed.

Lemma devops_doRequest_ok {Out} c organization method path body
    (out : option (World -> string -> result Out)) w log log' o :
  devops_doRequest c organization method path body out w log = (log', Some (Ok o)) ->
  exists token resp,
    credGetToken w log DevOpsScope = Ok token /\
    log' = log ++ [EvToken DevOpsScope;
                   EvSend (devopsRequest organization method path token body)] /\
    httpDo w (log ++ [EvToken DevOpsScope])
      (devopsRequest organization method path token body) = Ok resp /\
    StatusCode resp < 400 /\
    match out with
    | None => o = None
    | Some dec =>
        (StatusCode resp = 204 /\ o = None) \/
        (StatusCode resp <> 204 /\ exists v, dec w (RawBody resp) = Ok v /\ o = Some v)
    end.
Proof.
  intros Hrun.
  destruct (devops_doRequest_cases _ _ _ _ _ _ _ _ _ _ Hrun)
    as [(_ & [(e & _ & [=]) | ([=] & _)]) | (cl & a & _ & _ & _ & Hr)].
  destruct Hr as [(e & _ & _ & [=]) | (token & Htok & -> & Hr)].
  destruct Hr as [(e & _ & [=]) | (resp & Hdo & Hr)].
  destruct Hr as [(_ & [=]) | (Hlt & Hr)].
  exists token, resp. do 4 (split; [assumption || reflexivity|]).
  destruct out as [dec|].
  - destruct Hr as [(H204 & [= ->]) | (Hn & [(e & _ & [=]) | (v & Hv & [= ->])])]; eauto.
  - injection Hr as ->. reflexivity.
Qed.

Lemma devops_doRequest_panic {Out} c organization method path body
    (out : option (World -> string -> result Out)) w log log' :
  devops_doRequest c organization method path body out w log = (log', None) ->
  log' = log /\ (c = None \/ exists cl, c = Some cl /\ devopsAuth cl = None).
Proof.
  intros Hrun.
  destruct (devops_doRequest_cases _ _ _ _ _ _ _ _ _ _ Hrun)
    as [(-> & [(e & _ & [=]) | (_ & Hc)]) | (cl & a & _ & _ & _ & Hr)]; [auto|].
  exfalso.
  destruct Hr as [(e & _ & _ & [=]) | (token & _ & _ & Hr)].
  destruct Hr as [(e & _ & [=]) | (resp & _ & Hr)].
  destruct Hr as [(_ & [=]) | (_ & Hr)].
  destruct out as [dec|]; [|discriminate Hr].
  destruct Hr as [(_ & [=]) | (_ & [(e & _ & [=]) | (v & _ & [=])])].
Qed.

(** ** The repository facade *)

Lemma string_drop_app (p s : string) : string_drop (String.length p) (p +:+ s) = s.
Proof. induction p as [|c p IH]; simpl; [reflexivity | exact IH]. Qed.

Lemma TrimPrefix_app (p s : string) : TrimPrefix (p +:+ s) p = s.
Proof. unfold TrimPrefix. rewrite HasPrefix_app. apply string_drop_app. Qed.

Lemma TrimPrefix_fullBranchName (name : string) :
  TrimPrefix (fullBranchName name) refsPrefix = TrimPrefix name refsPrefix.
Proof.
  unfold fullBranchName. destruct (HasPrefix name refsPrefix) eqn:E; cbn [negb]; [reflexivity|].
  rewrite TrimPrefix_app. unfold TrimPrefix. rewrite E. reflexivity.
Qed.

(** X4. [GetBranchObjectId] looks a branch up by its short name: called with a
    name or with the fully-qualified name [CreateBranch] makes of it, it sends
    the same request, returns the same commit, and panics in the same cases
    (only the text of the not-found error quotes the name as passed). *)
Theorem branch_lookup_ignores_ref_prefix (c : option DevopsClient)
    (org project repo name : string) (w : World) (log : list Event) :
  let short := GetBranchObjectId c org project repo name w log in
  let full := GetBranchObjectId c org project repo (fullBranchName name) w log in
  fst full = fst short /\
  (forall id, snd full = Some (Ok id) <-> snd short = Some (Ok id)) /\
  (snd full = None <-> snd short = None) /\
  ((exists e, snd full = Some (Err e)) <-> (exists e, snd short = Some (Err e))).
Proof.
  unfold GetBranchObjectId. rewrite TrimPrefix_fullBranchName, !io_bind_run.
  destruct (devops_doRequest c org GET _ NoBody (Some decodeGitRefs) w log) as [l [[o|e]|]];
    simpl.
  - destruct (Count (default {| Count := 0; Value := [] |} o) =? 0); simpl.
    + repeat split; try discriminate; eauto.
    + destruct (Value (default {| Count := 0; Value := [] |} o)); simpl;
        repeat split; auto; try discriminate; intros [e He]; discriminate He.
  - repeat split; auto; eauto.
  - repeat split; auto.
Qed.

Lemma GetBranchObjectId_ok c org project repo branchName w log log' id :
  GetBranchObjectId c org project repo branchName w log = (log', Some (Ok id)) ->
  exists token resp refs ref rest,
    credGetToken w log DevOpsScope = Ok token /\
    log' = log ++ [EvToken DevOpsScope;
                   EvSend (devopsRequest org GET (refsQueryPath project repo branchName)
                             token NoBody)] /\
    httpDo w (log ++ [EvToken DevOpsScope])
      (devopsRequest org GET (refsQueryPath project repo branchName) token NoBody) = Ok resp /\
    StatusCode resp < 400 /\ StatusCode resp <> 204 /\
    decodeGitRefs w (RawBody resp) = Ok refs /\
    Count refs <> 0 /\ Value refs = ref :: rest /\ id = ObjectId ref.
Proof.
  unfold GetBranchObjectId. fold (refsQueryPath project repo branchName). rewrite io_bind_run.
  destruct (devops_doRequest c org GET (refsQueryPath project repo branchName) NoBody
              (Some decodeGitRefs) w log) as [l [[o|e]|]] eqn:Hreq; simpl;
    [|discriminate..].
  destruct (Count (default {| Count := 0; Value := [] |} o) =? 0) eqn:Hc; simpl;
    [discriminate|].
  destruct (Value (default {| Count := 0; Value := [] |} o)) as [|ref rest] eqn:Hv; simpl;
    [discriminate|].
  intros [= <- <-].
  destruct (devops_doRequest_ok _ _ _ _ _ _ _ _ _ _ Hreq)
    as (token & resp & Htok & -> & Hdo & Hlt & Hdec).
  destruct Hdec as [(_ & ->) | (Hn & refs & Hrefs & ->)]; [discriminate Hc|].
  simpl in Hc, Hv. apply Z.eqb_neq in Hc.
  exists token, resp, refs, ref, rest. auto 10.
Qed.

(** X5. When [GetBranchObjectId] returns a commit, the refs query was answered
    with a status below 400 other than 204 and a decoded list with a non-zero
    count, and the commit is the object id of the first ref.  It panics only
    on a nil client or authenticator, or when the decoded answer has a
    non-zero count and no ref. *)
Theorem branch_lookup_result (c : option DevopsClient) (org project repo branchName : string)
    (w : World) (log log' : list Event) (res : option (result string)) :
  GetBranchObjectId c org project repo branchName w log = (log', res) ->
  match res with
  | Some (Ok id) =>
      exists token resp refs ref rest,
        sends log' = sends log ++
          [devopsRequest org GET (refsQueryPath project repo branchName) token NoBody] /\
        httpDo w (log ++ [EvToken DevOpsScope])
          (devopsRequest org GET (refsQueryPath project repo branchName) token NoBody)
          = Ok resp /\
        StatusCode resp < 400 /\ StatusCode resp <> 204 /\
        decodeGitRefs w (RawBody resp) = Ok refs /\
        Count refs <> 0 /\ Value refs = ref :: rest /\ id = ObjectId ref
  | Some (Err _) => True
  | None =>
      (log' = log /\ (c = None \/ exists cl, c = Some cl /\ devopsAuth cl = None)) \/
      (exists token resp refs,
         httpDo w (log ++ [EvToken DevOpsScope])
           (devopsRequest org GET (refsQueryPath project repo branchName) token NoBody)
           = Ok resp /\
         decodeGitRefs w (RawBody resp) = Ok refs /\
         Count refs <> 0 /\ Value refs = [])
  end.
Proof.
  intros Hrun. destruct res as [[id|e]|]; [| exact I |].
  - destruct (GetBranchObjectId_ok _ _ _ _ _ _ _ _ _ Hrun)
      as (token & resp & refs & ref & rest & _ & -> & Hdo & H1 & H2 & H3 & H4 & H5 & H6).
    exists token, resp, refs, ref, rest. rewrite sends_app. simpl. auto 10.
  - revert Hrun. unfold GetBranchObjectId. fold (refsQueryPath project repo branchName).
    rewrite io_bind_run.
    destruct (devops_doRequest c org GET (refsQueryPath project repo branchName) NoBody
                (Some decodeGitRefs) w log) as [l [[o|e]|]] eqn:Hreq; simpl.
    + destruct (Count (default {| Count := 0; Value := [] |} o) =? 0) eqn:Hc; simpl;
        [discriminate|].
      destruct (Value (default {| Count := 0; Value := [] |} o)) as [|ref rest] eqn:Hv; simpl;
        [|discriminate].
      intros _. right.
      destruct (devops_doRequest_ok _ _ _ _ _ _ _ _ _ _ Hreq)
        as (token & resp & Htok & _ & Hdo & Hlt & Hdec).
      destruct Hdec as [(_ & ->) | (Hn & refs & Hrefs & ->)]; [discriminate Hc|].
      simpl in Hc, Hv. apply Z.eqb_neq in Hc. eauto 10.
    + discriminate.
    + intros [= <-]. left. exact (devops_doRequest_panic _ _ _ _ _ _ _ _ _ Hreq).
Qed.

Lemma CreateBranch_ok c org project repo name base w log log' :
  CreateBranch c org project repo name base w log = (log', Some None) ->
  exists token,
    credGetToken w log DevOpsScope = Ok token /\
    log' = log ++ [EvToken DevOpsScope;
                   EvSend (devopsRequest org POST (refsUpdatePath project repo) token
                             (RefUpdatesBody [ {| updName := fullBranchName name;
                                                  OldObjectId := zeroObjectId;
                                                  NewObjectId := base |} ]))].
Proof.
  unfold CreateBranch. fold (refsUpdatePath project repo). rewrite io_bind_run.
  destruct (devops_doRequest c org POST (refsUpdatePath project repo) _ None w log)
    as [l [[o|e]|]] eqn:Hreq; simpl; try discriminate.
  intros [= <-].
  destruct (devops_doRequest_ok _ _ _ _ _ _ _ _ _ _ Hreq) as (token & resp & Htok & -> & _).
  eauto.
Qed.

Lemma CreateBranch_panic c org project repo name base w log log' :
  CreateBranch c org project repo name base w log = (log', None) ->
  log' = log /\ (c = None \/ exists cl, c = Some cl /\ devopsAuth cl = None).
Proof.
  unfold CreateBranch. rewrite io_bind_run.
  destruct (devops_doRequest c org POST _ _ None w log) as [l [[o|e]|]] eqn:Hreq; simpl;
    try discriminate.
  intros [= <-]. exact (devops_doRequest_panic _ _ _ _ _ _ _ _ _ Hreq).
Qed.

(** X6. Every request [CreateBranch] sends is a POST to the refs endpoint of
    the repository whose body is a single ref update: its name starts with
    ["refs/heads/"], its old object id is the all-zero id of 40 characters (the
    ref must not exist yet), and its new object id is the base commit.  A nil
    result means exactly one such request was sent. *)
Theorem create_branch_request (c : option DevopsClient)
    (org project repo name base : string) (w : World) (log log' : list Event)
    (r : option (option error)) :
  CreateBranch c org project repo name base w log = (log', r) ->
  exists ext,
    log' = log ++ ext /\
    (forall rq, In rq (sends ext) ->
       rqMethod rq = POST /\
       rqURL rq = ("https://dev.azure.com/" +:+ org) +:+ "/" +:+ project
                  +:+ "/_apis/git/repositories/" +:+ repo +:+ "/refs?api-version=7.1" /\
       exists u,
         rqBody rq = RefUpdatesBody [u] /\
         updName u = fullBranchName name /\
         HasPrefix (updName u) "refs/heads/" = true /\
         OldObjectId u = "0000000000000000000000000000000000000000" /\
         String.length (OldObjectId u) = 40%nat /\
         NewObjectId u = base) /\
    (r = Some None -> exists rq, sends ext = [rq]).
Proof.
  unfold CreateBranch. rewrite io_bind_run.
  destruct (devops_doRequest (Out := unit) c org POST
              ("/" +:+ project +:+ "/_apis/git/repositories/" +:+ repo
               +:+ "/refs?api-version=7.1")
              (RefUpdatesBody [ {| updName := fullBranchName name;
                                   OldObjectId := zeroObjectId;
                                   NewObjectId := base |} ]) None w log)
    as [l r0] eqn:Hreq.
  intros Hpost.
  destruct (devops_request_is_authorised_aux _ _ _ _ _ _ _ _ _ _ Hreq)
    as (ext & -> & Hsent & Hok).
  assert (Hl : log' = log ++ ext /\ (r = Some None -> exists o, r0 = Some (Ok o))).
  { destruct r0 as [[o|e]|]; revert Hpost; io_simpl; intros [= <- <-];
      (split; [reflexivity|]); first [discriminate | eauto]. }
  destruct Hl as (-> & Hr).
  exists ext. split; [reflexivity|]. split.
  - intros rq Hin. destruct (Hsent rq Hin) as (token & _ & _ & ->).
    split; [reflexivity|]. split; [reflexivity|].
    eexists. split; [reflexivity|]. split; [reflexivity|].
    split; [apply fullBranchName_HasPrefix|]. repeat split.
  - intros Hnil. destruct (Hr Hnil) as [o ->]. exact (Hok o eq_refl).
Qed.

(** ** The workspace facade *)

Lemma CreateWorkspace_ok c req w log log' ws :
  CreateWorkspace c req w log = (log', Some (Ok ws)) ->
  exists token resp,
    credGetToken w log FabricScope = Ok token /\
    log' = log ++ [EvToken FabricScope;
                   EvSend (fabricRequest POST "/workspaces" token (CreateWorkspaceBody req))] /\
    httpDo w (log ++ [EvToken FabricScope])
      (fabricRequest POST "/workspaces" token (CreateWorkspaceBody req)) = Ok resp /\
    StatusCode resp < 400 /\
    ((StatusCode resp = 204 /\ ws = zeroWorkspace) \/
     (StatusCode resp <> 204 /\ decodeWorkspace w (RawBody resp) = Ok ws)).
Proof.
  unfold CreateWorkspace. rewrite io_bind_run.
  destruct (fabric_doRequest c POST "/workspaces" (CreateWorkspaceBody req)
              (Some decodeWorkspace) w log) as [l [[o|e]|]] eqn:Hreq; simpl;
    try discriminate.
  destruct (fabric_doRequest_ok _ _ _ _ _ _ _ _ _ Hreq)
    as (token & resp & Htok & -> & Hdo & Hlt & Hdec).
  destruct Hdec as [(H204 & ->) | (Hn & v & Hv & ->)]; io_simpl; intros [= <- <-];
    exists token, resp; auto 10.
Qed.

Lemma CreateWorkspace_panic c req w log log' :
  CreateWorkspace c req w log = (log', None) ->
  log' = log /\ (c = None \/ exists cl, c = Some cl /\ fabricAuth cl = None).
Proof.
  unfold CreateWorkspace. rewrite io_bind_run.
  destruct (fabric_doRequest c POST "/workspaces" (CreateWorkspaceBody req)
              (Some decodeWorkspace) w log) as [l [[[o|]|e]|]] eqn:Hreq; simpl;
    try discriminate.
  intros [= <-]. exact (fabric_doRequest_panic _ _ _ _ _ _ _ _ Hreq).
Qed.

Lemma ConnectWorkspaceToGit_ok c workspaceId req w log log' :
  ConnectWorkspaceToGit c workspaceId req w log = (log', Some None) ->
  exists token,
    credGetToken w log FabricScope = Ok token /\
    log' = log ++ [EvToken FabricScope;
                   EvSend (fabricRequest POST ("/workspaces/" +:+ workspaceId +:+ "/git/connect")
                             token (ConnectToGitBody req))].
Proof.
  unfold ConnectWorkspaceToGit. rewrite io_bind_run.
  destruct (fabric_doRequest c POST _ (ConnectToGitBody req) None w log)
    as [l [[o|e]|]] eqn:Hreq; simpl; try discriminate.
  intros [= <-].
  destruct (fabric_doRequest_ok _ _ _ _ _ _ _ _ _ Hreq) as (token & resp & Htok & -> & _).
  eauto.
Qed.

Lemma ConnectWorkspaceToGit_panic c workspaceId req w log log' :
  ConnectWorkspaceToGit c workspaceId req w log = (log', None) ->
  log' = log /\ (c = None \/ exists cl, c = Some cl /\ fabricAuth cl = None).
Proof.
  unfold ConnectWorkspaceToGit. rewrite io_bind_run.
  destruct (fabric_doRequest c POST _ (ConnectToGitBody req) None w log)
    as [l [[o|e]|]] eqn:Hreq; simpl; try discriminate.
  intros [= <-]. exact (fabric_doRequest_panic _ _ _ _ _ _ _ _ Hreq).
Qed.

Lemma UpdateWorkspaceFromGit_ok c workspaceId w log log' :
  UpdateWorkspaceFromGit c workspaceId w log = (log', Some None) ->
  exists token,
    credGetToken w log FabricScope = Ok token /\
    log' = log ++ [EvToken FabricScope;
                   EvSend (fabricRequest POST
                             ("/workspaces/" +:+ workspaceId +:+ "/git/updateFromGit")
                             token (UpdateFromGitBody "PreferRemote" true))].
Proof.
  unfold UpdateWorkspaceFromGit. rewrite io_bind_run.
  destruct (fabric_doRequest c POST _ (UpdateFromGitBody "PreferRemote" true) None w log)
    as [l [[o|e]|]] eqn:Hreq; simpl; try discriminate.
  intros [= <-].
  destruct (fabric_doRequest_ok _ _ _ _ _ _ _ _ _ Hreq) as (token & resp & Htok & -> & _).
  eauto.
Qed.

Lemma UpdateWorkspaceFromGit_panic c workspaceId w log log' :
  UpdateWorkspaceFromGit c workspaceId w log = (log', None) ->
  log' = log /\ (c = None \/ exists cl, c = Some cl /\ fabricAuth cl = None).
Proof.
  unfold UpdateWorkspaceFromGit. rewrite io_bind_run.
  destruct (fabric_doRequest c POST _ (UpdateFromGitBody "PreferRemote" true) None w log)
    as [l [[o|e]|]] eqn:Hreq; simpl; try discriminate.
  intros [= <-]. exact (fabric_doRequest_panic _ _ _ _ _ _ _ _ Hreq).
Qed.

Lemma GetBranchObjectId_panic c org project repo branchName w log log' :
  GetBranchObjectId c org project repo branchName w log = (log', None) ->
  (log' = log /\ (c = None \/ exists cl, c = Some cl /\ devopsAuth cl = None)) \/
  (exists token resp refs,
     log' = log ++ [EvToken DevOpsScope;
                    EvSend (devopsRequest org GET (refsQueryPath project repo branchName)
                              token NoBody)] /\
     httpDo w (log ++ [EvToken DevOpsScope])
       (devopsRequest org GET (refsQueryPath project repo branchName) token NoBody) = Ok resp /\
     decodeGitRefs w (RawBody resp) = Ok refs /\
     Count refs <> 0 /\ Value refs = []).
Proof.
  unfold GetBranchObjectId. fold (refsQueryPath project repo branchName). rewrite io_bind_run.
  destruct (devops_doRequest c org GET (refsQueryPath project repo branchName) NoBody
              (Some decodeGitRefs) w log) as [l [[o|e]|]] eqn:Hreq; simpl.
  - destruct (Count (default {| Count := 0; Value := [] |} o) =? 0) eqn:Hc; simpl;
      [discriminate|].
    destruct (Value (default {| Count := 0; Value := [] |} o)) as [|ref rest] eqn:Hv; simpl;
      [|discriminate].
    intros [= <-]. right.
    destruct (devops_doRequest_ok _ _ _ _ _ _ _ _ _ _ Hreq)
      as (token & resp & Htok & -> & Hdo & Hlt & Hdec).
    destruct Hdec as [(_ & ->) | (Hn & refs & Hrefs & ->)]; [discriminate Hc|].
    simpl in Hc, Hv. apply Z.eqb_neq in Hc. eauto 10.
  - discriminate.
  - intros [= <-]. left. exact (devops_doRequest_panic _ _ _ _ _ _ _ _ _ Hreq).
Qed.

(** ** The execution sequence, request by request *)

Section FurtherProofs.
Context {W : Widgets}.

Lemma executeFlowCmd_success (m : model) (h : heap) (w : World)
    (parent : Workspace) (gitInfo : GitProviderDetails) (log : list Event) (s : string) :
  selectedDevWorkspace m ≫= (h !!.) = Some parent ->
  wsGitProviderDetails parent = Some gitInfo ->
  io_run (executeFlowCmd m h) w = (log, Some (executionDoneMsg s)) ->
  exists t1 t2 t3 t4 t5 base newWs resp1 refs ref rest resp3,
    log = successLog m parent gitInfo t1 t2 t3 t4 t5 base (Id newWs) /\
    httpDo w [EvToken DevOpsScope]
      (devopsRequest (OrganizationName gitInfo) GET
         (refsQueryPath (ProjectName gitInfo) (RepositoryName gitInfo) (BranchName gitInfo))
         t1 NoBody) = Ok resp1 /\
    decodeGitRefs w (RawBody resp1) = Ok refs /\
    Value refs = ref :: rest /\ base = ObjectId ref /\
    httpDo w (take 5 (successLog m parent gitInfo t1 t2 t3 t4 t5 base (Id newWs)))
      (fabricRequest POST "/workspaces" t3 (CreateWorkspaceBody (createRequest m parent)))
      = Ok resp3 /\
    ((StatusCode resp3 = 204 /\ newWs = zeroWorkspace) \/
     (StatusCode resp3 <> 204 /\ decodeWorkspace w (RawBody resp3) = Ok newWs)).
Proof.
  intros Hsel Hgit. unfold io_run, executeFlowCmd. rewrite Hsel, Hgit.
  rewrite io_bind_run.
  destruct (GetBranchObjectId (devopsClient m) (OrganizationName gitInfo) (ProjectName gitInfo)
              (RepositoryName gitInfo) (BranchName gitInfo) w [])
    as [l1 [[base|e]|]] eqn:H1; io_simpl; try discriminate.
  destruct (CreateBranch (devopsClient m) (OrganizationName gitInfo) (ProjectName gitInfo)
              (RepositoryName gitInfo) (newBranchName m) base w l1)
    as [l2 [[e|]|]] eqn:H2; io_simpl; try discriminate.
  destruct (CreateWorkspace (fabricClient m) (createRequest m parent) w l2)
    as [l3 [[newWs|e]|]] eqn:H3; io_simpl; try discriminate.
  destruct (ConnectWorkspaceToGit (fabricClient m) (Id newWs)
              {| reqGitProviderDetails := Some (withBranchName (newBranchName m) gitInfo) |}
              w l3)
    as [l4 [[e|]|]] eqn:H4; io_simpl; try discriminate.
  destruct (UpdateWorkspaceFromGit (fabricClient m) (Id newWs) w l4)
    as [l5 [[e|]|]] eqn:H5; io_simpl; try discriminate.
  intros [= <- <-].
  destruct (GetBranchObjectId_ok _ _ _ _ _ _ _ _ _ H1)
    as (t1 & resp1 & refs & ref & rest & _ & -> & Hdo1 & _ & _ & Hrefs & _ & Hv & Hbase).
  destruct (CreateBranch_ok _ _ _ _ _ _ _ _ _ H2) as (t2 & _ & ->).
  destruct (CreateWorkspace_ok _ _ _ _ _ _ H3) as (t3 & resp3 & _ & -> & Hdo3 & _ & Hws).
  destruct (ConnectWorkspaceToGit_ok _ _ _ _ _ _ H4) as (t4 & _ & ->).
  destruct (UpdateWorkspaceFromGit_ok _ _ _ _ _ H5) as (t5 & _ & ->).
  exists t1, t2, t3, t4, t5, base, newWs, resp1, refs, ref, rest, resp3.
  split; [reflexivity|]. split; [exact Hdo1|]. split; [exact Hrefs|].
  split; [exact Hv|]. split; [exact Hbase|]. split; [exact Hdo3 | exact Hws].
Qed.

(** X7. A successful run of [executeFlowCmd] leaves exactly ten events: before
    each of the five requests a token of the service it goes to (the
    repository scope twice, the workspace scope three times); the requests are
    the refs query for the source branch, the ref update, the workspace
    creation, and the link and the update-from-git of one and the same new
    workspace id. *)
Theorem execution_success_log (m : model) (h : heap) (w : World)
    (parent : Workspace) (gitInfo : GitProviderDetails) (log : list Event) (s : string) :
  selectedDevWorkspace m ≫= (h !!.) = Some parent ->
  wsGitProviderDetails parent = Some gitInfo ->
  io_run (executeFlowCmd m h) w = (log, Some (executionDoneMsg s)) ->
  exists t1 t2 t3 t4 t5 base newId,
    log = successLog m parent gitInfo t1 t2 t3 t4 t5 base newId /\
    length log = 10%nat /\
    map rqMethod (sends log) = [GET; POST; POST; POST; POST] /\
    map rqAuthorization (sends log)
      = map (fun t => "Bearer " +:+ t) [t1; t2; t3; t4; t5].
Proof.
  intros Hsel Hgit Hrun.
  destruct (executeFlowCmd_success _ _ _ _ _ _ _ Hsel Hgit Hrun)
    as (t1 & t2 & t3 & t4 & t5 & base & newWs & _ & _ & _ & _ & _ & -> & _).
  exists t1, t2, t3, t4, t5, base, (Id newWs). repeat split.
Qed.

(** X8. In a successful run the new branch is pointed at the object id of the
    first ref the refs query returned, and the workspace that is linked and
    updated is the one the creation request returned: the decoded workspace,
    or the workspace with the empty id when the creation was answered with
    204. *)
Theorem execution_uses_returned_values (m : model) (h : heap) (w : World)
    (parent : Workspace) (gitInfo : GitProviderDetails) (log : list Event) (s : string) :
  selectedDevWorkspace m ≫= (h !!.) = Some parent ->
  wsGitProviderDetails parent = Some gitInfo ->
  io_run (executeFlowCmd m h) w = (log, Some (executionDoneMsg s)) ->
  exists rq1 rq2 rq3 rq4 rq5 resp1 refs ref rest resp3 newId,
    sends log = [rq1; rq2; rq3; rq4; rq5] /\
    httpDo w (take 1 log) rq1 = Ok resp1 /\
    decodeGitRefs w (RawBody resp1) = Ok refs /\
    Value refs = ref :: rest /\
    rqBody rq2 = RefUpdatesBody [ {| updName := fullBranchName (newBranchName m);
                                     OldObjectId := zeroObjectId;
                                     NewObjectId := ObjectId ref |} ] /\
    httpDo w (take 5 log) rq3 = Ok resp3 /\
    ((StatusCode resp3 = 204 /\ newId = "") \/
     (StatusCode resp3 <> 204 /\
      exists newWs, decodeWorkspace w (RawBody resp3) = Ok newWs /\ newId = Id newWs)) /\
    rqURL rq4 = BaseURL +:+ "/workspaces/" +:+ newId +:+ "/git/connect" /\
    rqURL rq5 = BaseURL +:+ "/workspaces/" +:+ newId +:+ "/git/updateFromGit".
Proof.
  intros Hsel Hgit Hrun.
  destruct (executeFlowCmd_success _ _ _ _ _ _ _ Hsel Hgit Hrun)
    as (t1 & t2 & t3 & t4 & t5 & base & newWs & resp1 & refs & ref & rest & resp3
        & -> & Hdo1 & Hrefs & Hv & -> & Hdo3 & Hws).
  do 5 eexists. exists resp1, refs, ref, rest, resp3, (Id newWs).
  split; [reflexivity|]. split; [exact Hdo1|]. split; [exact Hrefs|].
  split; [exact Hv|]. split; [reflexivity|]. split; [exact Hdo3|].
  split; [|split; reflexivity].
  destruct Hws as [(H204 & ->) | (Hn & Hdec)]; [left; auto | right; eauto].
Qed.

Ltac seq_label_at i :=
  exists i; do 2 eexists; split; [reflexivity | split; [reflexivity | split; lia] ].

Ltac seq_label :=
  first [ seq_label_at 0%nat | seq_label_at 1%nat | seq_label_at 2%nat
        | seq_label_at 3%nat | seq_label_at 4%nat ].

Ltac seq_done base :=
  let H := fresh "H" in
  intros H; injection H as <- <-;
  rewrite ?bodies_app; simpl bodies;
  repeat match goal with
         | E : bodies ?ext = _ |- context [bodies ?ext] => rewrite E
         end;
  exists base;
  first [ exists 0%nat; split; [reflexivity|]
        | exists 1%nat; split; [reflexivity|]
        | exists 2%nat; split; [reflexivity|]
        | exists 3%nat; split; [reflexivity|]
        | exists 4%nat; split; [reflexivity|]
        | exists 5%nat; split; [reflexivity|] ];
  simpl; first [ exact I | split; reflexivity | seq_label ].

Ltac seq_sent Hok :=
  let E := fresh "E" in
  pose proof (Hok _ eq_refl) as E;
  first [ specialize (E (ex_intro _ _ eq_refl)) | specialize (E eq_refl) ];
  clear Hok.

(** X9. The five steps run strictly in order, whatever the world answers: the
    bodies of the requests sent are the first [k] of the plan; the summary is
    returned only after all five; and an error carries the label of one step,
    all requests of the steps before it were sent, and none of the steps after
    it. *)
Theorem execution_is_sequential (m : model) (h : heap) (w : World)
    (parent : Workspace) (gitInfo : GitProviderDetails) (log : list Event)
    (res : option Msg) :
  selectedDevWorkspace m ≫= (h !!.) = Some parent ->
  wsGitProviderDetails parent = Some gitInfo ->
  io_run (executeFlowCmd m h) w = (log, res) ->
  exists base k, bodies log = take k (plan m parent gitInfo base) /\ flowResult k res.
Proof.
  intros Hsel Hgit. unfold io_run, executeFlowCmd. rewrite Hsel, Hgit.
  rewrite io_bind_run.
  destruct (GetBranchObjectId_sends (devopsClient m) (OrganizationName gitInfo)
              (ProjectName gitInfo) (RepositoryName gitInfo) (BranchName gitInfo) w [])
    as (ext1 & r1 & -> & Hb1 & Hok1).
  destruct r1 as [[base|e]|]; [| destruct Hb1; seq_done EmptyString ..].
  seq_sent Hok1. clear Hb1.
  rewrite io_bind_run.
  destruct (CreateBranch_sends (devopsClient m) (OrganizationName gitInfo)
              (ProjectName gitInfo) (RepositoryName gitInfo) (newBranchName m) base
              w ([] ++ ext1))
    as (ext2 & r2 & -> & Hb2 & Hok2).
  destruct r2 as [[e|]|]; [destruct Hb2; seq_done base | | destruct Hb2; seq_done base].
  seq_sent Hok2. clear Hb2.
  rewrite io_bind_run.
  destruct (CreateWorkspace_sends (fabricClient m) (createRequest m parent)
              w (([] ++ ext1) ++ ext2))
    as (ext3 & r3 & -> & Hb3 & Hok3).
  destruct r3 as [[newWs|e]|]; [| destruct Hb3; seq_done base ..].
  seq_sent Hok3. clear Hb3.
  rewrite io_bind_run.
  destruct (ConnectWorkspaceToGit_sends (fabricClient m) (Id newWs)
              {| reqGitProviderDetails := Some (withBranchName (newBranchName m) gitInfo) |}
              w ((([] ++ ext1) ++ ext2) ++ ext3))
    as (ext4 & r4 & -> & Hb4 & Hok4).
  destruct r4 as [[e|]|]; [destruct Hb4; seq_done base | | destruct Hb4; seq_done base].
  seq_sent Hok4. clear Hb4.
  rewrite io_bind_run.
  destruct (UpdateWorkspaceFromGit_sends (fabricClient m) (Id newWs)
              w (((([] ++ ext1) ++ ext2) ++ ext3) ++ ext4))
    as (ext5 & r5 & -> & Hb5 & Hok5).
  destruct r5 as [[e|]|]; [destruct Hb5; seq_done base | | destruct Hb5; seq_done base].
  seq_sent Hok5. clear Hb5.
  seq_done base.
Qed.

Lemma ready_fabric (m : model) :
  clientsReady m ->
  ~ (fabricClient m = None \/ exists cl, fabricClient m = Some cl /\ fabricAuth cl = None).
Proof.
  intros (a & _ & Hf & _) [H | (cl & H & Hn)]; rewrite Hf in H; [discriminate|].
  injection H as <-. discriminate Hn.
Qed.

Lemma ready_devops (m : model) :
  clientsReady m ->
  ~ (devopsClient m = None \/ exists cl, devopsClient m = Some cl /\ devopsAuth cl = None).
Proof.
  intros (a & _ & _ & Hd) [H | (cl & H & Hn)]; rewrite Hd in H; [discriminate|].
  injection H as <-. discriminate Hn.
Qed.

Lemma executeFlowCmd_panic (m : model) (h : heap) (w : World)
    (parent : Workspace) (gitInfo : GitProviderDetails) (log : list Event) :
  clientsReady m ->
  selectedDevWorkspace m ≫= (h !!.) = Some parent ->
  wsGitProviderDetails parent = Some gitInfo ->
  io_run (executeFlowCmd m h) w = (log, None) ->
  exists token resp refs,
    log = [EvToken DevOpsScope;
           EvSend (devopsRequest (OrganizationName gitInfo) GET
                     (refsQueryPath (ProjectName gitInfo) (RepositoryName gitInfo)
                        (BranchName gitInfo)) token NoBody)] /\
    httpDo w [EvToken DevOpsScope]
      (devopsRequest (OrganizationName gitInfo) GET
         (refsQueryPath (ProjectName gitInfo) (RepositoryName gitInfo) (BranchName gitInfo))
         token NoBody) = Ok resp /\
    decodeGitRefs w (RawBody resp) = Ok refs /\
    Count refs <> 0 /\ Value refs = [].
Proof.
  intros Hready Hsel Hgit. unfold io_run, executeFlowCmd. rewrite Hsel, Hgit.
  pose proof (ready_fabric _ Hready) as Hf. pose proof (ready_devops _ Hready) as Hd.
  rewrite io_bind_run.
  destruct (GetBranchObjectId (devopsClient m) (OrganizationName gitInfo) (ProjectName gitInfo)
              (RepositoryName gitInfo) (BranchName gitInfo) w [])
    as [l1 [[base|e]|]] eqn:H1; io_simpl; try discriminate.
  2:{ intros [= <-].
      destruct (GetBranchObjectId_panic _ _ _ _ _ _ _ _ H1)
        as [(_ & Hnil) | (token & resp & refs & -> & Hrest)]; [contradiction|].
      exists token, resp, refs. split; [reflexivity | exact Hrest]. }
  destruct (CreateBranch (devopsClient m) (OrganizationName gitInfo) (ProjectName gitInfo)
              (RepositoryName gitInfo) (newBranchName m) base w l1)
    as [l2 [[e|]|]] eqn:H2; io_simpl; try discriminate.
  2:{ destruct (CreateBranch_panic _ _ _ _ _ _ _ _ _ H2) as (_ & Hnil). contradiction. }
  destruct (CreateWorkspace (fabricClient m) (createRequest m parent) w l2)
    as [l3 [[newWs|e]|]] eqn:H3; io_simpl; try discriminate.
  2:{ destruct (CreateWorkspace_panic _ _ _ _ _ H3) as (_ & Hnil). contradiction. }
  destruct (ConnectWorkspaceToGit (fabricClient m) (Id newWs)
              {| reqGitProviderDetails := Some (withBranchName (newBranchName m) gitInfo) |}
              w l3)
    as [l4 [[e|]|]] eqn:H4; io_simpl; try discriminate.
  2:{ destruct (ConnectWorkspaceToGit_panic _ _ _ _ _ _ H4) as (_ & Hnil). contradiction. }
  destruct (UpdateWorkspaceFromGit (fabricClient m) (Id newWs) w l4)
    as [l5 [[e|]|]] eqn:H5; io_simpl; try discriminate.
  destruct (UpdateWorkspaceFromGit_panic _ _ _ _ _ H5) as (_ & Hnil). contradiction.
Qed.

(** X10. With the clients in place and the selected workspace linked to git,
    [executeFlowCmd] can panic at one point only: right after the refs query,
    when the decoded answer announces a non-zero count and holds no ref.
    Nothing has been created then: the refs query is the only request sent. *)
Theorem execution_panics_before_any_change (m : model) (h : heap) (w : World)
    (parent : Workspace) (gitInfo : GitProviderDetails) (log : list Event) :
  clientsReady m ->
  selectedDevWorkspace m ≫= (h !!.) = Some parent ->
  wsGitProviderDetails parent = Some gitInfo ->
  io_run (executeFlowCmd m h) w = (log, None) ->
  bodies log = [NoBody] /\
  map rqMethod (sends log) = [GET] /\
  exists rq resp refs,
    sends log = [rq] /\
    httpDo w (take 1 log) rq = Ok resp /\
    decodeGitRefs w (RawBody resp) = Ok refs /\
    Count refs <> 0 /\ Value refs = [].
Proof.
  intros Hready Hsel Hgit Hrun.
  destruct (executeFlowCmd_panic _ _ _ _ _ _ Hready Hsel Hgit Hrun)
    as (token & resp & refs & -> & Hdo & Hrefs & Hc & Hv).
  split; [reflexivity|]. split; [reflexivity|].
  eexists. exists resp, refs. split; [reflexivity|]. auto.
Qed.

(** ** [Update], message by message *)

(** X11. [Update] panics in one case only: a git link with a provider type
    arrives while no workspace is selected (the store through the nil pointer).
    Every other message, in every phase, is handled. *)
Theorem update_panics_only_without_selection (m : model) (h : heap) (msg : Msg) :
  Update m h msg = None <->
  exists d,
    msg = gitConnectionMsg (Some d) /\
    GitProviderType d <> "" /\
    selectedDevWorkspace m ≫= (h !!.) = None.
Proof.
  unfold Update. split.
  - destruct msg; simpl; try discriminate.
    + destruct (String.eqb key "ctrl+c"); discriminate.
    + destruct details as [d|]; [|discriminate].
      destruct (String.eqb (GitProviderType d) "") eqn:Hd; [discriminate|].
      apply String.eqb_neq in Hd.
      destruct (selectedDevWorkspace m) as [p|]; simpl.
      * destruct (h !! p) eqn:Hp; [discriminate|]. intros _. exists d. auto.
      * intros _. exists d. auto.
  - intros (d & -> & Hd & Hsel). simpl.
    rewrite (eqb_empty_false _ Hd).
    destruct (selectedDevWorkspace m) as [p|]; simpl in *; [|reflexivity].
    rewrite Hsel. reflexivity.
Qed.

(** X12. The progress log is append-only: no message removes or reorders an
    entry, and the only message that adds one is [executionStepMsg], which
    appends its text at the end. *)
Theorem progress_log_is_append_only (m : model) (h : heap) (msg : Msg)
    (m' : model) (h' : heap) (c : Cmd) :
  Update m h msg = Some (m', h', c) ->
  executionInfos m' =
  executionInfos m ++ match msg with
                      | executionStepMsg info => [info]
                      | _ => []
                      end.
Proof.
  intros Hup.
  destruct (external msg) eqn:Hext.
  - destruct (Update_external _ _ _ _ _ _ Hext Hup) as (Hi & _).
    rewrite Hi. destruct msg; try discriminate Hext; rewrite app_nil_r; reflexivity.
  - unfold Update in Hup. destruct msg; try discriminate Hext; simpl in Hup.
    + injection Hup as <- <- <-. simpl. rewrite app_nil_r. reflexivity.
    + injection Hup as <- <- <-. simpl. rewrite app_nil_r. reflexivity.
    + injection Hup as <- <- <-. simpl. rewrite app_nil_r. reflexivity.
    + destruct (match details with
                | Some d => String.eqb (GitProviderType d) ""
                | None => true
                end).
      * injection Hup as <- <- <-. simpl. rewrite app_nil_r. reflexivity.
      * destruct (selectedDevWorkspace m) as [p|]; [|discriminate Hup].
        destruct (h !! p); [|discriminate Hup].
        injection Hup as <- <- <-. simpl. rewrite app_nil_r. reflexivity.
    + injection Hup as <- <- <-. reflexivity.
    + injection Hup as <- <- <-. simpl. rewrite app_nil_r. reflexivity.
Qed.

(** ** The running program, continued *)

(** X13. At most one remote command is outstanding at any time of a run, and
    one is outstanding exactly in the phases that await a result (Init,
    LoadingWorkspaces, LoadingGit, Executing). *)
Theorem one_remote_command_at_a_time (p : program) :
  reachable p ->
  (length (pending p) <= 1)%nat /\
  (length (pending p) = 1%nat <-> awaiting (state (current p)) = true) /\
  forall c, In c (pending p) ->
    match state (current p), c with
    | stateInit, RunInitClients
    | stateLoadingWorkspaces, RunFetchWorkspaces _
    | stateLoadingGit, RunFetchGitConnection _ _
    | stateExecuting, RunExecuteFlow _ => True
    | _, _ => False
    end.
Proof.
  intros Hreach. destruct (reachable_programOk _ Hreach) as (Hpend & _).
  unfold pendingOk in Hpend.
  destruct (state (current p));
    repeat match goal with
           | H : exists _, _ |- _ => destruct H as [? H]
           end;
    rewrite Hpend; simpl;
    (split; [lia|]); (split; [split; intros H; first [reflexivity | discriminate H]|]);
    intros c Hin; simpl in Hin;
    first [ contradiction | destruct Hin as [<- | []]; exact I ].
Qed.

(** X14. [stateDone] and [stateError] are final in a run: no step changes the
    phase or the success summary, and nothing is dispatched any more. *)
Theorem final_phases_are_final (p p' : program) :
  reachable p -> step p p' ->
  state (current p) = stateDone \/ state (current p) = stateError ->
  state (current p') = state (current p) /\
  successMsg (current p') = successMsg (current p) /\
  executionInfos (current p') = executionInfos (current p) /\
  pending p' = [].
Proof.
  intros Hreach Hstep Hfinal.
  pose proof (reachable_programOk _ Hreach) as Hok.
  assert (Hnone : pending p = []).
  { destruct Hok as (Hpend & _). unfold pendingOk in Hpend.
    destruct Hfinal as [Hst|Hst]; rewrite Hst in Hpend; exact Hpend. }
  destruct (step_cases _ _ Hok Hstep)
    as [(msg & Hext & Hdel) | (c & run & w & log & msg & Hp & _)].
  - unfold deliver in Hdel.
    destruct (Update (current p) (store p) msg) as [[[m' h'] c]|] eqn:Hup; [|discriminate Hdel].
    injection Hdel as <-. simpl.
    destruct (Update_external _ _ _ _ _ _ Hext Hup) as (Hi & Hs & Hcase).
    destruct Hcase as [(Hst & Hc) | [(Hst & _) | [(Hst & _) | (Hst & _)]]].
    + rewrite Hnone, Hc. auto.
    + destruct Hfinal as [H|H]; rewrite H in Hst; discriminate Hst.
    + destruct Hfinal as [H|H]; rewrite H in Hst; discriminate Hst.
    + destruct Hfinal as [H|H]; rewrite H in Hst; discriminate Hst.
  - rewrite Hnone in Hp. discriminate Hp.
Qed.

Lemma initClientsCmd_ready (w : World) (log : list Event) (msg : Msg) :
  io_run initClientsCmd w = (log, Some msg) ->
  (exists e, msg = errMsg e) \/
  (exists a, msg = clientsReadyMsg (Some a) (Some {| fabricAuth := Some a |})
                     (Some {| devopsAuth := Some a |})).
Proof.
  unfold io_run, initClientsCmd, NewAuthenticator. io_simpl.
  destruct (NewAzureCLICredential w []); io_simpl; intros [= <- <-]; eauto.
Qed.

(** What a user or widget event leaves alone. *)
Lemma Update_external_frame (m : model) (h : heap) (msg : Msg)
    (m' : model) (h' : heap) (c : Cmd) :
  external msg = true ->
  Update m h msg = Some (m', h', c) ->
  (authClient m' = authClient m /\ fabricClient m' = fabricClient m /\
   devopsClient m' = devopsClient m) /\
  ((h' = h /\ remoteCmds c = []) \/
   (state m = stateSelectWorkspace /\
    exists id, remoteCmds c = [RunFetchGitConnection m' id]) \/
   (state m = stateEnterWorkspace /\ h' = h /\ remoteCmds c = [RunExecuteFlow m'] /\
    selectedDevWorkspace m' = selectedDevWorkspace m)).
Proof.
  intros Hext Hup.
  assert (Hstate : forall m0,
            authClient m0 = authClient m -> fabricClient m0 = fabricClient m ->
            devopsClient m0 = devopsClient m ->
            selectedDevWorkspace m0 = selectedDevWorkspace m -> state m0 = state m ->
            onState m0 h msg = (m', h', c) ->
            (authClient m' = authClient m /\ fabricClient m' = fabricClient m /\
             devopsClient m' = devopsClient m) /\
            ((h' = h /\ remoteCmds c = []) \/
             (state m = stateSelectWorkspace /\
              exists id, remoteCmds c = [RunFetchGitConnection m' id]) \/
             (state m = stateEnterWorkspace /\ h' = h /\ remoteCmds c = [RunExecuteFlow m'] /\
              selectedDevWorkspace m' = selectedDevWorkspace m))).
  { intros m0 Ha Hf Hd Hs Hst. unfold onState. rewrite Hst.
    destruct (state m) eqn:E.
    - destruct (spinnerUpdate (spinner m0) msg). intros [= <- <- <-]. simpl. auto.
    - destruct (spinnerUpdate (spinner m0) msg). intros [= <- <- <-]. simpl. auto.
    - destruct (if isEnter msg then list_SelectedItem (workspaceLst m0) else None).
      + intros [= <- <- <-]. simpl. split; [auto|]. right. left. eauto.
      + destruct (listUpdate (workspaceLst m0) msg). intros [= <- <- <-]. simpl. auto.
    - destruct (spinnerUpdate (spinner m0) msg). intros [= <- <- <-]. simpl. auto.
    - destruct (isEnter msg); simpl.
      + destruct (negb (String.eqb (textinput_Value (branchInput m0)) "")).
        * intros [= <- <- <-]. simpl. auto.
        * destruct (textinputUpdate (branchInput m0) msg). intros [= <- <- <-]. simpl. auto.
      + destruct (textinputUpdate (branchInput m0) msg). intros [= <- <- <-]. simpl. auto.
    - destruct (isEnter msg); simpl.
      + destruct (negb (String.eqb (textinput_Value (wsInput m0)) "")).
        * intros [= <- <- <-]. simpl. split; [auto|]. right. right. auto.
        * destruct (textinputUpdate (wsInput m0) msg). intros [= <- <- <-]. simpl. auto.
      + destruct (textinputUpdate (wsInput m0) msg). intros [= <- <- <-]. simpl. auto.
    - destruct (spinnerUpdate (spinner m0) msg). intros [= <- <- <-]. simpl. auto.
    - intros [= <- <- <-]. simpl. auto.
    - intros [= <- <- <-]. simpl. auto. }
  unfold Update in Hup.
  destruct msg; try discriminate Hext; simpl in Hup.
  - destruct (String.eqb key "ctrl+c").
    + injection Hup as <- <- <-. simpl. auto.
    + injection Hup as Hup. exact (Hstate m eq_refl eq_refl eq_refl eq_refl eq_refl Hup).
  - injection Hup as Hup.
    exact (Hstate (set_workspaceLst _ m) eq_refl eq_refl eq_refl eq_refl eq_refl Hup).
  - injection Hup as Hup. exact (Hstate m eq_refl eq_refl eq_refl eq_refl eq_refl Hup).
Qed.

Lemma clientsReady_same (m m' : model) :
  authClient m' = authClient m -> fabricClient m' = fabricClient m ->
  devopsClient m' = devopsClient m -> clientsReady m -> clientsReady m'.
Proof.
  intros Ha Hf Hd (a & H1 & H2 & H3). exists a. rewrite Ha, Hf, Hd. auto.
Qed.

Lemma step_commandsReady (p p' : program) :
  programOk p -> selectionOk (current p) (store p) -> commandsReady p ->
  step p p' -> commandsReady p'.
Proof.
  intros Hok Hselok (Hcur & Hcmds) Hstep.
  destruct (step_cases _ _ Hok Hstep)
    as [(msg & Hext & Hdel) | (c & run & w & log & msg & Hp & Hperf & Hrun & Hdel)].
  - unfold deliver in Hdel.
    destruct (Update (current p) (store p) msg) as [[[m' h'] c]|] eqn:Hup; [|discriminate Hdel].
    injection Hdel as <-.
    destruct (Update_external _ _ _ _ _ _ Hext Hup) as (_ & _ & Hphase).
    destruct (Update_external_frame _ _ _ _ _ _ Hext Hup) as ((Ha & Hf & Hd) & Hcase).
    assert (Hready : state m' <> stateInit -> state m' <> stateError -> clientsReady m').
    { intros Hn1 Hn2. apply (clientsReady_same (current p)); auto.
      apply Hcur;
        destruct Hphase as [(Hst & _) | [(Hst & _) | [(Hst & _) | (Hst & _)]]];
        rewrite <- ?Hst; try assumption; rewrite Hst; discriminate. }
    split; [exact Hready|]. simpl.
    destruct Hcase as [(-> & Hc) | [(Hst & id & Hc) | (Hst & -> & Hc & Hs)]];
      rewrite Hc; intros c0 Hin; apply in_app_or in Hin.
    + destruct Hin as [Hin | []]. exact (Hcmds c0 Hin).
    + destruct Hok as (Hpend & _). unfold pendingOk in Hpend. rewrite Hst in Hpend.
      rewrite Hpend in Hin. destruct Hin as [[] | [<- | []]]. simpl.
      apply Hready; destruct Hphase as [(H1 & H2) | [(_ & H1 & _) | [(H1 & _) | (H1 & _)]]];
        first [ rewrite Hc in H2; discriminate H2
              | rewrite Hst in H1; discriminate H1
              | rewrite H1; discriminate ].
    + destruct Hok as (Hpend & _). unfold pendingOk in Hpend. rewrite Hst in Hpend.
      rewrite Hpend in Hin. destruct Hin as [[] | [<- | []]]. simpl. split.
      * apply (clientsReady_same (current p)); auto; apply Hcur; rewrite Hst; discriminate.
      * destruct Hselok as (_ & _ & Hg).
        destruct Hg as (q & ws & g & Hq & Hws & Hgit); [rewrite Hst; auto|].
        exists ws, g. rewrite Hs, Hq. auto.
  - destruct (pending_result _ _ _ _ _ _ Hok Hp Hperf Hrun) as (Haw & Hmsg).
    unfold deliver, Update in Hdel.
    assert (Hkeep : forall m1,
              authClient m1 = authClient (current p) ->
              fabricClient m1 = fabricClient (current p) ->
              devopsClient m1 = devopsClient (current p) ->
              state (current p) <> stateInit ->
              commandsReady {| current := m1; store := store p; pending := [] |}).
    { intros m1 Ha Hf Hd Hn. split; [|intros c0 []]. simpl. intros _ _.
      apply (clientsReady_same (current p)); auto. apply Hcur; [exact Hn|].
      intros He. rewrite He in Haw. discriminate Haw. }
    destruct (state (current p)) eqn:Hst; try discriminate Haw.
    + destruct Hok as (Hpend & _). unfold pendingOk in Hpend. rewrite Hst, Hp in Hpend.
      injection Hpend as ->. injection Hperf as <-.
      destruct (initClientsCmd_ready _ _ _ Hrun) as [(e & ->) | (a & ->)];
        simpl in Hdel; injection Hdel as <-.
      * split; [simpl; intros _ Hn; contradiction | intros c0 []].
      * assert (Hr : clientsReady (set_state stateLoadingWorkspaces
                       (set_clients (Some a) (Some {| fabricAuth := Some a |})
                          (Some {| devopsAuth := Some a |}) (current p)))).
        { exists a. auto. }
        split; [intros _ _; exact Hr|]. simpl. intros c0 [<- | []]. exact Hr.
    + destruct Hmsg as [(e & ->) | (ws & ->)]; simpl in Hdel; injection Hdel as <-.
      * split; [simpl; intros _ Hn; contradiction | intros c0 []].
      * apply Hkeep; auto; discriminate.
    + destruct Hmsg as [(e & ->) | (details & ->)]; simpl in Hdel.
      * injection Hdel as <-. split; [simpl; intros _ Hn; contradiction | intros c0 []].
      * destruct (match details with
                  | Some d => String.eqb (GitProviderType d) ""
                  | None => true
                  end).
        -- injection Hdel as <-.
           split; [simpl; intros _ Hn; contradiction | intros c0 []].
        -- destruct (selectedDevWorkspace (current p)) as [q|]; [|discriminate Hdel].
           destruct (store p !! q) as [ws|]; [|discriminate Hdel].
           injection Hdel as <-. split; [|intros c0 []]. simpl. intros _ _.
           apply (clientsReady_same (current p)); auto; apply Hcur; rewrite Hst; discriminate.
    + destruct Hmsg as [(e & ->) | (-> & _)]; simpl in Hdel; injection Hdel as <-.
      * split; [simpl; intros _ Hn; contradiction | intros c0 []].
      * apply Hkeep; auto; discriminate.
Qed.

Lemma commandsReady_start : commandsReady start.
Proof.
  split; [intros Hn; contradiction|].
  simpl. intros c [<- | []]. exact I.
Qed.

Lemma reachable_commandsReady (p : program) : reachable p -> commandsReady p.
Proof.
  intros Hreach.
  assert (H : commandsReady p /\ reachable p).
  { apply (rtc_ind_r (R := step) (fun q => commandsReady q /\ reachable q) start);
      [split; [exact commandsReady_start | apply rtc_refl] | | exact Hreach].
    intros q q' _ Hstep (IH & Hq). split.
    - apply (step_commandsReady q q'); auto.
      + exact (reachable_programOk _ Hq).
      + exact (runs_selectionOk _ _ (reachable_runs _ Hq)).
    - eapply rtc_r; [exact Hq | exact Hstep]. }
  exact (proj1 H).
Qed.

(** X15. In every state of a run outside [stateInit] and [stateError] the three
    clients are in place: none is nil and both REST clients hold the
    authenticator of the model. *)
Theorem clients_are_in_place (p : program) :
  reachable p ->
  state (current p) <> stateInit ->
  state (current p) <> stateError ->
  exists a,
    authClient (current p) = Some a /\
    fabricClient (current p) = Some {| fabricAuth := Some a |} /\
    devopsClient (current p) = Some {| devopsAuth := Some a |}.
Proof.
  intros Hreach Hn1 Hn2.
  exact (proj1 (reachable_commandsReady _ Hreach) Hn1 Hn2).
Qed.

Lemma fetchWorkspacesCmd_total (m : model) (w : World) :
  clientsReady m -> exists log msg, io_run (fetchWorkspacesCmd m) w = (log, Some msg).
Proof.
  intros Hready. unfold io_run, fetchWorkspacesCmd, ListWorkspaces. rewrite !io_bind_run.
  destruct (fabric_doRequest (fabricClient m) GET "/workspaces" NoBody
              (Some decodeWorkspaceList) w []) as [l [[[o|]|e]|]] eqn:Hreq; io_simpl; eauto.
  destruct (fabric_doRequest_panic _ _ _ _ _ _ _ _ Hreq) as (_ & Hnil).
  destruct (ready_fabric _ Hready Hnil).
Qed.

Lemma fetchGitConnectionCmd_total (m : model) (id : string) (w : World) :
  clientsReady m -> exists log msg, io_run (fetchGitConnectionCmd m id) w = (log, Some msg).
Proof.
  intros Hready. unfold io_run, fetchGitConnectionCmd, GetGitConnection. rewrite !io_bind_run.
  destruct (fabric_doRequest (fabricClient m) GET ("/workspaces/" +:+ id +:+ "/git/connection")
              NoBody (Some decodeGitConnection) w []) as [l [[[o|]|e]|]] eqn:Hreq;
    io_simpl; eauto.
  destruct (fabric_doRequest_panic _ _ _ _ _ _ _ _ Hreq) as (_ & Hnil).
  destruct (ready_fabric _ Hready Hnil).
Qed.

(** X16. A remote command that is pending in a run never dereferences a nil
    client or a nil selection.  The fetch commands always return a message;
    the execution sequence panics only when the refs query is answered with a
    non-zero count and no ref, and then the query is the only request it
    sent. *)
Theorem pending_commands_do_not_fault (p : program) (c : Cmd) (run : io Msg)
    (w : World) (log : list Event) :
  reachable p ->
  In c (pending p) ->
  perform c (store p) = Some run ->
  io_run run w = (log, None) ->
  (exists mc, c = RunExecuteFlow mc) /\
  bodies log = [NoBody] /\
  exists rq resp refs,
    sends log = [rq] /\
    httpDo w (take 1 log) rq = Ok resp /\
    decodeGitRefs w (RawBody resp) = Ok refs /\
    Count refs <> 0 /\ Value refs = [].
Proof.
  intros Hreach Hin Hperf Hrun.
  pose proof (proj2 (reachable_commandsReady _ Hreach) c Hin) as Hc.
  destruct c; simpl in Hperf; try discriminate Hperf; injection Hperf as <-; simpl in Hc.
  - exfalso. revert Hrun. unfold io_run, initClientsCmd, NewAuthenticator. io_simpl.
    destruct (NewAzureCLICredential w []); io_simpl; discriminate.
  - exfalso. destruct (fetchWorkspacesCmd_total m w Hc) as (l & msg & H).
    rewrite H in Hrun. discriminate Hrun.
  - exfalso. destruct (fetchGitConnectionCmd_total m id w Hc) as (l & msg & H).
    rewrite H in Hrun. discriminate Hrun.
  - destruct Hc as (Hready & parent & g & Hsel & Hgit).
    destruct (executeFlowCmd_panic _ _ _ _ _ _ Hready Hsel Hgit Hrun)
      as (token & resp & refs & -> & Hdo & Hrefs & Hcount & Hv).
    split; [eauto|]. split; [reflexivity|].
    eexists. exists resp, refs. split; [reflexivity|]. auto.
Qed.

(** ** Selecting a workspace and loading its git link *)

Lemma fabric_request_sent {Out} (c : option FabricClient) (method : Method)
    (path : string) (body : Body) (out : option (World -> string -> result Out))
    (w : World) (log log' : list Event) (r : option (result (option Out))) :
  fabric_doRequest c method path body out w log = (log', r) ->
  exists ext,
    log' = log ++ ext /\
    (length (sends ext) <= 1)%nat /\
    forall rq, In rq (sends ext) ->
      exists token, rq = fabricRequest method path token body.
Proof.
  intros Hrun.
  destruct (fabric_doRequest_cases _ _ _ _ _ _ _ _ _ Hrun)
    as [(-> & _) | (cl & a & _ & _ & _ & Hr)].
  - exists []. rewrite app_nil_r. split; [reflexivity|]. split; [simpl; lia | intros rq []].
  - destruct Hr as [(e & _ & -> & _) | (token & _ & -> & _)].
    + eexists. split; [reflexivity|]. split; [simpl; lia | intros rq []].
    + eexists. split; [reflexivity|]. split; [simpl; lia|]. intros rq [<- | []]. eauto.
Qed.

(** X17. "enter" on a highlighted workspace in [stateSelectWorkspace] selects
    a copy of it: the heap grows by that one workspace, the pointer is set to
    it, the loaded workspaces and the list are left as they are, the phase
    becomes [stateLoadingGit], and the command dispatched asks for the git
    connection of exactly that workspace: every request it sends is a GET of
    [/workspaces/<its id>/git/connection]. *)
Theorem selection_fetches_the_git_link (m : model) (h : heap) (i : workspaceItem) :
  state m = stateSelectWorkspace ->
  list_SelectedItem (workspaceLst m) = Some i ->
  exists m',
    Update m h (KeyMsg "enter")
      = Some (m', h ++ [workspace i], RunFetchGitConnection m' (Id (workspace i))) /\
    state m' = stateLoadingGit /\
    selectedDevWorkspace m' ≫= ((h ++ [workspace i]) !!.) = Some (workspace i) /\
    workspaces m' = workspaces m /\
    workspaceLst m' = workspaceLst m /\
    fabricClient m' = fabricClient m /\
    forall w log res rq,
      io_run (fetchGitConnectionCmd m' (Id (workspace i))) w = (log, res) ->
      In rq (sends log) ->
      rqMethod rq = GET /\
      rqURL rq = BaseURL +:+ "/workspaces/" +:+ Id (workspace i) +:+ "/git/connection" /\
      rqBody rq = NoBody.
Proof.
  intros Hst Hsel. eexists. split.
  - unfold Update, onMessage, onState. simpl. rewrite Hst, Hsel. reflexivity.
  - split; [reflexivity|]. split.
    { simpl. rewrite lookup_app_r by lia. rewrite Nat.sub_diag. reflexivity. }
    do 3 (split; [reflexivity|]).
    intros w log res rq Hrun Hin. revert Hrun.
    unfold io_run, fetchGitConnectionCmd, GetGitConnection. rewrite !io_bind_run.
    destruct (fabric_doRequest _ GET ("/workspaces/" +:+ Id (workspace i) +:+ "/git/connection")
                NoBody (Some decodeGitConnection) w []) as [l r0] eqn:Hreq.
    intros Hpost.
    assert (Hl : l = log).
    { destruct r0 as [[[o|]|e]|]; revert Hpost; io_simpl; intros [= <- _]; reflexivity. }
    subst l.
    destruct (fabric_request_sent _ _ _ _ _ _ _ _ _ Hreq) as (ext & -> & _ & Hsent).
    destruct (Hsent rq Hin) as (token & ->). repeat split.
Qed.

(** X18. Storing a usable git link writes through the selected pointer only:
    the heap keeps its size, every other workspace of the heap is untouched,
    the selected one keeps its id, display name, description, type and
    capacity and gets the link, and the loaded workspace list of the model is
    not changed by the store. *)
Theorem git_link_store_is_local (m : model) (h : heap) (d : GitProviderDetails)
    (m' : model) (h' : heap) (c : Cmd) :
  GitProviderType d <> "" ->
  Update m h (gitConnectionMsg (Some d)) = Some (m', h', c) ->
  exists p ws ws',
    selectedDevWorkspace m = Some p /\ h !! p = Some ws /\ h' !! p = Some ws' /\
    wsGitProviderDetails ws' = Some d /\
    Id ws' = Id ws /\ DisplayName ws' = DisplayName ws /\
    Description ws' = Description ws /\ Type_ ws' = Type_ ws /\
    CapacityId ws' = CapacityId ws /\
    length h' = length h /\
    (forall q, q <> p -> h' !! q = h !! q) /\
    workspaces m' = workspaces m /\
    workspaceLst m' = workspaceLst m /\
    selectedDevWorkspace m' = selectedDevWorkspace m /\
    state m' = stateEnterBranch.
Proof.
  intros Hd. unfold Update, onMessage. rewrite (eqb_empty_false _ Hd).
  destruct (selectedDevWorkspace m) as [p|] eqn:Hsel; [|discriminate].
  destruct (h !! p) as [ws|] eqn:Hp; [|discriminate].
  intros [= <- <- <-].
  exists p, ws, (set_wsGitProviderDetails (Some d) ws).
  split; [reflexivity|]. split; [exact Hp|]. split.
  { apply list_lookup_insert_eq. apply lookup_lt_is_Some. eauto. }
  do 6 (split; [reflexivity|]). split; [apply length_insert|]. split.
  { intros q Hq. apply list_lookup_insert_ne. auto. }
  simpl. auto.
Qed.

(** X20. When the git-connection query is answered with a status below 400
    that carries no git link (204, or a body without provider details),
    [fetchGitConnectionCmd] returns the message with nil details, and [Update]
    ends the session in [stateError] with the missing-git-integration text. *)
Theorem missing_git_link_ends_in_error (m : model) (id : string) (w : World)
    (a : Authenticator) (token : string) (resp : HttpResponse) :
  fabricClient m = Some {| fabricAuth := Some a |} ->
  NewRequestWithContext w GET (BaseURL +:+ "/workspaces/" +:+ id +:+ "/git/connection") = None ->
  credGetToken w [] FabricScope = Ok token ->
  httpDo w [EvToken FabricScope]
    (fabricRequest GET ("/workspaces/" +:+ id +:+ "/git/connection") token NoBody) = Ok resp ->
  StatusCode resp < 400 ->
  StatusCode resp = 204 \/
  decodeGitConnection w (RawBody resp) = Ok {| respGitProviderDetails := None |} ->
  io_run (fetchGitConnectionCmd m id) w
    = ([EvToken FabricScope;
        EvSend (fabricRequest GET ("/workspaces/" +:+ id +:+ "/git/connection") token NoBody)],
       Some (gitConnectionMsg None)) /\
  forall (m0 : model) (h0 : heap),
    exists m1,
      Update m0 h0 (gitConnectionMsg None) = Some (m1, h0, CmdNil) /\
      state m1 = stateError /\ err m1 = Some noGitIntegration.
Proof.
  intros Hc Hnew Htok Hdo Hlt Hnone. split.
  - pose proof (error_status_is_reported_aux {| fabricAuth := Some a |} a GET
                  ("/workspaces/" +:+ id +:+ "/git/connection") NoBody decodeGitConnection
                  w [] token resp eq_refl Hnew Htok Hdo) as (Hlog & _ & H204 & Hdec).
    unfold io_run, fetchGitConnectionCmd, GetGitConnection. rewrite Hc, !io_bind_run.
    destruct (fabric_doRequest (Some {| fabricAuth := Some a |}) GET
                ("/workspaces/" +:+ id +:+ "/git/connection") NoBody
                (Some decodeGitConnection) w []) as [l r] eqn:Hreq.
    simpl in Hlog, H204, Hdec. subst l.
    destruct (Z.eq_dec (StatusCode resp) 204) as [E|E].
    + rewrite (H204 E). reflexivity.
    + destruct Hnone as [H|H]; [contradiction|].
      rewrite (Hdec Hlt E), H. reflexivity.
  - intros m0 h0. eexists. split; [reflexivity|]. split; reflexivity.
Qed.

(** X21. [initClientsCmd] contacts the credential store and nothing else.  When
    the store fails it returns the error, prefixed with the text of
    [NewAuthenticator]; otherwise both REST clients are built on the one new
    authenticator.  It does not panic. *)
Theorem clients_are_built_on_one_authenticator (w : World) :
  exists msg,
    io_run initClientsCmd w = ([EvCredential], Some msg) /\
    match NewAzureCLICredential w [] with
    | Err e => msg = errMsg ("failed to create Azure CLI credential: " +:+ e)
    | Ok c =>
        msg = clientsReadyMsg (Some {| cred := c |})
                (Some {| fabricAuth := Some {| cred := c |} |})
                (Some {| devopsAuth := Some {| cred := c |} |})
    end.
Proof.
  unfold io_run, initClientsCmd, NewAuthenticator. io_simpl.
  destruct (NewAzureCLICredential w []); io_simpl; eexists; split; reflexivity.
Qed.

(** ** The endpoints of the workspace facade *)

Ltac facade_call :=
  let Hrun := fresh "Hrun" in
  let Hreq := fresh "Hreq" in
  let Hpost := fresh "Hpost" in
  let Hsent := fresh "Hsent" in
  let Hlen := fresh "Hlen" in
  intros ? ? Hrun; revert Hrun; rewrite io_bind_run;
  let l0 := fresh "l" in
  let r0 := fresh "r" in
  let ext := fresh "ext" in
  match goal with
  | |- context [fabric_doRequest ?c ?m ?p ?b ?o ?w ?l] =>
      destruct (fabric_doRequest c m p b o w l) as [l0 r0] eqn:Hreq
  end;
  intros Hpost;
  match goal with
  | |- fabricCall _ _ _ _ ?log' =>
      assert (l0 = log')
        by (destruct r0 as [[[?|]|?]|]; revert Hpost; io_simpl; intros [= <- _]; reflexivity)
  end;
  subst;
  destruct (fabric_request_sent _ _ _ _ _ _ _ _ _ Hreq) as (ext & -> & Hlen & Hsent);
  exists ext; split; [reflexivity|]; split; [exact Hlen|];
  let rq := fresh "rq" in
  let Hin := fresh "Hin" in
  intros rq Hin; destruct (Hsent rq Hin) as (? & ->); repeat split.

(** X22. Each operation of the workspace facade sends at most one request, to
    its own endpoint under [BaseURL]: the workspace and the workspace list are
    read with GET and no body; a workspace is created by POST of the request
    as given; a workspace is linked by POST of the link as given; and the
    update from git always asks to prefer the remote side and to allow
    overriding items. *)
Theorem workspace_facade_endpoints (c : option FabricClient) (w : World) (log : list Event) :
  (forall id log' r, GetWorkspace c id w log = (log', r) ->
     fabricCall GET ("/workspaces/" +:+ id) NoBody log log') /\
  (forall id log' r, GetGitConnection c id w log = (log', r) ->
     fabricCall GET ("/workspaces/" +:+ id +:+ "/git/connection") NoBody log log') /\
  (forall log' r, ListWorkspaces c w log = (log', r) ->
     fabricCall GET "/workspaces" NoBody log log') /\
  (forall req log' r, CreateWorkspace c req w log = (log', r) ->
     fabricCall POST "/workspaces" (CreateWorkspaceBody req) log log') /\
  (forall id req log' r, ConnectWorkspaceToGit c id req w log = (log', r) ->
     fabricCall POST ("/workspaces/" +:+ id +:+ "/git/connect") (ConnectToGitBody req)
       log log') /\
  (forall id log' r, UpdateWorkspaceFromGit c id w log = (log', r) ->
     fabricCall POST ("/workspaces/" +:+ id +:+ "/git/updateFromGit")
       (UpdateFromGitBody "PreferRemote" true) log log').
Proof.
  repeat split.
  - intros id. unfold GetWorkspace. facade_call.
  - intros id. unfold GetGitConnection. facade_call.
  - unfold ListWorkspaces. facade_call.
  - intros req. unfold CreateWorkspace. facade_call.
  - intros id req. unfold ConnectWorkspaceToGit. facade_call.
  - intros id. unfold UpdateWorkspaceFromGit. facade_call.
Qed.

End FurtherProofs.

(** * Further instances on concrete sessions *)

Lemma fabric_request_witness :
  let run := fabric_doRequest readyFabric POST "/workspaces" (CreateWorkspaceBody sampleCreate)
               (Some decodeWorkspace) happyWorld [] in
  exists ext rq resp,
    fst run = [] ++ ext /\
    sends ext = [rq] /\
    rq = fabricRequest POST "/workspaces" "token" (CreateWorkspaceBody sampleCreate) /\
    StatusCode resp < 400.
Proof.
  intros run.
  destruct (fabric_request_is_authorised readyFabric POST "/workspaces"
              (CreateWorkspaceBody sampleCreate) (Some decodeWorkspace) happyWorld []
              (fst run) (snd run))
    as (ext & Hlog & _ & Hsent & Hok); [vm_compute; reflexivity|].
  destruct (Hok (Some newWorkspace)) as (rq & resp & Hrq & _ & Hlt); [vm_compute; reflexivity|].
  exists ext, rq, resp. split; [exact Hlog|]. split; [exact Hrq|]. split; [|exact Hlt].
  destruct (Hsent rq) as (token & Htok & _ & ->); [rewrite Hrq; left; reflexivity|].
  vm_compute in Htok. injection Htok as <-. reflexivity.
Defined.

Lemma devops_request_witness :
  let run := devops_doRequest (Out := unit) readyDevops "A" POST (refsUpdatePath "P" "R")
               NoBody None happyWorld [] in
  exists ext rq resp,
    fst run = [] ++ ext /\
    sends ext = [rq] /\
    rqURL rq = "https://dev.azure.com/A/P/_apis/git/repositories/R/refs?api-version=7.1" /\
    StatusCode resp < 400.
Proof.
  intros run.
  destruct (devops_request_is_authorised (Out := unit) readyDevops "A" POST
              (refsUpdatePath "P" "R") NoBody None happyWorld [] (fst run) (snd run))
    as (ext & Hlog & _ & Hsent & Hok); [vm_compute; reflexivity|].
  destruct (Hok None) as (rq & resp & Hrq & _ & Hlt); [vm_compute; reflexivity|].
  exists ext, rq, resp. split; [exact Hlog|]. split; [exact Hrq|]. split; [|exact Hlt].
  destruct (Hsent rq) as (token & _ & _ & ->); [rewrite Hrq; left; reflexivity|].
  reflexivity.
Defined.

Lemma error_status_witness :
  snd (fabric_doRequest readyFabric POST "/workspaces" (CreateWorkspaceBody sampleCreate)
         (Some decodeWorkspace) noWorkspaceWorld [])
  = Some (Err "fabric API error 500: internal error").
Proof.
  destruct (error_status_is_reported {| fabricAuth := Some {| cred := 1%nat |} |}
              {| cred := 1%nat |} POST "/workspaces" (CreateWorkspaceBody sampleCreate)
              decodeWorkspace noWorkspaceWorld [] "token"
              {| StatusCode := 500; RawBody := "internal error" |}
              eq_refl eq_refl eq_refl eq_refl) as (_ & H400 & _).
  exact (H400 ltac:(simpl; lia)).
Defined.

Lemma branch_lookup_prefix_witness :
  fst (GetBranchObjectId readyDevops "A" "P" "R" "refs/heads/main" happyWorld [])
  = fst (GetBranchObjectId readyDevops "A" "P" "R" "main" happyWorld []) /\
  snd (GetBranchObjectId readyDevops "A" "P" "R" "refs/heads/main" happyWorld [])
  = Some (Ok "c0ffee").
Proof.
  destruct (branch_lookup_ignores_ref_prefix readyDevops "A" "P" "R" "main" happyWorld [])
    as (Hlog & Hok & _).
  split; [exact Hlog|]. apply (proj2 (Hok "c0ffee")). vm_compute. reflexivity.
Defined.

Lemma branch_lookup_result_witness :
  snd (GetBranchObjectId readyDevops "A" "P" "R" "main" happyWorld []) = Some (Ok "c0ffee") /\
  exists resp refs ref rest,
    decodeGitRefs happyWorld (RawBody resp) = Ok refs /\
    Value refs = ref :: rest /\ ObjectId ref = "c0ffee".
Proof.
  split; [vm_compute; reflexivity|].
  destruct (branch_lookup_result readyDevops "A" "P" "R" "main" happyWorld []
              (fst (GetBranchObjectId readyDevops "A" "P" "R" "main" happyWorld []))
              (Some (Ok "c0ffee")))
    as (token & resp & refs & ref & rest & _ & _ & _ & _ & Hrefs & _ & Hv & Hid);
    [vm_compute; reflexivity|].
  exists resp, refs, ref, rest. auto.
Defined.

Lemma create_branch_witness :
  exists ext rq u,
    fst (CreateBranch readyDevops "A" "P" "R" "feature/login" "c0ffee" happyWorld []) = [] ++ ext /\
    sends ext = [rq] /\
    rqBody rq = RefUpdatesBody [u] /\
    updName u = "refs/heads/feature/login" /\
    NewObjectId u = "c0ffee".
Proof.
  destruct (create_branch_request readyDevops "A" "P" "R" "feature/login" "c0ffee" happyWorld []
              (fst (CreateBranch readyDevops "A" "P" "R" "feature/login" "c0ffee" happyWorld []))
              (Some None))
    as (ext & Hlog & Hsent & Hok); [vm_compute; reflexivity|].
  destruct (Hok eq_refl) as (rq & Hrq).
  destruct (Hsent rq) as (_ & _ & u & Hbody & Hname & _ & _ & _ & Hnew);
    [rewrite Hrq; left; reflexivity|].
  exists ext, rq, u. split; [exact Hlog|]. split; [exact Hrq|]. split; [exact Hbody|].
  split; [rewrite Hname; reflexivity | exact Hnew].
Defined.

Lemma execution_success_log_witness :
  let '(m, h) := pendingFlow (after (untilExecuting happyWorld "feature/login")) in
  let log := fst (io_run (executeFlowCmd m h) happyWorld) in
  exists t1 t2 t3 t4 t5 base newId,
    log = successLog m (set_wsGitProviderDetails (Some devLink) devWorkspace) devLink
            t1 t2 t3 t4 t5 base newId /\
    length log = 10%nat /\
    map rqMethod (sends log) = [GET; POST; POST; POST; POST].
Proof.
  vm_compute pendingFlow. cbv beta iota zeta.
  match goal with
  | |- exists t1 t2 t3 t4 t5 base newId, fst (io_run (executeFlowCmd ?m ?h) _) = _ /\ _ =>
      destruct (execution_success_log m h happyWorld
                  (set_wsGitProviderDetails (Some devLink) devWorkspace) devLink
                  (fst (io_run (executeFlowCmd m h) happyWorld)) successSummary)
        as (t1 & t2 & t3 & t4 & t5 & base & newId & Hlog & Hlen & Hm & _)
  end; try (vm_compute; reflexivity).
  exists t1, t2, t3, t4, t5, base, newId. auto.
Defined.

Lemma execution_uses_returned_values_witness :
  let '(m, h) := pendingFlow (after (untilExecuting happyWorld "feature/login")) in
  let log := fst (io_run (executeFlowCmd m h) happyWorld) in
  exists rq4 rq5 newId,
    sends log !! 3%nat = Some rq4 /\ sends log !! 4%nat = Some rq5 /\
    rqURL rq4 = BaseURL +:+ "/workspaces/" +:+ newId +:+ "/git/connect" /\
    rqURL rq5 = BaseURL +:+ "/workspaces/" +:+ newId +:+ "/git/updateFromGit".
Proof.
  vm_compute pendingFlow. cbv beta iota zeta.
  match goal with
  | |- exists rq4 rq5 newId,
         sends (fst (io_run (executeFlowCmd ?m ?h) _)) !! _ = _ /\ _ =>
      destruct (execution_uses_returned_values m h happyWorld
                  (set_wsGitProviderDetails (Some devLink) devWorkspace) devLink
                  (fst (io_run (executeFlowCmd m h) happyWorld)) successSummary)
        as (rq1 & rq2 & rq3 & rq4 & rq5 & resp1 & refs & ref & rest & resp3 & newId
            & Hs & _ & _ & _ & _ & _ & _ & H4 & H5)
  end; try (vm_compute; reflexivity).
  exists rq4, rq5, newId. rewrite Hs. auto.
Defined.

Lemma execution_is_sequential_witness :
  let '(m, h) := pendingFlow (after (untilExecuting happyWorld "feature/login")) in
  exists base k,
    bodies (fst (io_run (executeFlowCmd m h) noWorkspaceWorld))
    = take k (plan m (set_wsGitProviderDetails (Some devLink) devWorkspace) devLink base) /\
    (2 <= k)%nat /\ (k <= 3)%nat.
Proof.
  vm_compute pendingFlow. cbv beta iota zeta.
  match goal with
  | |- exists base k, bodies (fst (io_run (executeFlowCmd ?m ?h) _)) = _ /\ _ =>
      destruct (execution_is_sequential m h noWorkspaceWorld
                  (set_wsGitProviderDetails (Some devLink) devWorkspace) devLink
                  (fst (io_run (executeFlowCmd m h) noWorkspaceWorld))
                  (Some (errMsg "creating workspace: fabric API error 500: internal error")))
        as (base & k & Hb & i & label & e0 & Hi & He & Hlo & Hhi)
  end; try (vm_compute; reflexivity).
  exists base, k. split; [exact Hb|].
  assert (i = 2%nat) as ->.
  { do 5 (destruct i as [|i]; [injection Hi as <-; first [reflexivity | discriminate He]|]).
    discriminate Hi. }
  split; assumption.
Defined.

Lemma execution_panic_witness :
  let '(m, h) := pendingFlow (after (untilExecuting happyWorld "feature/login")) in
  snd (io_run (executeFlowCmd m h) malformedRefsWorld) = None /\
  bodies (fst (io_run (executeFlowCmd m h) malformedRefsWorld)) = [NoBody].
Proof.
  vm_compute pendingFlow. cbv beta iota zeta.
  split; [vm_compute; reflexivity|].
  match goal with
  | |- bodies (fst (io_run (executeFlowCmd ?m ?h) _)) = _ =>
      destruct (execution_panics_before_any_change m h malformedRefsWorld
                  (set_wsGitProviderDetails (Some devLink) devWorkspace) devLink
                  (fst (io_run (executeFlowCmd m h) malformedRefsWorld)))
        as (Hb & _);
        [ exists {| cred := 1%nat |}; repeat split
        | vm_compute; reflexivity
        | vm_compute; reflexivity
        | vm_compute; reflexivity
        | exact Hb ]
  end.
Defined.

Lemma update_panic_witness :
  Update (W := plainWidgets) initialModel [] (gitConnectionMsg (Some devLink)) = None.
Proof.
  apply (proj2 (update_panics_only_without_selection initialModel [] _)).
  exists devLink. split; [reflexivity|]. split; [discriminate | reflexivity].
Defined.

Lemma progress_log_witness :
  exists m' h' c,
    Update (W := plainWidgets) initialModel [] (executionStepMsg "branch created")
      = Some (m', h', c) /\
    executionInfos m' = ["branch created"].
Proof.
  do 3 eexists. split; [reflexivity|].
  exact (progress_log_is_append_only initialModel [] (executionStepMsg "branch created")
           _ _ _ eq_refl).
Defined.

Lemma one_remote_command_witness :
  let p := after (untilExecuting happyWorld "feature/login") in
  state (current p) = stateExecuting /\ length (pending p) = 1%nat.
Proof.
  intros p. split; [vm_compute; reflexivity|].
  destruct (one_remote_command_at_a_time p) as (_ & Hone & _).
  - apply (scenario_reachable (untilExecuting happyWorld "feature/login")).
    vm_compute. reflexivity.
  - apply (proj2 Hone). vm_compute. reflexivity.
Defined.

Lemma final_phases_witness :
  let p := after (untilExecuting happyWorld "feature/login" ++ [Complete happyWorld]) in
  let p' := after (untilExecuting happyWorld "feature/login"
                   ++ [Complete happyWorld; Deliver (KeyMsg "enter")]) in
  state (current p) = stateDone /\
  state (current p') = stateDone /\ pending p' = [].
Proof.
  intros p p'. split; [vm_compute; reflexivity|].
  destruct (final_phases_are_final p p') as (Hst & _ & _ & Hpend).
  - apply (scenario_reachable (untilExecuting happyWorld "feature/login"
                               ++ [Complete happyWorld])).
    vm_compute. reflexivity.
  - apply (act_step p p' (Deliver (KeyMsg "enter"))). vm_compute. reflexivity.
  - left. vm_compute. reflexivity.
  - split; [|exact Hpend]. rewrite Hst. vm_compute. reflexivity.
Defined.

Lemma clients_in_place_witness :
  let p := after (untilBranchPrompt happyWorld) in
  state (current p) = stateEnterBranch /\
  exists a,
    fabricClient (current p) = Some {| fabricAuth := Some a |} /\
    devopsClient (current p) = Some {| devopsAuth := Some a |}.
Proof.
  intros p. split; [vm_compute; reflexivity|].
  destruct (clients_are_in_place p) as (a & _ & Hf & Hd).
  - apply (scenario_reachable (untilBranchPrompt happyWorld)). vm_compute. reflexivity.
  - vm_compute. discriminate.
  - vm_compute. discriminate.
  - exists a. auto.
Defined.

Lemma pending_commands_witness :
  let '(m, h) := pendingFlow (after (untilExecuting happyWorld "feature/login")) in
  snd (io_run (executeFlowCmd m h) malformedRefsWorld) = None /\
  bodies (fst (io_run (executeFlowCmd m h) malformedRefsWorld)) = [NoBody].
Proof.
  vm_compute pendingFlow. cbv beta iota zeta.
  match goal with
  | |- snd (io_run (executeFlowCmd ?m ?h) _) = None /\ _ =>
      destruct (pending_commands_do_not_fault
                  (after (untilExecuting happyWorld "feature/login"))
                  (RunExecuteFlow m) (executeFlowCmd m h) malformedRefsWorld
                  (fst (io_run (executeFlowCmd m h) malformedRefsWorld)))
        as (_ & Hb & _);
        [ apply (scenario_reachable (untilExecuting happyWorld "feature/login"));
          vm_compute; reflexivity
        | vm_compute; left; reflexivity
        | vm_compute; reflexivity
        | vm_compute; reflexivity
        | split; [vm_compute; reflexivity | exact Hb] ]
  end.
Defined.

Lemma selection_witness :
  let p := after [Complete happyWorld; Complete happyWorld] in
  state (current p) = stateSelectWorkspace /\
  exists m',
    Update (current p) (store p) (KeyMsg "enter")
      = Some (m', store p ++ [devWorkspace], RunFetchGitConnection m' "ws-dev") /\
    state m' = stateLoadingGit.
Proof.
  intros p. split; [vm_compute; reflexivity|].
  destruct (selection_fetches_the_git_link (current p) (store p) {| workspace := devWorkspace |})
    as (m' & Hup & Hst & _); [vm_compute; reflexivity .. |].
  exists m'. split; [exact Hup | exact Hst].
Defined.

Lemma git_link_store_witness :
  let p := after [Complete happyWorld; Complete happyWorld; Deliver (KeyMsg "enter")] in
  let p' := after (untilBranchPrompt happyWorld) in
  exists q ws',
    selectedDevWorkspace (current p) = Some q /\
    store p' !! q = Some ws' /\
    wsGitProviderDetails ws' = Some devLink /\
    Id ws' = "ws-dev" /\ CapacityId ws' = "cap-1".
Proof.
  intros p p'.
  destruct (git_link_store_is_local (current p) (store p) devLink (current p') (store p')
              (WidgetCmd textinput_Blink))
    as (q & ws & ws' & Hq & Hws & Hws' & Hg & Hid & _ & _ & _ & Hcap & _);
    [discriminate | vm_compute; reflexivity |].
  exists q, ws'. split; [exact Hq|]. split; [exact Hws'|]. split; [exact Hg|].
  assert (Hw : ws = devWorkspace).
  { revert Hq Hws. vm_compute. intros [= <-]. intros [= <-]. reflexivity. }
  rewrite Hid, Hcap, Hw. split; reflexivity.
Defined.

Lemma missing_git_link_witness :
  let p := after [Complete happyWorld; Complete happyWorld; Deliver (KeyMsg "enter")] in
  snd (io_run (fetchGitConnectionCmd (current p) "ws-dev") noContentWorld)
  = Some (gitConnectionMsg None).
Proof.
  intros p.
  destruct (missing_git_link_ends_in_error (current p) "ws-dev" noContentWorld
              {| cred := 1%nat |} "token" {| StatusCode := 204; RawBody := "" |})
    as (Hrun & _);
    [ first [left; reflexivity | vm_compute; reflexivity] .. | rewrite Hrun; reflexivity ].
Defined.

Lemma workspace_facade_witness :
  fabricCall POST "/workspaces/ws-new/git/updateFromGit" (UpdateFromGitBody "PreferRemote" true)
    [] (fst (UpdateWorkspaceFromGit readyFabric "ws-new" happyWorld [])).
Proof.
  destruct (workspace_facade_endpoints readyFabric happyWorld []) as (_ & _ & _ & _ & _ & H).
  exact (H "ws-new" _ _ (surjective_pairing _)).
Defined.
